(** * cho-python-sample: pose estimation, stitching and robot set-up scripts

    A shallow embedding of the numerical helpers and script bodies of

    - [src/project/pose_estimation/pose_estimation_test.py]
    - [src/zivid/stitching/stitch_via_local_point_cloud_registration.py]
    - [src/zivid/stitching/stitch_via_local_point_cloud_registration_shoes.py]
    - [zivid/stitching/stitch_continuously_capture_visulaize.py]
    - [src/zivid/stitching_multi_camera/multicam_cal.py]
    - [src/project/UR_communication_test/universal_robots_comm_test.py]

    Numbers.  A NumPy float is modelled as an extended rational: [NaN], the
    two infinities, or a finite value carried exactly as a canonical rational
    ([Qc]).  The special values follow the IEEE 754 rules NumPy uses (NaN is
    absorbing, [inf - inf] and [0 * inf] are NaN, every ordered comparison
    with NaN is false).  Rounding, overflow and the sign of zero are not
    modelled: finite arithmetic is exact.  The statements below therefore
    take as hypotheses the finiteness of the values the code computes (not
    only of its inputs) wherever an overflow would change the result, and
    state no equality that rounding would break.

    Objects.  NumPy arrays are mutable and passed by reference, so the pose
    estimation helpers run in a state-and-exception monad over a store of
    arrays; a Python exception leaves the store as it was when it was raised.

    Libraries.  What NumPy, Open3D, the Zivid SDK and the RTDE client compute
    (square roots, SVD, registration, voxel down-sampling, the answers of the
    robot controller) is taken through interfaces ([NumPy], [ZividSDK], ...);
    the scripts are modelled on top of them. *)

From Stdlib Require Import QArith Qcanon ZArith.
From stdpp Require Import gmap list strings.

Local Open Scope Qc_scope.

(** ** Scalars *)

Inductive scalar := NaN | PInf | NInf | Fin (q : Qc).

Global Instance scalar_eq_dec : EqDecision scalar.
Proof. solve_decision. Defined.

Definition Qz (z : Z) : Qc := Q2Qc (inject_Z z).

(** A Python [int] used where NumPy expects a float. *)
Definition of_int (z : Z) : scalar := Fin (Qz z).

(** [np.isnan], [np.isinf], [np.isfinite] on one element. *)
Definition isnan (x : scalar) : bool :=
  match x with NaN => true | _ => false end.

Definition isinf (x : scalar) : bool :=
  match x with PInf | NInf => true | _ => false end.

Definition isfinite (x : scalar) : bool :=
  match x with Fin _ => true | _ => false end.

(** The sign of a scalar that is not NaN, as a comparison with zero. *)
Definition sign (x : scalar) : comparison :=
  match x with
  | PInf => Gt
  | NInf => Lt
  | Fin q => q ?= 0
  | NaN => Eq
  end.

Definition sign_mul (a b : comparison) : comparison :=
  match a, b with
  | Eq, _ | _, Eq => Eq
  | Gt, Gt | Lt, Lt => Gt
  | Gt, Lt | Lt, Gt => Lt
  end.

(** The infinity of a given sign; a zero sign stands for an invalid
    operation ([0 * inf], [0 / 0]). *)
Definition inf_of_sign (c : comparison) : scalar :=
  match c with Gt => PInf | Lt => NInf | Eq => NaN end.

Definition sneg (x : scalar) : scalar :=
  match x with
  | NaN => NaN
  | PInf => NInf
  | NInf => PInf
  | Fin q => Fin (- q)
  end.

Definition sadd (x y : scalar) : scalar :=
  match x, y with
  | NaN, _ | _, NaN => NaN
  | PInf, NInf | NInf, PInf => NaN
  | PInf, _ | _, PInf => PInf
  | NInf, _ | _, NInf => NInf
  | Fin a, Fin b => Fin (a + b)
  end.

Definition ssub (x y : scalar) : scalar := sadd x (sneg y).

Definition smul (x y : scalar) : scalar :=
  match x, y with
  | NaN, _ | _, NaN => NaN
  | Fin a, Fin b => Fin (a * b)
  | _, _ => inf_of_sign (sign_mul (sign x) (sign y))
  end.

Definition sdiv (x y : scalar) : scalar :=
  match x, y with
  | NaN, _ | _, NaN => NaN
  | Fin a, Fin b =>
      if bool_decide (b = 0) then inf_of_sign (a ?= 0) else Fin (a / b)
  | Fin _, _ => Fin 0
  | _, Fin b =>
      inf_of_sign (sign_mul (sign x) (match b ?= 0 with Lt => Lt | _ => Gt end))
  | _, _ => NaN
  end.

(** Ordered comparison; [None] when an operand is NaN. *)
Definition scompare (x y : scalar) : option comparison :=
  match x, y with
  | NaN, _ | _, NaN => None
  | Fin a, Fin b => Some (a ?= b)
  | PInf, PInf | NInf, NInf => Some Eq
  | PInf, _ | _, NInf => Some Gt
  | NInf, _ | _, PInf => Some Lt
  end.

Definition slt (x y : scalar) : bool :=
  match scompare x y with Some Lt => true | _ => false end.

Definition sgt (x y : scalar) : bool :=
  match scompare x y with Some Gt => true | _ => false end.

Definition sle (x y : scalar) : bool :=
  match scompare x y with Some Lt | Some Eq => true | _ => false end.

Definition sge (x y : scalar) : bool :=
  match scompare x y with Some Gt | Some Eq => true | _ => false end.

(** The floating-point types of the arrays, and the largest finite value of
    each ([np.finfo(dtype).max]): [(2 - 2^-23) * 2^127] and
    [(2 - 2^-52) * 2^1023]. *)
Inductive dtype := float32 | float64.

Definition finfo_max (d : dtype) : Qc :=
  match d with
  | float32 => Qz (2 ^ 128 - 2 ^ 104)
  | float64 => Qz (2 ^ 1024 - 2 ^ 971)
  end.

(** [copy_data("xyz")] of the Zivid SDK gives a [float32] array, and every
    array the scripts hand to [np.nan_to_num] is such an array (or a copy of
    one): the replacement of an infinity is the largest finite [float32]. *)
Definition xyz_dtype : dtype := float32.

Definition float_max : Qc := finfo_max xyz_dtype.

(** [np.nan_to_num] on one element of an [xyz] array, with its default
    replacements: 0 for NaN, the largest finite value of the type of the
    array and its opposite for the infinities. *)
Definition nan_to_num (x : scalar) : scalar :=
  match x with
  | NaN => Fin 0
  | PInf => Fin float_max
  | NInf => Fin (- float_max)
  | Fin q => Fin q
  end.

(** ** Vectors and matrices of fixed shape *)

Record vec3 := V3 { v0 : scalar; v1 : scalar; v2 : scalar }.
Record vec4 := V4 { w0 : scalar; w1 : scalar; w2 : scalar; w3 : scalar }.

(** Matrices are stored by rows, as NumPy prints them. *)
Record mat3 := M3 { a0 : vec3; a1 : vec3; a2 : vec3 }.
Record mat4 := M4 { b0 : vec4; b1 : vec4; b2 : vec4; b3 : vec4 }.

Global Instance vec3_eq_dec : EqDecision vec3.
Proof. solve_decision. Defined.
Global Instance vec4_eq_dec : EqDecision vec4.
Proof. solve_decision. Defined.
Global Instance mat3_eq_dec : EqDecision mat3.
Proof. solve_decision. Defined.
Global Instance mat4_eq_dec : EqDecision mat4.
Proof. solve_decision. Defined.

Definition vec3_map (f : scalar → scalar) (v : vec3) : vec3 :=
  V3 (f (v0 v)) (f (v1 v)) (f (v2 v)).

Definition vec3_zip (f : scalar → scalar → scalar) (u v : vec3) : vec3 :=
  V3 (f (v0 u) (v0 v)) (f (v1 u) (v1 v)) (f (v2 u) (v2 v)).

Definition vec3_to_list (v : vec3) : list scalar := [v0 v; v1 v; v2 v].

Definition vec3_neg : vec3 → vec3 := vec3_map sneg.
Definition vec3_add : vec3 → vec3 → vec3 := vec3_zip sadd.
Definition vec3_sub : vec3 → vec3 → vec3 := vec3_zip ssub.

Definition zero3 : vec3 := V3 (Fin 0) (Fin 0) (Fin 0).
Definition nan3 : vec3 := V3 NaN NaN NaN.

(** [np.isnan(p).any()] and the finiteness of a point. *)
Definition vec3_any_nan (v : vec3) : bool := existsb isnan (vec3_to_list v).
Definition vec3_finite (v : vec3) : bool := forallb isfinite (vec3_to_list v).

(** [np.cross] of two 3-vectors. *)
Definition cross (a b : vec3) : vec3 :=
  V3 (ssub (smul (v1 a) (v2 b)) (smul (v2 a) (v1 b)))
     (ssub (smul (v2 a) (v0 b)) (smul (v0 a) (v2 b)))
     (ssub (smul (v0 a) (v1 b)) (smul (v1 a) (v0 b))).

(** [m[:3, 2]] of a 3x3 array. *)
Definition mat3_col2 (m : mat3) : vec3 := V3 (v2 (a0 m)) (v2 (a1 m)) (v2 (a2 m)).

Inductive idx4 := J0 | J1 | J2 | J3.

Definition vec4_get (r : vec4) (j : idx4) : scalar :=
  match j with J0 => w0 r | J1 => w1 r | J2 => w2 r | J3 => w3 r end.

Definition vec4_set (r : vec4) (j : idx4) (x : scalar) : vec4 :=
  match j with
  | J0 => V4 x (w1 r) (w2 r) (w3 r)
  | J1 => V4 (w0 r) x (w2 r) (w3 r)
  | J2 => V4 (w0 r) (w1 r) x (w3 r)
  | J3 => V4 (w0 r) (w1 r) (w2 r) x
  end.

(** [m[:, j]] of a 4x4 array. *)
Definition mat4_col (m : mat4) (j : idx4) : vec4 :=
  V4 (vec4_get (b0 m) j) (vec4_get (b1 m) j) (vec4_get (b2 m) j) (vec4_get (b3 m) j).

(** The effect of the slice assignment [m[:3, j] = v] on a 4x4 array. *)
Definition mat4_set_col3 (m : mat4) (j : idx4) (v : vec3) : mat4 :=
  M4 (vec4_set (b0 m) j (v0 v)) (vec4_set (b1 m) j (v1 v))
     (vec4_set (b2 m) j (v2 v)) (b3 m).

(** [np.identity(4)], [np.eye(4)]. *)
Definition identity4 : mat4 :=
  M4 (V4 (Fin 1) (Fin 0) (Fin 0) (Fin 0)) (V4 (Fin 0) (Fin 1) (Fin 0) (Fin 0))
     (V4 (Fin 0) (Fin 0) (Fin 1) (Fin 0)) (V4 (Fin 0) (Fin 0) (Fin 0) (Fin 1)).

Definition vec4_dot (a b : vec4) : scalar :=
  sadd (sadd (sadd (smul (w0 a) (w0 b)) (smul (w1 a) (w1 b))) (smul (w2 a) (w2 b)))
       (smul (w3 a) (w3 b)).

Definition vec4_mat4 (r : vec4) (m : mat4) : vec4 :=
  V4 (vec4_dot r (mat4_col m J0)) (vec4_dot r (mat4_col m J1))
     (vec4_dot r (mat4_col m J2)) (vec4_dot r (mat4_col m J3)).

(** The matrix product [a @ b] of two 4x4 arrays. *)
Definition matmul4 (a b : mat4) : mat4 :=
  M4 (vec4_mat4 (b0 a) b) (vec4_mat4 (b1 a) b) (vec4_mat4 (b2 a) b) (vec4_mat4 (b3 a) b).

(** The first three entries of a column of a 4x4 array. *)
Definition top3 (c : vec4) : vec3 := V3 (w0 c) (w1 c) (w2 c).

(** ** Arrays, exceptions and the store *)

(** An organised point cloud array of shape (H, W, 3), row by row. *)
Abbreviation image := (list (list vec3)).

(** One pixel of a colour image of shape (H, W, 4), with [uint8] channels. *)
Record rgba_px := RGBA { red : Z; green : Z; blue : Z; alpha : Z }.

Global Instance rgba_px_eq_dec : EqDecision rgba_px.
Proof. solve_decision. Defined.

Abbreviation rgba_image := (list (list rgba_px)).

(** A boolean array of shape (H, W). *)
Abbreviation mask := (list (list bool)).

(** The NumPy arrays the scripts handle, by the shape their annotations give. *)
Inductive ndarray :=
| AVec3 (v : vec3)
| AMat3 (m : mat3)
| AMat4 (m : mat4)
| AImage (px : image)
| ARgba (px : rgba_image).

Global Instance ndarray_eq_dec : EqDecision ndarray.
Proof. solve_decision. Defined.

(** The Python exceptions the scripts can end with.  [ShapeError] stands for
    NumPy's errors on an array that has not the annotated shape, [InvalidRef]
    for a reference to no object (Python has none; the store is total on the
    references a program holds). *)
Inductive exn :=
| ShapeError
| IndexError
| InvalidRef
| LinAlgError
| AssertionError (capture : nat)
| RuntimeError (msg : string)
| UnboundLocalError (name : string).

Global Instance exn_eq_dec : EqDecision exn.
Proof. solve_decision. Defined.

Inductive outcome (A : Type) :=
| Ok (a : A)
| Raise (e : exn).
Arguments Ok {A} a.
Arguments Raise {A} e.

Global Instance outcome_eq_dec `{EqDecision A} : EqDecision (outcome A).
Proof. solve_decision. Defined.

(** State and exceptions: a computation ends with a value or an exception,
    and in both cases with the state it reached. *)
Definition M (S A : Type) : Type := S → outcome A * S.

Definition ret {S A} (a : A) : M S A := λ s, (Ok a, s).

Definition raise {S A} (e : exn) : M S A := λ s, (Raise e, s).

Definition bind {S A B} (m : M S A) (k : A → M S B) : M S B :=
  λ s, match m s with
       | (Ok a, s') => k a s'
       | (Raise e, s') => (Raise e, s')
       end.

Notation "'let*' x ':=' m 'in' k" := (bind m (λ x, k))
  (at level 10, x name, m at level 100, k at level 200).

Notation "'let*' ' p ':=' m 'in' k" := (bind m (λ x, match x with p => k end))
  (at level 10, p pattern, m at level 100, k at level 200).

Definition outcome_bind {A B} (o : outcome A) (k : A → outcome B) : outcome B :=
  match o with Ok a => k a | Raise e => Raise e end.

Definition is_ok {A} (o : outcome A) : bool :=
  match o with Ok _ => true | Raise _ => false end.

(** References to arrays, and the store that holds the arrays. *)
Abbreviation loc := nat (only parsing).
Abbreviation store := (gmap nat ndarray).

(** A new array object. *)
Definition alloc (v : ndarray) : M store loc :=
  λ σ, let l := fresh (dom σ) in (Ok l, <[l := v]> σ).

Definition load (l : loc) : M store ndarray :=
  λ σ, match σ !! l with
       | Some v => (Ok v, σ)
       | None => (Raise InvalidRef, σ)
       end.

(** Overwriting the contents of an existing array object in place. *)
Definition assign (l : loc) (v : ndarray) : M store unit :=
  λ σ, match σ !! l with
       | Some _ => (Ok tt, <[l := v]> σ)
       | None => (Raise InvalidRef, σ)
       end.

Definition load_vec3 (l : loc) : M store vec3 :=
  let* v := load l in
  match v with AVec3 x => ret x | _ => raise ShapeError end.

Definition load_mat3 (l : loc) : M store mat3 :=
  let* v := load l in
  match v with AMat3 x => ret x | _ => raise ShapeError end.

Definition load_mat4 (l : loc) : M store mat4 :=
  let* v := load l in
  match v with AMat4 x => ret x | _ => raise ShapeError end.

Definition load_image (l : loc) : M store image :=
  let* v := load l in
  match v with AImage x => ret x | _ => raise ShapeError end.

Definition load_rgba (l : loc) : M store rgba_image :=
  let* v := load l in
  match v with ARgba x => ret x | _ => raise ShapeError end.

(** [m[:3, j] = v] on the 4x4 array at [l]. *)
Definition setitem_col3 (l : loc) (j : idx4) (v : vec3) : M store unit :=
  let* m := load_mat4 l in
  assign l (AMat4 (mat4_set_col3 m j v)).

Definition same_shape {A B} (x : list (list A)) (y : list (list B)) : bool :=
  bool_decide (length <$> x = length <$> y).

Definition mask_assign (img : image) (m : mask) (v : vec3) : image :=
  zip_with (zip_with (λ p (b : bool), if b then v else p)) img m.

(** [a[m] = x] on the (H, W, 3) array at [l], for a boolean (H, W) array [m]:
    every selected pixel gets [x] in its three coordinates. *)
Definition setitem_mask (l : loc) (m : mask) (x : scalar) : M store unit :=
  let* img := load_image l in
  if same_shape img m then assign l (AImage (mask_assign img m (V3 x x x)))
  else raise IndexError.

(** [a[m]] for a boolean (H, W) array [m]: the selected pixels, row by row. *)
Definition boolean_index (img : image) (m : mask) : list vec3 :=
  concat (zip_with (λ row mrow, fst <$> filter (λ pb, snd pb = true) (zip row mrow)) img m).

(** [a.reshape(-1, 3)] of an (H, W, 3) array. *)
Definition reshape_nx3 {A} (img : list (list A)) : list A := concat img.

(** [np.nan_to_num] of an (H, W, 3) array. *)
Definition nan_to_num_image (img : image) : image :=
  map (map (vec3_map nan_to_num)) img.

(** ** What NumPy computes *)

(** The functions of NumPy the scripts call and whose results are not fixed
    here: the square root, cosine and sine of a finite value, the singular
    value decomposition of a 3x3 array ([None]: [LinAlgError]) and the inverse
    of a 4x4 array ([None]: [LinAlgError]). *)
Class NumPy := {
  sqrt_fin : Qc → Qc;
  cos_fin : Qc → Qc;
  sin_fin : Qc → Qc;
  np_linalg_svd : mat3 → option (mat3 * vec3 * mat3);
  np_linalg_inv : mat4 → option mat4
}.

Section NumPyOps.
Context `{NumPy}.

Definition ssqrt (x : scalar) : scalar :=
  match x with
  | NaN | NInf => NaN
  | PInf => PInf
  | Fin q => match q ?= 0 with Lt => NaN | _ => Fin (sqrt_fin q) end
  end.

Definition scos (x : scalar) : scalar :=
  match x with Fin q => Fin (cos_fin q) | _ => NaN end.

Definition ssin (x : scalar) : scalar :=
  match x with Fin q => Fin (sin_fin q) | _ => NaN end.

(** [np.linalg.norm] along the last axis, for one pixel. *)
Definition norm3 (d : vec3) : scalar :=
  ssqrt (sadd (sadd (smul (v0 d) (v0 d)) (smul (v1 d) (v1 d))) (smul (v2 d) (v2 d))).

(** [np.linalg.norm(centroid - a, axis=2)]. *)
Definition radius_image (c : vec3) (img : image) : list (list scalar) :=
  map (map (λ p, norm3 (vec3_sub c p))) img.

Definition svd (m : mat3) : M store (mat3 * vec3 * mat3) :=
  match np_linalg_svd m with
  | Some usv => ret usv
  | None => raise LinAlgError
  end.

End NumPyOps.

(** [a.mean(axis=0)] of an (N, 3) array: the sum of the rows over [N]. *)
Definition mean_axis0 (pts : list vec3) : vec3 :=
  vec3_map (λ s, sdiv s (of_int (Z.of_nat (length pts)))) (fold_left vec3_add pts zero3).

(** [a.T] of an (N, 3) array: its three rows of length [N]. *)
Definition transpose_nx3 (d : list vec3) : list scalar * list scalar * list scalar :=
  (v0 <$> d, v1 <$> d, v2 <$> d).

Definition dot_list (a b : list scalar) : scalar :=
  fold_left sadd (zip_with smul a b) (Fin 0).

(** [np.dot] of a (3, N) array and an (N, 3) array. *)
Definition dot_3xn_nx3 (t : list scalar * list scalar * list scalar) (d : list vec3) : mat3 :=
  let row r := V3 (dot_list r (v0 <$> d)) (dot_list r (v1 <$> d)) (dot_list r (v2 <$> d)) in
  M3 (row t.1.1) (row t.1.2) (row t.2).

(** ** Open3D point clouds *)

Record o3d_cloud := O3D { o3d_points : list vec3; o3d_colors : list vec3 }.

Global Instance o3d_cloud_eq_dec : EqDecision o3d_cloud.
Proof. solve_decision. Defined.

(** [PointCloud.remove_non_finite_points(remove_nan=True, remove_infinite=True)]:
    a point with a NaN or infinite coordinate is dropped, with its colour when
    the cloud has colours (as many colours as points). *)
Definition remove_non_finite_points (pc : o3d_cloud) : o3d_cloud :=
  if bool_decide (length (o3d_colors pc) = length (o3d_points pc)) then
    let kept := filter (λ pc, vec3_finite pc.1 = true) (zip (o3d_points pc) (o3d_colors pc)) in
    O3D (kept.*1) (kept.*2)
  else O3D (filter (λ p, vec3_finite p = true) (o3d_points pc)) (o3d_colors pc).

(** [rgba[:, :, 0:3]] keeps the first three channels of every pixel. *)
Definition rgb_slice (img : rgba_image) : list (list (Z * Z * Z)) :=
  map (map (λ px, (red px, green px, blue px))) img.

(** [rgb / 255] on one pixel. *)
Definition over_255 (px : Z * Z * Z) : vec3 :=
  vec3_map (λ s, sdiv s (of_int 255)) (V3 (of_int px.1.1) (of_int px.1.2) (of_int px.2)).

(** ** pose_estimation_test.py *)

Section PoseEstimation.
Context `{NumPy}.

Definition _create_open3d_point_cloud (xyz rgba : loc) : M store o3d_cloud :=
  let* x := load_image xyz in
  let xyz_reshaped := reshape_nx3 (nan_to_num_image x) in
  let* c := load_rgba rgba in
  let rgb := reshape_nx3 (rgb_slice c) in
  let point_cloud_open3d := O3D xyz_reshaped (over_255 <$> rgb) in
  ret (remove_non_finite_points point_cloud_open3d).

(** [u_matrix[:3, 2]] is a view of [u_matrix]: it is read when it is used. *)
Definition view_col2 (u_matrix : loc) : M store vec3 :=
  let* m := load_mat3 u_matrix in ret (mat3_col2 m).

Definition _get_transformation_matrix (u_matrix point : loc) : M store loc :=
  let unit_vector := view_col2 u_matrix in
  let* transform := alloc (AMat4 identity4) in
  let unit_x := V3 (of_int 1) (of_int 0) (of_int 0) in
  let* uv := unit_vector in
  let y_axis := cross unit_x (vec3_neg uv) in
  let* uv := unit_vector in
  let x_axis := cross y_axis uv in
  let* _ := setitem_col3 transform J0 x_axis in
  let* _ := setitem_col3 transform J1 y_axis in
  let* uv := unit_vector in
  let* _ := setitem_col3 transform J2 uv in
  let* p := load_vec3 point in
  let* _ := setitem_col3 transform J3 p in
  ret transform.

Definition z_rotation_value (theta : scalar) : mat4 :=
  M4 (V4 (scos theta) (sneg (ssin theta)) (of_int 0) (of_int 0))
     (V4 (ssin theta) (scos theta) (of_int 0) (of_int 0))
     (V4 (of_int 0) (of_int 0) (of_int 1) (of_int 0))
     (V4 (of_int 0) (of_int 0) (of_int 0) (of_int 1)).

Definition _get_z_rotation_matrix (theta : scalar) : M store loc :=
  alloc (AMat4 (z_rotation_value theta)).

(** The pose this function computes and returns; the Open3D window it opens
    in between shows the cloud and changes no array. *)
Definition _display_point_cloud_with_coordinate_frame_on_a_point
    (point_cloud_open3d : o3d_cloud) (u_matrix point : loc) (z_rotation : scalar) : M store loc :=
  let* transform := _get_transformation_matrix u_matrix point in
  let* rotation_matrix := _get_z_rotation_matrix z_rotation in
  let* t := load_mat4 transform in
  let* r := load_mat4 rotation_matrix in
  alloc (AMat4 (matmul4 t r)).

Definition _roi_between_two_spheres
    (xyz centroid : loc) (inner_radius_threshold outer_radius_threshold : Z) : M store loc :=
  let* src := load_image xyz in
  let* xyz_filtered := alloc (AImage src) in
  let* c := load_vec3 centroid in
  let* cur := load_image xyz_filtered in
  let radius := radius_image c cur in
  let* _ := setitem_mask xyz_filtered
              (map (map (λ r, slt r (of_int inner_radius_threshold))) radius) NaN in
  let* _ := setitem_mask xyz_filtered
              (map (map (λ r, sgt r (of_int outer_radius_threshold))) radius) NaN in
  ret xyz_filtered.

Definition _plane_fit (points : loc) : M store (loc * loc) :=
  let* img := load_image points in
  let points_no_nan := boolean_index img (map (map (λ p, negb (vec3_any_nan p))) img) in
  let point_in_plane := mean_axis0 points_no_nan in
  let distance_to_mean_point := (λ p, vec3_sub p point_in_plane) <$> points_no_nan in
  let m := dot_3xn_nx3 (transpose_nx3 distance_to_mean_point) distance_to_mean_point in
  let* usv := svd m in
  let* u := alloc (AMat3 usv.1.1) in
  let* p := alloc (AVec3 point_in_plane) in
  ret (u, p).

End PoseEstimation.

(** ** Calling a helper on given arrays *)

(** The array a computation returns a reference to. *)
Definition value_at (r : outcome loc * store) : outcome ndarray :=
  match r with
  | (Ok l, σ) => match σ !! l with Some v => Ok v | None => Raise InvalidRef end
  | (Raise e, _) => Raise e
  end.

Definition values_at (r : outcome (loc * loc) * store) : outcome (ndarray * ndarray) :=
  match r with
  | (Ok (l1, l2), σ) =>
      match σ !! l1, σ !! l2 with
      | Some x, Some y => Ok (x, y)
      | _, _ => Raise InvalidRef
      end
  | (Raise e, _) => Raise e
  end.

(** A helper called on one array, or on two distinct arrays, that are the
    only objects of the store. *)
Definition call1 {A} (f : loc → M store A) (a : ndarray) : outcome A * store :=
  f 0%nat {[ 0%nat := a ]}.

Definition call2 {A} (f : loc → loc → M store A) (a b : ndarray) : outcome A * store :=
  f 0%nat 1%nat (<[ 1%nat := b ]> {[ 0%nat := a ]}).

(** ** Zivid frames and point clouds *)

(** A frame (a ZDF file, or a capture): an organised point cloud with its
    colours. *)
Record frame := Frame { frame_xyz : image; frame_rgba : rgba_image }.

(** A point of an [UnorganizedPointCloud]. *)
Record upoint := UPoint { xyz : vec3; rgba : rgba_px }.

Global Instance upoint_eq_dec : EqDecision upoint.
Proof. solve_decision. Defined.

Abbreviation cloud := (list upoint).

(** The action of a 4x4 homogeneous transform on a point: the first three
    entries of [m @ (p, 1)]. *)
Definition apply_transform (m : mat4) (p : vec3) : vec3 :=
  let h := V4 (v0 p) (v1 p) (v2 p) (Fin 1) in
  V3 (vec4_dot (b0 m) h) (vec4_dot (b1 m) h) (vec4_dot (b2 m) h).

(** [UnorganizedPointCloud.transformed(m)], and the cloud that the in-place
    [transform(m)] leaves. *)
Definition transformed (m : mat4) (c : cloud) : cloud :=
  (λ q, UPoint (apply_transform m (xyz q)) (rgba q)) <$> c.

(** [PointCloud.transform(m)] followed by [copy_data("xyz")]. *)
Definition transformed_xyz (m : mat4) (f : frame) : image :=
  map (map (apply_transform m)) (frame_xyz f).

Record lpcr_parameters := LpcrParameters {
  max_iterations : Z;
  max_correspondence_distance : Z
}.

Record lpcr_result := LpcrResult { converged : bool; transform : mat4 }.

Record detection_result := DetectionResult { valid : bool; feature_points : list vec3 }.

Record multi_camera_output := MultiCameraOutput {
  output_valid : bool;
  transforms : list mat4;
  residuals : list scalar
}.

(** The functions of the Zivid SDK the scripts call and whose results are
    not fixed here.  [local_point_cloud_registration] takes the target, the
    source, the parameters and the initial transform when one is given. *)
Class ZividSDK := {
  to_unorganized_point_cloud : frame → cloud;
  voxel_downsampled : cloud → Qc → nat → cloud;
  LocalPointCloudRegistrationParameters : lpcr_parameters;
  local_point_cloud_registration :
    cloud → cloud → lpcr_parameters → option mat4 → lpcr_result;
  detect_feature_points : frame → detection_result;
  calibrate_multi_camera : list detection_result → multi_camera_output
}.

(** Exceptions without a store. *)
Notation "'let+' x ':=' o 'in' k" := (outcome_bind o (λ x, k))
  (at level 10, x name, o at level 100, k at level 200).

(** A [for] loop over [xs] that threads a state and stops at an exception. *)
Fixpoint for_each {A St} (body : St → A → outcome St) (xs : list A) (s : St) : outcome St :=
  match xs with
  | [] => Ok s
  | x :: xs' => let+ s' := body s x in for_each body xs' s'
  end.

Definition half : Qc := Q2Qc (1 # 2).
Definition three_quarters : Qc := Q2Qc (3 # 4).

(** ** stitch_via_local_point_cloud_registration.py *)

Module TwoClouds.
Section Script.
Context `{ZividSDK}.

(** [_main], from the two loaded frames to the stitched cloud before and
    after the final down-sampling. *)
Definition _main (frame_1 frame_2 : frame) : outcome (cloud * cloud) :=
  let unorganized_point_cloud_1 := to_unorganized_point_cloud frame_1 in
  let unorganized_point_cloud_2 := to_unorganized_point_cloud frame_2 in
  let unorganized_point_cloud_1_lpcr := voxel_downsampled unorganized_point_cloud_1 1 3 in
  let unorganized_point_cloud_2_lpcr := voxel_downsampled unorganized_point_cloud_2 1 3 in
  let registration_params := LocalPointCloudRegistrationParameters in
  let local_point_cloud_registration_result :=
    local_point_cloud_registration
      unorganized_point_cloud_1_lpcr unorganized_point_cloud_2_lpcr registration_params None in
  if converged local_point_cloud_registration_result then
    let point_cloud_1_to_point_cloud_2_transform := transform local_point_cloud_registration_result in
    let final_point_cloud := [] ++ unorganized_point_cloud_1 in
    let unorganized_point_cloud_2_transformed :=
      transformed point_cloud_1_to_point_cloud_2_transform unorganized_point_cloud_2 in
    let final_point_cloud := final_point_cloud ++ unorganized_point_cloud_2_transformed in
    Ok (final_point_cloud, voxel_downsampled final_point_cloud half 1)
  else Raise (AssertionError 2).

End Script.
End TwoClouds.

(** ** stitch_via_local_point_cloud_registration_shoes.py *)

Module Shoes.
Section Script.
Context `{ZividSDK}.

Definition registration_params : lpcr_parameters :=
  {| max_iterations := 800; max_correspondence_distance := 15 |}.

(** Lines 50 to 65: the first two clouds.  [AssertionError k] is the failed
    assertion about file [0k.zdf]. *)
Definition first_pair (unorganized_point_clouds : nat → cloud) : outcome cloud :=
  let stitched_point_cloud := [] ++ unorganized_point_clouds 0%nat in
  let target_lpcr := unorganized_point_clouds 0%nat in
  let source := unorganized_point_clouds 1%nat in
  let source_lpcr := source in
  let local_point_cloud_registration_result :=
    local_point_cloud_registration target_lpcr source_lpcr registration_params None in
  if converged local_point_cloud_registration_result then
    let source_transformed := transformed (transform local_point_cloud_registration_result) source in
    let stitched_point_cloud := stitched_point_cloud ++ source_transformed in
    Ok (voxel_downsampled stitched_point_cloud 1 1)
  else Raise (AssertionError 2).

(** Lines 73 to 93: the body of the loop, for one [i]. *)
Definition loop_body (unorganized_point_clouds : nat → cloud)
    (stitched_point_cloud : cloud) (i : nat) : outcome cloud :=
  let target_lpcr := stitched_point_cloud in
  let source := unorganized_point_clouds i in
  let source_lpcr := source in
  let local_point_cloud_registration_result :=
    local_point_cloud_registration target_lpcr source_lpcr registration_params None in
  if converged local_point_cloud_registration_result then
    let source_transformed := transformed (transform local_point_cloud_registration_result) source in
    let stitched_point_cloud := stitched_point_cloud ++ source_transformed in
    Ok (voxel_downsampled stitched_point_cloud 1 1)
  else Raise (AssertionError (i + 1)).

(** [_main], from the five loaded frames ([frames i] is file [0(i+1).zdf])
    to the stitched cloud before and after the final down-sampling. *)
Definition _main (frames : nat → frame) : outcome (cloud * cloud) :=
  let unorganized_point_clouds i := to_unorganized_point_cloud (frames i) in
  let+ stitched_point_cloud := first_pair unorganized_point_clouds in
  let+ stitched_point_cloud :=
    for_each (loop_body unorganized_point_clouds) (seq 2 3) stitched_point_cloud in
  Ok (stitched_point_cloud, voxel_downsampled stitched_point_cloud half 1).

End Script.
End Shoes.

(** ** stitch_continuously_capture_visulaize.py *)

Module Continuous.
Section Script.
Context `{ZividSDK} `{NumPy}.

Record loop_state := LoopState {
  previous_to_current_point_cloud_transform : mat4;
  unorganized_stitched_point_cloud : cloud
}.

Global Instance loop_state_eq_dec : EqDecision loop_state.
Proof. solve_decision. Defined.

(** Lines 98 to 117: the body of the loop for one capture; [camera n] is the
    frame the [n]-th capture returns. *)
Definition loop_body (camera : nat → frame) (st : loop_state) (number_of_captures : nat)
    : outcome loop_state :=
  let frame := camera number_of_captures in
  let unorganized_point_cloud := voxel_downsampled (to_unorganized_point_cloud frame) 1 2 in
  if negb (number_of_captures =? 0)%nat then
    let local_point_cloud_registration_result :=
      local_point_cloud_registration
        (unorganized_stitched_point_cloud st) unorganized_point_cloud
        LocalPointCloudRegistrationParameters
        (Some (previous_to_current_point_cloud_transform st)) in
    if negb (converged local_point_cloud_registration_result) then Ok st
    else
      let previous_to_current := transform local_point_cloud_registration_result in
      match np_linalg_inv previous_to_current with
      | None => Raise LinAlgError
      | Some inverse =>
          Ok (LoopState previous_to_current
                (transformed inverse (unorganized_stitched_point_cloud st)
                 ++ unorganized_point_cloud))
      end
  else
    Ok (LoopState (previous_to_current_point_cloud_transform st)
          (unorganized_stitched_point_cloud st ++ unorganized_point_cloud)).

Definition initial_state : loop_state := LoopState identity4 [].

(** [_main]: twenty captures, then the final down-sampling. *)
Definition _main (camera : nat → frame) : outcome cloud :=
  let+ st := for_each (loop_body camera) (seq 0 20) initial_state in
  Ok (voxel_downsampled (unorganized_stitched_point_cloud st) three_quarters 2).

End Script.
End Continuous.

(** ** multicam_cal.py *)

Module MultiCam.

(** The files [img01.zdf], [img02.zdf], ... and [img_test_01.zdf], ... of the
    working directory, by their number. *)
Record directory := Directory {
  img : gmap nat frame;
  img_test : gmap nat frame
}.

(** The calls to the calibration part of the SDK, in the order they are made. *)
Inductive sdk_call :=
| DetectFeaturePoints (idata : nat)
| CalibrateMultiCamera (inputs : nat).

Global Instance sdk_call_eq_dec : EqDecision sdk_call.
Proof. solve_decision. Defined.

(** The loop variables of the stitching loop: [idata], and the two stitched
    arrays once they are bound. *)
Record stitch_state := StitchState {
  idata : nat;
  stitched : option (list vec3 * list (Z * Z * Z))
}.

Section Script.
Context `{ZividSDK}.
Variable dir : directory.

Definition call_detect (idata : nat) (f : frame) : M (list sdk_call) detection_result :=
  λ log, (Ok (detect_feature_points f), log ++ [DetectFeaturePoints idata]).

Definition call_calibrate (inputs : list detection_result) : M (list sdk_call) multi_camera_output :=
  λ log, (Ok (calibrate_multi_camera inputs), log ++ [CalibrateMultiCamera (length inputs)]).

(** Lines 16 to 34, the [while True] loop.  It leaves at the first number
    with no file, which is among the first [size (img dir) + 1] numbers; the
    loop is unfolded over these. *)
Fixpoint calibration_loop (idatas : list nat) (calibration_inputs : list detection_result)
    : M (list sdk_call) (list detection_result) :=
  match idatas with
  | [] => ret calibration_inputs
  | idata :: rest =>
      match img dir !! idata with
      | Some frame =>
          let* detection_result := call_detect idata frame in
          if negb (valid detection_result) then
            raise (RuntimeError "Failed to detect feature points from frame")
          else calibration_loop rest (calibration_inputs ++ [detection_result])
      | None => ret calibration_inputs
      end
  end.

(** Lines 51 to 71: the body of the stitching loop, for one [i]. *)
Definition stitch_body (transforms : list mat4) (st : stitch_state) (i : nat)
    : outcome stitch_state :=
  match img_test dir !! idata st with
  | Some frame =>
      match transforms !! i with
      | None => Raise IndexError
      | Some t =>
          let xyz := reshape_nx3 (nan_to_num_image (transformed_xyz t frame)) in
          let rgb := reshape_nx3 (rgb_slice (frame_rgba frame)) in
          if (i =? 0)%nat then Ok (StitchState (idata st + 1) (Some (xyz, rgb)))
          else
            match stitched st with
            | Some (stitched_xyz, stitched_rgb) =>
                Ok (StitchState (idata st + 1) (Some (stitched_xyz ++ xyz, stitched_rgb ++ rgb)))
            | None => Raise (UnboundLocalError "stitched_xyz")
            end
      end
  | None => Ok (StitchState (idata st + 1) (stitched st))
  end.

Definition stitch_loop (transforms : list mat4) : outcome stitch_state :=
  for_each (stitch_body transforms) (seq 0 (length transforms)) (StitchState 1 None).

Definition lift {St A} (o : outcome A) : M St A := λ s, (o, s).

(** [main], up to the cloud handed to the visualiser. *)
Definition main : M (list sdk_call) o3d_cloud :=
  let* calibration_inputs := calibration_loop (seq 1 (S (size (img dir)))) [] in
  let* results := call_calibrate calibration_inputs in
  if output_valid results then
    let transforms := transforms results in
    let* st := lift (stitch_loop transforms) in
    match stitched st with
    | Some (stitched_xyz, stitched_rgb) =>
        ret (remove_non_finite_points (O3D stitched_xyz (over_255 <$> stitched_rgb)))
    | None => raise (UnboundLocalError "stitched_xyz")
    end
  else raise (UnboundLocalError "transforms").

End Script.
End MultiCam.

(** ** universal_robots_comm_test.py *)

Module RobotComm.

(** The requests sent to the robot controller over RTDE. *)
Inductive rtde_call :=
| Connect (host : string) (port : Z)
| NegotiateProtocolVersion
| SendOutputSetup (names types : list string) (frequency : Z)
| SendInputSetup (names types : list string)
| SendStart.

Global Instance rtde_call_eq_dec : EqDecision rtde_call.
Proof. solve_decision. Defined.

(** The recipes of [universal_robots_communication_file.xml]. *)
Record config_file := ConfigFile {
  recipe_out : list string * list string;
  recipe_in : list string * list string
}.

(** The input package [send_input_setup] returns. *)
Record data_object := DataObject { recipe_names : list string }.

(** How a controller answers the set-up requests. *)
Class Controller := {
  negotiates : bool;
  accepts_output_setup : bool;
  starts : bool
}.

Record connection := RTDE { hostname : string; port : Z }.

Section Script.
Context `{Controller}.

Definition request {A} (c : rtde_call) (answer : A) : M (list rtde_call) A :=
  λ log, (Ok answer, log ++ [c]).

Definition connect (con : connection) : M (list rtde_call) unit :=
  request (Connect (hostname con) (port con)) tt.

Definition negotiate_protocol_version (con : connection) : M (list rtde_call) bool :=
  request NegotiateProtocolVersion negotiates.

Definition send_output_setup (con : connection) (names types : list string) (frequency : Z)
    : M (list rtde_call) bool :=
  request (SendOutputSetup names types frequency) accepts_output_setup.

Definition send_input_setup (con : connection) (names types : list string)
    : M (list rtde_call) data_object :=
  request (SendInputSetup names types) (DataObject names).

Definition send_start (con : connection) : M (list rtde_call) bool :=
  request SendStart starts.

Definition _initialize_robot_sync (conf : config_file) (host : string)
    : M (list rtde_call) (connection * data_object) :=
  let '(output_names, output_types) := recipe_out conf in
  let '(input_names, input_types) := recipe_in conf in
  let con := RTDE host 30004 in
  let* _ := connect con in
  let* ok := negotiate_protocol_version con in
  if negb ok then raise (RuntimeError "Protocol do not match") else
  let* ok := send_output_setup con output_names output_types 200 in
  if negb ok then raise (RuntimeError "Unable to configure output") else
  let* robot_input_data := send_input_setup con input_names input_types in
  let* ok := send_start con in
  if negb ok then raise (RuntimeError "Unable to start synchronization") else
  ret (con, robot_input_data).

End Script.
End RobotComm.

(** ** The arrays the pose estimation helpers build *)

Section Values.
Context `{NumPy}.

(** The contents of [transform] when [_get_transformation_matrix] returns. *)
Definition transformation_matrix_value (u : mat3) (point : vec3) : mat4 :=
  let unit_vector := mat3_col2 u in
  let y_axis := cross (V3 (of_int 1) (of_int 0) (of_int 0)) (vec3_neg unit_vector) in
  let x_axis := cross y_axis unit_vector in
  mat4_set_col3
    (mat4_set_col3 (mat4_set_col3 (mat4_set_col3 identity4 J0 x_axis) J1 y_axis) J2 unit_vector)
    J3 point.

(** The contents of [xyz_filtered] when [_roi_between_two_spheres] returns. *)
Definition roi_value (img : image) (c : vec3) (inner outer : Z) : image :=
  let radius := radius_image c img in
  mask_assign
    (mask_assign img (map (map (λ r, slt r (of_int inner))) radius) nan3)
    (map (map (λ r, sgt r (of_int outer))) radius) nan3.

(** The matrix handed to the SVD, and the mean, in [_plane_fit]. *)
Definition plane_fit_points (img : image) : list vec3 :=
  boolean_index img (map (map (λ p, negb (vec3_any_nan p))) img).

Definition plane_fit_matrix (img : image) : mat3 :=
  let d := (λ p, vec3_sub p (mean_axis0 (plane_fit_points img))) <$> plane_fit_points img in
  dot_3xn_nx3 (transpose_nx3 d) d.

(** The cloud [_create_open3d_point_cloud] builds before it removes points. *)
Definition open3d_cloud_value (img : image) (colours : rgba_image) : o3d_cloud :=
  O3D (reshape_nx3 (nan_to_num_image img)) (over_255 <$> reshape_nx3 (rgb_slice colours)).

(** The distance of a pixel to the centroid, as the script computes it. *)
Definition distance (c p : vec3) : scalar := norm3 (vec3_sub c p).

(** Pixel by pixel, the two masked assignments of [_roi_between_two_spheres]. *)
Definition roi_pixel (c : vec3) (inner outer : Z) (p : vec3) : vec3 :=
  if sgt (distance c p) (of_int outer) then nan3
  else if slt (distance c p) (of_int inner) then nan3 else p.

(** What each helper returns, from the contents of its array arguments. *)
Definition transformation_matrix_result (u point : ndarray) : outcome ndarray :=
  match u, point with
  | AMat3 um, AVec3 pv => Ok (AMat4 (transformation_matrix_value um pv))
  | _, _ => Raise ShapeError
  end.

Definition pose_result (u point : ndarray) (z_rotation : scalar) : outcome ndarray :=
  match u, point with
  | AMat3 um, AVec3 pv =>
      Ok (AMat4 (matmul4 (transformation_matrix_value um pv) (z_rotation_value z_rotation)))
  | _, _ => Raise ShapeError
  end.

Definition roi_result (xyz centroid : ndarray) (inner outer : Z) : outcome ndarray :=
  match xyz, centroid with
  | AImage img, AVec3 c => Ok (AImage (roi_value img c inner outer))
  | _, _ => Raise ShapeError
  end.

Definition plane_fit_result (points : ndarray) : outcome (ndarray * ndarray) :=
  match points with
  | AImage img =>
      match np_linalg_svd (plane_fit_matrix img) with
      | Some usv => Ok (AMat3 usv.1.1, AVec3 (mean_axis0 (plane_fit_points img)))
      | None => Raise LinAlgError
      end
  | _ => Raise ShapeError
  end.

End Values.

(** ** The plane fit in the words of its description *)

Definition has_no_nan (p : vec3) : bool :=
  negb (isnan (v0 p)) && negb (isnan (v1 p)) && negb (isnan (v2 p)).

(** The points of the array that have no NaN coordinate, row by row. *)
Definition points_without_nan (img : image) : list vec3 :=
  filter (λ p, has_no_nan p = true) (concat img).

(** The sum of a list, taken from the left as NumPy adds the rows of an
    array along its first axis. *)
Definition ssum (l : list scalar) : scalar := fold_left sadd l (Fin 0).

(** The arithmetic mean: the sum of each coordinate over the number of points. *)
Definition arithmetic_mean (pts : list vec3) : vec3 :=
  let n := of_int (Z.of_nat (length pts)) in
  V3 (sdiv (ssum (v0 <$> pts)) n) (sdiv (ssum (v1 <$> pts)) n) (sdiv (ssum (v2 <$> pts)) n).

(** The differences between each point and the mean. *)
Definition differences (pts : list vec3) (mean : vec3) : list vec3 :=
  (λ p, V3 (ssub (v0 p) (v0 mean)) (ssub (v1 p) (v1 mean)) (ssub (v2 p) (v2 mean))) <$> pts.

(** Entry [(i, j)] of [D^T . D]: the sum over the rows of [D] of the product
    of their coordinates [i] and [j]. *)
Definition scatter_entry (d : list vec3) (ci cj : vec3 → scalar) : scalar :=
  ssum ((λ row, smul (ci row) (cj row)) <$> d).

Definition scatter_matrix (d : list vec3) : mat3 :=
  M3 (V3 (scatter_entry d v0 v0) (scatter_entry d v0 v1) (scatter_entry d v0 v2))
     (V3 (scatter_entry d v1 v0) (scatter_entry d v1 v1) (scatter_entry d v1 v2))
     (V3 (scatter_entry d v2 v0) (scatter_entry d v2 v1) (scatter_entry d v2 v2)).

(** ** Instances of the interfaces, to run the scripts on given data *)

(** The root of a non-negative rational, rounded down on its numerator. *)
Definition sample_sqrt (q : Qc) : Qc :=
  Qz (Z.sqrt (Qnum q * Z.pos (Qden q))) / Qz (Z.pos (Qden q)).

Definition identity3 : mat3 :=
  M3 (V3 (Fin 1) (Fin 0) (Fin 0)) (V3 (Fin 0) (Fin 1) (Fin 0)) (V3 (Fin 0) (Fin 0) (Fin 1)).

Definition diagonal3 (a b c : Qc) : mat3 :=
  M3 (V3 (Fin a) (Fin 0) (Fin 0)) (V3 (Fin 0) (Fin b) (Fin 0)) (V3 (Fin 0) (Fin 0) (Fin c)).

(** An SVD for diagonal matrices with a decreasing non-negative diagonal
    only: there [U] and [Vh] are the identity. *)
Definition sample_svd (m : mat3) : option (mat3 * vec3 * mat3) :=
  match m with
  | M3 (V3 (Fin a) _ _) (V3 _ (Fin b) _) (V3 _ _ (Fin c)) =>
      if bool_decide (m = diagonal3 a b c ∧ c ≤ b ∧ b ≤ a ∧ 0 ≤ c)
      then Some (identity3, V3 (Fin a) (Fin b) (Fin c), identity3)
      else None
  | _ => None
  end.

Definition translation (t : vec3) : mat4 := mat4_set_col3 identity4 J3 t.

(** An inverse for translations only. *)
Definition sample_inv (m : mat4) : option mat4 :=
  let t := top3 (mat4_col m J3) in
  if bool_decide (m = translation t) then Some (translation (vec3_neg t)) else None.

(** Truncated Taylor series stand for the cosine and the sine. *)
Definition sample_numpy : NumPy := {|
  sqrt_fin := sample_sqrt;
  cos_fin := λ q, 1 - q * q / Qz 2;
  sin_fin := λ q, q - q * q * q / Qz 6;
  np_linalg_svd := sample_svd;
  np_linalg_inv := sample_inv
|}.

(** The valid points of a frame with their colours, row by row. *)
Definition sample_unorganized (f : frame) : cloud :=
  (λ pc, UPoint pc.1 pc.2)
    <$> filter (λ pc, vec3_any_nan pc.1 = false)
          (zip (concat (frame_xyz f)) (concat (frame_rgba f))).

(** A registration for clouds of equal size only: it converges there, to the
    translation that takes the first source point to the first target point. *)
Definition sample_registration (target source : cloud) (_ : lpcr_parameters)
    (_ : option mat4) : lpcr_result :=
  match target, source with
  | t :: _, s :: _ =>
      LpcrResult (bool_decide (length target = length source))
        (translation (vec3_sub (xyz t) (xyz s)))
  | _, _ => LpcrResult false identity4
  end.

(** Down-sampling that keeps every point, a detection that is valid on a
    frame with a point without NaN, and a calibration that answers the
    identity for every camera. *)
Definition sample_sdk : ZividSDK := {|
  to_unorganized_point_cloud := sample_unorganized;
  voxel_downsampled := λ c _ _, c;
  LocalPointCloudRegistrationParameters := LpcrParameters 100 10;
  local_point_cloud_registration := sample_registration;
  detect_feature_points := λ f,
    DetectionResult (bool_decide (points_without_nan (frame_xyz f) ≠ []))
                    (points_without_nan (frame_xyz f));
  calibrate_multi_camera := λ inputs,
    MultiCameraOutput true ((λ _, identity4) <$> inputs) []
|}.

Definition black : rgba_px := RGBA 0 0 0 255.

(** A frame of one row with the given points, all black. *)
Definition sample_frame (pts : list vec3) : frame := Frame [pts] [(λ _, black) <$> pts].

Definition ipoint (x y z : Z) : vec3 := V3 (of_int x) (of_int y) (of_int z).

(** ** Statements the scripts are compared with *)

Section Statements.
Context `{NumPy}.

(** The pose [_display_point_cloud_with_coordinate_frame_on_a_point] computes
    from given arrays. *)
Definition pose_of (cloud : o3d_cloud) (u_matrix : mat3) (point : vec3) (z_rotation : scalar)
    : outcome ndarray :=
  value_at (call2 (λ u p, _display_point_cloud_with_coordinate_frame_on_a_point
                            cloud u p z_rotation)
              (AMat3 u_matrix) (AVec3 point)).

(** "The translation of the pose is the plane point", for every input. *)
Definition pose_translation_is_point_everywhere : Prop :=
  ∀ (cloud : o3d_cloud) (u_matrix : mat3) (point : vec3) (theta : scalar),
    ∃ pose, pose_of cloud u_matrix point theta = Ok (AMat4 pose)
            ∧ mat4_col pose J3 = V4 (v0 point) (v1 point) (v2 point) (Fin 1).



End Statements.

(** A coordinate after [nan_to_num]: zero in place of NaN, itself if finite. *)
Definition nan_replaced_by_zero (x y : scalar) : Prop :=
  (isnan x = true → y = Fin 0) ∧ (isfinite x = true → y = x).

(** "A point with a NaN coordinate appears at the origin in the cloud
    [_create_open3d_point_cloud] returns", for every input. *)
Definition nan_points_at_origin_everywhere : Prop :=
  ∀ (img : image) (colours : rgba_image) (k : nat) (p : vec3),
    reshape_nx3 img !! k = Some p → vec3_any_nan p = true →
    ∃ pc, (call2 _create_open3d_point_cloud (AImage img) (ARgba colours)).1 = Ok pc
          ∧ o3d_points pc !! k = Some zero3.

(** A 3x3 array with a NaN in its third column. *)
Definition nan_u_matrix : mat3 :=
  M3 (V3 (Fin 1) (Fin 0) NaN) (V3 (Fin 0) (Fin 1) (Fin 0)) (V3 (Fin 0) (Fin 0) (Fin 1)).

(** ** Statements the stitching loops are compared with *)

Section StitchingStatements.
Context `{ZividSDK} `{NumPy}.

(** "The accumulated cloud after the iteration is the previous accumulated
    cloud extended with the new cloud brought into its frame by the
    registration transform, optionally followed by voxel down-sampling." *)
Definition extended_by_registration (previous new after : cloud) (t : mat4) : Prop :=
  after = previous ++ transformed t new
  ∨ ∃ voxel_size min_points_per_voxel,
      after = voxel_downsampled (previous ++ transformed t new) voxel_size min_points_per_voxel.

(** The cloud of capture [n] and its registration against the accumulated
    cloud, in the continuous loop. *)
Definition continuous_capture (camera : nat → frame) (n : nat) : cloud :=
  voxel_downsampled (to_unorganized_point_cloud (camera n)) 1 2.

Definition continuous_registration (camera : nat → frame) (st : Continuous.loop_state)
    (n : nat) : lpcr_result :=
  local_point_cloud_registration
    (Continuous.unorganized_stitched_point_cloud st) (continuous_capture camera n)
    LocalPointCloudRegistrationParameters
    (Some (Continuous.previous_to_current_point_cloud_transform st)).

(** That statement for every converged capture after the first of the
    continuous loop. *)
Definition continuous_extends_everywhere : Prop :=
  ∀ (camera : nat → frame) (st st' : Continuous.loop_state) (n : nat),
    n ≠ 0%nat →
    converged (continuous_registration camera st n) = true →
    Continuous.loop_body camera st n = Ok st' →
    extended_by_registration
      (Continuous.unorganized_stitched_point_cloud st) (continuous_capture camera n)
      (Continuous.unorganized_stitched_point_cloud st')
      (transform (continuous_registration camera st n)).

(** "Whenever the registration does not converge the script stops with an
    assertion failure", for every capture after the first of the continuous
    loop. *)
Definition continuous_asserts_everywhere : Prop :=
  ∀ (camera : nat → frame) (st : Continuous.loop_state) (n : nat),
    n ≠ 0%nat →
    converged (continuous_registration camera st n) = false →
    ∃ k, Continuous.loop_body camera st n = Raise (AssertionError k).

End StitchingStatements.

(** A camera that sees one point, at [(n, 0, 0)] in capture [n]. *)
Definition moving_point_camera (n : nat) : frame := sample_frame [ipoint (Z.of_nat n) 0 0].

(** A camera that sees one point in its first capture and two afterwards. *)
Definition growing_camera (n : nat) : frame :=
  if (n =? 0)%nat then sample_frame [ipoint 0 0 0]
  else sample_frame [ipoint 1 0 0; ipoint 2 0 0].

(** ** The loops of multicam_cal.py, described *)

Definition raises_runtime_error {A} (o : outcome A) : bool :=
  match o with Raise (RuntimeError _) => true | _ => false end.

Section MultiCamDescription.
Context `{ZividSDK}.
Variable dir : MultiCam.directory.

(** The first of the numbers [idatas], taken in order while their files
    exist, whose frame has no valid detection. *)
Fixpoint first_invalid (idatas : list nat) : option nat :=
  match idatas with
  | [] => None
  | idata :: rest =>
      match MultiCam.img dir !! idata with
      | Some f => if valid (detect_feature_points f) then first_invalid rest else Some idata
      | None => None
      end
  end.

(** The numbers on which the detection is called, in order. *)
Fixpoint detected (idatas : list nat) : list nat :=
  match idatas with
  | [] => []
  | idata :: rest =>
      match MultiCam.img dir !! idata with
      | Some f => idata :: (if valid (detect_feature_points f) then detected rest else [])
      | None => []
      end
  end.

(** The detections collected while they are valid. *)
Fixpoint collected (idatas : list nat) : list detection_result :=
  match idatas with
  | [] => []
  | idata :: rest =>
      match MultiCam.img dir !! idata with
      | Some f =>
          if valid (detect_feature_points f) then detect_feature_points f :: collected rest
          else []
      | None => []
      end
  end.

(** The two arrays the stitching loop gets from one frame. *)
Definition frame_arrays (t : mat4) (f : frame) : list vec3 * list (Z * Z * Z) :=
  (reshape_nx3 (nan_to_num_image (transformed_xyz t f)), reshape_nx3 (rgb_slice (frame_rgba f))).

(** The frames among the first [k] whose file exists, in order, each with
    its transform: frame [i + 1] goes with [transforms[i]]. *)
Definition loaded_frames (transforms : list mat4) (k : nat) : list (mat4 * frame) :=
  omap (λ i, match MultiCam.img_test dir !! (i + 1)%nat, transforms !! i with
             | Some f, Some t => Some (t, f)
             | _, _ => None
             end) (seq 0 k).

Definition loaded_arrays (transforms : list mat4) (k : nat) : list (list vec3 * list (Z * Z * Z)) :=
  (λ tf, frame_arrays tf.1 tf.2) <$> loaded_frames transforms k.

(** The number of points of a frame. *)
Definition point_count (f : frame) : nat := length (reshape_nx3 (frame_xyz f)).

End MultiCamDescription.

(** A controller that refuses the protocol version. *)
Definition refusing_controller : RobotComm.Controller :=
  {| RobotComm.negotiates := false;
     RobotComm.accepts_output_setup := true;
     RobotComm.starts := true |}.

Definition sample_config : RobotComm.config_file :=
  RobotComm.ConfigFile (["output_int_register_24"], ["INT32"])
                       (["input_bit_register_64"], ["BOOL"]).

(** Two test frames, of two points and of one point, and no calibration file. *)
Definition sample_directory : MultiCam.directory :=
  MultiCam.Directory ∅
    (<[2%nat := sample_frame [ipoint 7 8 9]]>
       {[1%nat := sample_frame [ipoint 1 2 3; nan3]]}).

(** ** Further parts of pose_estimation_test.py *)

(** The scalar product of two 3-vectors. *)
Definition dot3 (a b : vec3) : scalar :=
  sadd (sadd (smul (v0 a) (v0 b)) (smul (v1 a) (v1 b))) (smul (v2 a) (v2 b)).

Definition transpose3 (m : mat3) : mat3 :=
  M3 (V3 (v0 (a0 m)) (v0 (a1 m)) (v0 (a2 m)))
     (V3 (v1 (a0 m)) (v1 (a1 m)) (v1 (a2 m)))
     (V3 (v2 (a0 m)) (v2 (a1 m)) (v2 (a2 m))).

Definition zero_matrix3 : mat3 := M3 zero3 zero3 zero3.

Section PoseEstimationMore.
Context `{NumPy}.

(** Lines 146 to 189.  The two poses are computed one after the other and the
    first one is returned; the Open3D window in between changes no array. *)
Definition _display_point_cloud_with_coordinate_frame_on_two_points
    (point_cloud_open3d : o3d_cloud) (u_matrix u_matrix_modified point : loc)
    (z_rotation : scalar) : M store loc :=
  let* transform := _get_transformation_matrix u_matrix point in
  let* rotation_matrix := _get_z_rotation_matrix z_rotation in
  let* t := load_mat4 transform in
  let* r := load_mat4 rotation_matrix in
  let* pose := alloc (AMat4 (matmul4 t r)) in
  let* transform_modified := _get_transformation_matrix u_matrix_modified point in
  let* rotation_matrix_modified := _get_z_rotation_matrix z_rotation in
  let* tm := load_mat4 transform_modified in
  let* rm := load_mat4 rotation_matrix_modified in
  let* pose_modified := alloc (AMat4 (matmul4 tm rm)) in
  ret pose.

(** [main], lines 255 to 268: the target pixel [xyz[target_height,
    target_width]] (600 and 960 in the script), the region around it with
    thresholds 0 and 10, and the plane fitted on that region.  The target
    point is a view of [xyz], which nothing changes in between: it is handed
    on as an array of its own. *)
Definition main_plane_fit (xyz : loc) (target_height target_width : nat) : M store (loc * loc) :=
  let* img := load_image xyz in
  match img !! target_height ≫= (λ row, row !! target_width) with
  | None => raise IndexError
  | Some pixel =>
      let* target_point := alloc (AVec3 pixel) in
      let* mask_region := _roi_between_two_spheres xyz target_point 0 10 in
      _plane_fit mask_region
  end.

End PoseEstimationMore.

(** ** Calls of the pose estimation helpers on given arrays *)

Section PoseEstimationCalls.
Context `{NumPy}.

(** [_roi_between_two_spheres(xyz, centroid, inner, outer)]. *)
Definition roi_of (xyz : image) (centroid : vec3) (inner outer : Z) : outcome ndarray :=
  value_at (call2 (λ x cen, _roi_between_two_spheres x cen inner outer)
              (AImage xyz) (AVec3 centroid)).

(** [_plane_fit(points)]. *)
Definition plane_fit_of (points : image) : outcome (ndarray * ndarray) :=
  values_at (call1 _plane_fit (AImage points)).

(** The plane fit of [main] on the array [xyz] of a frame. *)
Definition main_plane_fit_of (xyz : image) (target_height target_width : nat)
    : outcome (ndarray * ndarray) :=
  values_at (call1 (λ x, main_plane_fit x target_height target_width) (AImage xyz)).

(** The distance to the centroid is at least [inner] and at most [outer]. *)
Definition within_shell (c : vec3) (inner outer : Z) (p : vec3) : bool :=
  sge (distance c p) (of_int inner) && sle (distance c p) (of_int outer).

End PoseEstimationCalls.

(** [a[i, j]] of a returned (H, W, 3) array. *)
Definition pixel_at (a : outcome ndarray) (i j : nat) : option vec3 :=
  match a with
  | Ok (AImage img) => img !! i ≫= (λ row, row !! j)
  | _ => None
  end.

(** ** The files multicam_cal.py reads *)

(** The calibration files [img01.zdf], ... of the directory are the frames
    [fs], each with a valid detection, and the next number has no file. *)
Definition calibration_files `{ZividSDK} (dir : MultiCam.directory) (fs : list frame) : Prop :=
  (∀ j f, fs !! j = Some f →
     MultiCam.img dir !! S j = Some f ∧ valid (detect_feature_points f) = true)
  ∧ MultiCam.img dir !! S (length fs) = None.

(** The calls [main] makes when it calibrates [k] cameras. *)
Definition calibration_log (k : nat) : list MultiCam.sdk_call :=
  (MultiCam.DetectFeaturePoints <$> seq 1 k) ++ [MultiCam.CalibrateMultiCamera k].

(** An SDK whose calibration does not succeed. *)
Definition failing_calibration_sdk : ZividSDK := {|
  to_unorganized_point_cloud := sample_unorganized;
  voxel_downsampled := λ c _ _, c;
  LocalPointCloudRegistrationParameters := LpcrParameters 100 10;
  local_point_cloud_registration := sample_registration;
  detect_feature_points := λ f,
    DetectionResult (bool_decide (points_without_nan (frame_xyz f) ≠ []))
                    (points_without_nan (frame_xyz f));
  calibrate_multi_camera := λ inputs, MultiCameraOutput false [] []
|}.

(** Two calibration files and two test frames, the first test frame with a
    point that has no data. *)
Definition two_camera_directory : MultiCam.directory :=
  MultiCam.Directory
    (<[2%nat := sample_frame [ipoint 0 0 1]]> {[1%nat := sample_frame [ipoint 0 0 0]]})
    (<[2%nat := sample_frame [ipoint 7 8 9]]>
       {[1%nat := sample_frame [ipoint 1 2 3; nan3]]}).

(** Two calibration files, and a second test frame without a first one. *)
Definition missing_first_directory : MultiCam.directory :=
  MultiCam.Directory
    (<[2%nat := sample_frame [ipoint 0 0 1]]> {[1%nat := sample_frame [ipoint 0 0 0]]})
    {[2%nat := sample_frame [ipoint 7 8 9]]}.

(** ** stitch_continuously_capture_visulaize.py with its live display *)

(** A loop in the state-and-exception monad: it stops at an exception. *)
Fixpoint for_each_m {A St S} (body : St → A → M S St) (xs : list A) (s : St) : M S St :=
  match xs with
  | [] => ret s
  | x :: xs' => let* s' := body s x in for_each_m body xs' s'
  end.

Module Live.

(** The calls made on the Open3D visualiser, in the order they are made.  A
    geometry stands for the contents the point cloud object has at the
    call. *)
Inductive vis_call :=
| CreateWindow (window_name : string) (width height : Z)
| AddGeometry (geometry : o3d_cloud)
| SetBackgroundColor
| UpdateGeometry (geometry : o3d_cloud)
| PollEvents
| UpdateRenderer
| Run
| DestroyWindow.

Global Instance vis_call_eq_dec : EqDecision vis_call.
Proof. solve_decision. Defined.

Record visualizer := Visualizer { window : string }.

(** [copy_data("xyz")] and [copy_data("rgba")[:, 0:3]] of an unorganized
    point cloud. *)
Definition copy_xyz (c : cloud) : list vec3 := xyz <$> c.
Definition copy_rgb (c : cloud) : list (Z * Z * Z) :=
  (λ q, (red (rgba q), green (rgba q), blue (rgba q))) <$> c.

Definition call (c : vis_call) : M (list vis_call) unit := λ log, (Ok tt, log ++ [c]).

(** [show_pointcloud_open3d], lines 46 to 68.  [AssertionError 0] is its
    failed assertion. *)
Definition show_pointcloud_open3d (xyz : list vec3) (rgb : list (Z * Z * Z))
    (vis : option visualizer) (pcd : option o3d_cloud)
    : M (list vis_call) (visualizer * o3d_cloud) :=
  match pcd with
  | None =>
      let pcd := O3D xyz (over_255 <$> rgb) in
      let vis := Visualizer "Stitching" in
      let* _ := call (CreateWindow "Stitching" 1920 1080) in
      let* _ := call (AddGeometry pcd) in
      let* _ := call SetBackgroundColor in
      let* _ := call PollEvents in
      let* _ := call UpdateRenderer in
      ret (vis, pcd)
  | Some _ =>
      match vis with
      | None => raise (AssertionError 0)
      | Some vis =>
          let pcd := O3D xyz (over_255 <$> rgb) in
          let* _ := call (UpdateGeometry pcd) in
          let* _ := call PollEvents in
          let* _ := call UpdateRenderer in
          ret (vis, pcd)
      end
  end.

Section Script.
Context `{ZividSDK} `{NumPy}.

(** The loop variables of [_main]. *)
Record loop_state := LoopState {
  stitching : Continuous.loop_state;
  vis : option visualizer;
  pcd : option o3d_cloud
}.

(** Lines 117 to 124: the end of an iteration that was not left by
    [continue]. *)
Definition extend_and_show (st : loop_state) (previous_to_current : mat4)
    (stitched unorganized_point_cloud : cloud) : M (list vis_call) loop_state :=
  let unorganized_stitched_point_cloud := stitched ++ unorganized_point_cloud in
  let xyz := copy_xyz unorganized_stitched_point_cloud in
  let rgb := copy_rgb unorganized_stitched_point_cloud in
  let* shown := show_pointcloud_open3d xyz rgb (vis st) (pcd st) in
  ret (LoopState (Continuous.LoopState previous_to_current unorganized_stitched_point_cloud)
         (Some shown.1) (Some shown.2)).

(** Lines 98 to 124: the body of the loop for one capture. *)
Definition loop_body (camera : nat → frame) (st : loop_state) (number_of_captures : nat)
    : M (list vis_call) loop_state :=
  let frame := camera number_of_captures in
  let unorganized_point_cloud := voxel_downsampled (to_unorganized_point_cloud frame) 1 2 in
  let previous := stitching st in
  if negb (number_of_captures =? 0)%nat then
    let local_point_cloud_registration_result :=
      local_point_cloud_registration
        (Continuous.unorganized_stitched_point_cloud previous) unorganized_point_cloud
        LocalPointCloudRegistrationParameters
        (Some (Continuous.previous_to_current_point_cloud_transform previous)) in
    if negb (converged local_point_cloud_registration_result) then ret st
    else
      let previous_to_current := transform local_point_cloud_registration_result in
      match np_linalg_inv previous_to_current with
      | None => raise LinAlgError
      | Some inverse =>
          extend_and_show st previous_to_current
            (transformed inverse (Continuous.unorganized_stitched_point_cloud previous))
            unorganized_point_cloud
      end
  else
    extend_and_show st (Continuous.previous_to_current_point_cloud_transform previous)
      (Continuous.unorganized_stitched_point_cloud previous) unorganized_point_cloud.

Definition initial_state : loop_state := LoopState Continuous.initial_state None None.

(** [_main], lines 90 to 139: the loop, the final down-sampling and the last
    display; [show_pointcloud_open3d] has returned a visualiser, which is run
    and closed. *)
Definition _main (camera : nat → frame) : M (list vis_call) cloud :=
  let* st := for_each_m (loop_body camera) (seq 0 20) initial_state in
  let unorganized_stitched_point_cloud :=
    voxel_downsampled (Continuous.unorganized_stitched_point_cloud (stitching st))
      three_quarters 2 in
  let xyz := copy_xyz unorganized_stitched_point_cloud in
  let rgb := copy_rgb unorganized_stitched_point_cloud in
  let* shown := show_pointcloud_open3d xyz rgb (vis st) (pcd st) in
  let* _ := call Run in
  let* _ := call DestroyWindow in
  ret unorganized_stitched_point_cloud.

End Script.

(** What the visualiser is asked when a cloud is shown first, and later. *)
Definition first_show (c : cloud) : list vis_call :=
  [CreateWindow "Stitching" 1920 1080; AddGeometry (O3D (copy_xyz c) (over_255 <$> copy_rgb c));
   SetBackgroundColor; PollEvents; UpdateRenderer].

Definition next_show (c : cloud) : list vis_call :=
  [UpdateGeometry (O3D (copy_xyz c) (over_255 <$> copy_rgb c)); PollEvents; UpdateRenderer].

End Live.

(** ** The plane fit as the description states it *)

(** "For every input array with at least one point without NaN coordinate,
    [_plane_fit] returns a pair." *)
Definition plane_fit_returns_pair_everywhere `{NumPy} : Prop :=
  ∀ points : image,
    (∃ p, p ∈ reshape_nx3 points ∧ has_no_nan p = true) →
    ∃ u_matrix point_in_plane,
      values_at (call1 _plane_fit (AImage points)) = Ok (AMat3 u_matrix, AVec3 point_in_plane).

(** The number of colour pixels of a frame.  The two arrays of a frame are
    copies of the same point cloud, so it is the number of its points for
    every frame the SDK gives. *)
Definition colour_count (f : frame) : nat := length (reshape_nx3 (frame_rgba f)).

(** ** The stitching scripts as chains of registrations *)

Section StitchingChains.
Context `{ZividSDK} `{NumPy}.

(** The cloud the shoes script has accumulated once the clouds [0] to [k]
    are stitched, in the words of the description: the previous
    accumulation, extended with the new cloud moved by the transform that
    was registered against that accumulation, then down-sampled. *)
Fixpoint shoes_accumulated (clouds : nat → cloud) (k : nat) : cloud :=
  match k with
  | 0%nat => clouds 0%nat
  | S j =>
      let previous := shoes_accumulated clouds j in
      let new := clouds (S j) in
      let registered :=
        local_point_cloud_registration previous new Shoes.registration_params None in
      voxel_downsampled (previous ++ transformed (transform registered) new) 1 1
  end.

(** The state of the continuous loop after [n] captures, in the words of
    the description: the first capture is taken as it is; a later capture is
    registered against the cloud accumulated so far, from the previous
    transform, and when that converges the accumulated cloud is moved by the
    inverse of the new transform and extended with the capture; otherwise the
    capture is skipped. *)
Fixpoint continuous_after (camera : nat → frame) (n : nat) : outcome Continuous.loop_state :=
  match n with
  | 0%nat => Ok Continuous.initial_state
  | S m =>
      let+ st := continuous_after camera m in
      let accumulated := Continuous.unorganized_stitched_point_cloud st in
      let new := continuous_capture camera m in
      if (m =? 0)%nat then
        Ok (Continuous.LoopState (Continuous.previous_to_current_point_cloud_transform st)
              (accumulated ++ new))
      else
        let registered := continuous_registration camera st m in
        if converged registered then
          match np_linalg_inv (transform registered) with
          | Some inverse =>
              Ok (Continuous.LoopState (transform registered)
                    (transformed inverse accumulated ++ new))
          | None => Raise LinAlgError
          end
        else Ok st
  end.

(** Capture [n] was stitched: it is the first one, or its registration
    against the state reached before it converged. *)
Definition continuous_stitched (camera : nat → frame) (n : nat) : bool :=
  match continuous_after camera n with
  | Ok st => (n =? 0)%nat || converged (continuous_registration camera st n)
  | Raise _ => false
  end.

(** How capture [n] moves the points accumulated before it: by the inverse
    of its registration transform when it was stitched after the first. *)
Definition continuous_move (camera : nat → frame) (n : nat) (c : cloud) : cloud :=
  match continuous_after camera n with
  | Ok st =>
      if (n =? 0)%nat then c
      else
        let registered := continuous_registration camera st n in
        if converged registered then
          match np_linalg_inv (transform registered) with
          | Some inverse => transformed inverse c
          | None => c
          end
        else c
  | Raise _ => c
  end.

(** The points of capture [k] where they lie after [n] captures: moved by
    each of the captures [k + 1] to [n - 1] in turn. *)
Definition continuous_moved (camera : nat → frame) (k n : nat) : cloud :=
  foldl (λ c j, continuous_move camera j c) (continuous_capture camera k)
    (seq (S k) (n - S k)).

End StitchingChains.

(** "The transform of the two-cloud script is computed against the
    accumulation of the clouds stitched before: the first cloud." *)
Definition two_clouds_registers_accumulated_everywhere `{ZividSDK} : Prop :=
  ∀ (frame_1 frame_2 : frame) (stitched downsampled : cloud),
    TwoClouds._main frame_1 frame_2 = Ok (stitched, downsampled) →
    let c1 := to_unorganized_point_cloud frame_1 in
    let c2 := to_unorganized_point_cloud frame_2 in
    extended_by_registration c1 c2 stitched
      (transform (local_point_cloud_registration c1 c2
                    LocalPointCloudRegistrationParameters None)).

(** A down-sampling for clouds whose distinct points lie in distinct voxels:
    a point is kept when at least [min_points_per_voxel] points of the cloud
    lie where it lies. *)
Definition sparse_voxel_downsampled (c : cloud) (_ : Qc) (min_points_per_voxel : nat) : cloud :=
  filter (λ q, (min_points_per_voxel ≤ length (filter (λ q', xyz q' = xyz q) c))%nat) c.

Definition sparse_voxel_sdk : ZividSDK := {|
  to_unorganized_point_cloud := sample_unorganized;
  voxel_downsampled := sparse_voxel_downsampled;
  LocalPointCloudRegistrationParameters := LpcrParameters 100 10;
  local_point_cloud_registration := sample_registration;
  detect_feature_points := λ f,
    DetectionResult (bool_decide (points_without_nan (frame_xyz f) ≠ []))
                    (points_without_nan (frame_xyz f));
  calibrate_multi_camera := λ inputs,
    MultiCameraOutput true ((λ _, identity4) <$> inputs) []
|}.

(** Two frames of an outlier followed by three coinciding points. *)
Definition outlier_frame_1 : frame :=
  sample_frame [ipoint 0 0 0; ipoint 5 0 0; ipoint 5 0 0; ipoint 5 0 0].
Definition outlier_frame_2 : frame :=
  sample_frame [ipoint 1 0 0; ipoint 7 0 0; ipoint 7 0 0; ipoint 7 0 0].

(** Five frames whose sizes double, so that each registers against the
    accumulation of the frames before it: 1, 1, 2, 4 and 8 points. *)
Definition doubling_frames (i : nat) : frame :=
  sample_frame (replicate (2 ^ (i - 1)) (ipoint (Z.of_nat i) 0 0)).

(** * Properties *)

(** ** Scalars *)

Lemma sadd_comm (x y : scalar) : sadd x y = sadd y x.
Proof. destruct x, y; simpl; try reflexivity. f_equal. ring. Qed.

Lemma sadd_0_l (x : scalar) : sadd (Fin 0) x = x.
Proof. destruct x; simpl; try reflexivity. f_equal. ring. Qed.

Lemma sadd_0_r (x : scalar) : sadd x (Fin 0) = x.
Proof. rewrite sadd_comm. apply sadd_0_l. Qed.

Lemma smul_1_r (x : scalar) : smul x (Fin 1) = x.
Proof. destruct x; simpl; try reflexivity. f_equal. ring. Qed.

Lemma smul_finite_0 (x : scalar) : isfinite x = true → smul x (Fin 0) = Fin 0.
Proof. destruct x; simpl; try discriminate. intros _. f_equal. ring. Qed.

Lemma isfinite_sadd (x y : scalar) :
  isfinite x = true → isfinite y = true → isfinite (sadd x y) = true.
Proof. destruct x, y; simpl; congruence. Qed.

Lemma isfinite_sneg (x : scalar) : isfinite x = true → isfinite (sneg x) = true.
Proof. destruct x; simpl; congruence. Qed.

Lemma isfinite_ssub (x y : scalar) :
  isfinite x = true → isfinite y = true → isfinite (ssub x y) = true.
Proof. intros Hx Hy. apply isfinite_sadd; [assumption | now apply isfinite_sneg]. Qed.

Lemma isfinite_smul (x y : scalar) :
  isfinite x = true → isfinite y = true → isfinite (smul x y) = true.
Proof. destruct x, y; simpl; congruence. Qed.

Lemma vec3_finite_spec (v : vec3) :
  vec3_finite v = true ↔ isfinite (v0 v) = true ∧ isfinite (v1 v) = true ∧ isfinite (v2 v) = true.
Proof.
  unfold vec3_finite, vec3_to_list. simpl.
  rewrite !andb_true_iff. intuition.
Qed.

Lemma vec3_finite_cross (a b : vec3) :
  vec3_finite a = true → vec3_finite b = true → vec3_finite (cross a b) = true.
Proof.
  rewrite !vec3_finite_spec. intros (Ha0 & Ha1 & Ha2) (Hb0 & Hb1 & Hb2).
  unfold cross; simpl.
  repeat split; apply isfinite_ssub; apply isfinite_smul; assumption.
Qed.

Lemma vec3_finite_neg (a : vec3) : vec3_finite a = true → vec3_finite (vec3_neg a) = true.
Proof.
  rewrite !vec3_finite_spec. intros (H0 & H1 & H2).
  unfold vec3_neg, vec3_map; simpl. repeat split; now apply isfinite_sneg.
Qed.

(** Without NaN, the ordered comparisons are complementary. *)
Lemma slt_sge (x y : scalar) : isnan x = false → isnan y = false → negb (slt x y) = sge x y.
Proof.
  unfold slt, sge. destruct x, y; simpl; try discriminate; try reflexivity.
  intros _ _. destruct (q ?= q0); reflexivity.
Qed.

Lemma sgt_sle (x y : scalar) : isnan x = false → isnan y = false → negb (sgt x y) = sle x y.
Proof.
  unfold sgt, sle. destruct x, y; simpl; try discriminate; try reflexivity.
  intros _ _. destruct (q ?= q0); reflexivity.
Qed.

Lemma nan_to_num_finite (x : scalar) : isfinite (nan_to_num x) = true.
Proof. destruct x; reflexivity. Qed.

(** ** The store *)

Lemma fresh_lookup (σ : store) : σ !! fresh (dom σ) = None.
Proof. apply not_elem_of_dom, is_fresh. Qed.

Lemma fresh_ne (σ : store) (l : nat) (v : ndarray) : σ !! l = Some v → fresh (dom σ) ≠ l.
Proof. intros Hl Heq. subst l. rewrite fresh_lookup in Hl. discriminate. Qed.

Lemma alloc_subseteq (σ : store) (v : ndarray) : σ ⊆ <[fresh (dom σ) := v]> σ.
Proof. apply insert_subseteq, fresh_lookup. Qed.

Ltac unfold_monad :=
  cbv beta iota zeta delta
    [bind ret raise load alloc assign load_vec3 load_mat3 load_mat4 load_image load_rgba
     setitem_col3 setitem_mask view_col2 svd].

Ltac store_step :=
  first
    [ rewrite lookup_insert_eq
    | rewrite lookup_insert_ne by (assumption || (eapply fresh_ne; eassumption))
    | rewrite insert_insert_eq
    | match goal with H : ?σ !! ?l = Some _ |- context [?σ !! ?l] => rewrite H end ];
  cbv beta iota zeta delta [fst snd].

Ltac store_lookups := cbv beta iota zeta delta [fst snd]; repeat store_step.

(** ** Shapes of masks *)

Lemma same_shape_map2 {A B C} (f : B → C) (g : A → B) (x : list (list A)) :
  same_shape x (map (map f) (map (map g) x)) = true.
Proof.
  unfold same_shape. apply bool_decide_eq_true.
  induction x as [|r x IH]; simpl; [reflexivity|].
  rewrite !length_map. f_equal. exact IH.
Qed.

Lemma same_shape_trans {A B C} (x : list (list A)) (y : list (list B)) (z : list (list C)) :
  same_shape x y = true → same_shape y z = true → same_shape x z = true.
Proof.
  unfold same_shape. rewrite !bool_decide_eq_true. congruence.
Qed.

Lemma mask_assign_shape (img : image) (m : mask) (v : vec3) :
  same_shape img m = true → same_shape (mask_assign img m v) img = true.
Proof.
  unfold same_shape, mask_assign. rewrite !bool_decide_eq_true.
  revert m. induction img as [|r img IH]; intros [|mr m]; simpl; try discriminate; [reflexivity|].
  intros Hs. injection Hs as Hr Hrest.
  rewrite length_zip_with, <- Hr, Nat.min_id. f_equal. now apply IH.
Qed.

(** ** The helpers of the pose estimation script, run in a store *)

Section PoseEstimationRuns.
Context `{NumPy}.

(** [_get_transformation_matrix] allocates one array, writes only to it, and
    returns it filled from the contents of its two arguments. *)
Lemma get_transformation_matrix_run (σ : store) (u p : nat) (vu vp : ndarray) :
  σ !! u = Some vu → σ !! p = Some vp →
  value_at (_get_transformation_matrix u p σ) = transformation_matrix_result vu vp
  ∧ ∃ m, (_get_transformation_matrix u p σ).2 = <[fresh (dom σ) := m]> σ.
Proof.
  intros Hu Hp.
  unfold _get_transformation_matrix, transformation_matrix_result, value_at. unfold_monad.
  destruct vu; store_lookups;
    try (split; [reflexivity | eexists; reflexivity]).
  destruct vp; store_lookups;
    try (split; [reflexivity | eexists; reflexivity]).
Qed.

Lemma get_z_rotation_matrix_run (σ : store) (theta : scalar) :
  _get_z_rotation_matrix theta σ
  = (Ok (fresh (dom σ)), <[fresh (dom σ) := AMat4 (z_rotation_value theta)]> σ).
Proof. reflexivity. Qed.

Lemma roi_between_two_spheres_run (σ : store) (x c : nat) (vx vc : ndarray) (inner outer : Z) :
  σ !! x = Some vx → σ !! c = Some vc →
  value_at (_roi_between_two_spheres x c inner outer σ) = roi_result vx vc inner outer
  ∧ ((_roi_between_two_spheres x c inner outer σ).2 = σ
     ∨ ∃ m, (_roi_between_two_spheres x c inner outer σ).2 = <[fresh (dom σ) := m]> σ).
Proof.
  intros Hx Hc.
  unfold _roi_between_two_spheres, roi_result, value_at. unfold_monad.
  destruct vx; store_lookups; try (split; [reflexivity | left; reflexivity]).
  destruct vc; store_lookups; try (split; [reflexivity | right; eexists; reflexivity]).
  unfold radius_image. rewrite same_shape_map2. store_lookups.
  rewrite (same_shape_trans _ px _ (mask_assign_shape _ _ _ (same_shape_map2 _ _ _))
             (same_shape_map2 _ _ _)).
  store_lookups. split; [reflexivity | right; eexists; reflexivity].
Qed.

Lemma plane_fit_run (σ : store) (p : nat) (vp : ndarray) :
  σ !! p = Some vp →
  values_at (_plane_fit p σ) = plane_fit_result vp ∧ σ ⊆ (_plane_fit p σ).2.
Proof.
  intros Hp.
  unfold _plane_fit, plane_fit_result, values_at. unfold_monad.
  destruct vp; store_lookups; try (split; reflexivity).
  fold (plane_fit_points px). fold (plane_fit_matrix px).
  destruct (np_linalg_svd (plane_fit_matrix px)) as [usv|]; [|split; reflexivity].
  set (l1 := fresh (dom σ)).
  set (σ1 := <[l1 := AMat3 usv.1.1]> σ).
  assert (fresh (dom σ1) ≠ l1) as Hne.
  { apply (fresh_ne σ1 l1 (AMat3 usv.1.1)). subst σ1. apply lookup_insert_eq. }
  rewrite lookup_insert_ne by exact Hne.
  subst σ1. rewrite !lookup_insert_eq. split; [reflexivity|].
  etrans; [apply (alloc_subseteq σ (AMat3 usv.1.1)) | apply alloc_subseteq].
Qed.

End PoseEstimationRuns.

Section PoseRuns.
Context `{NumPy}.

Lemma get_transformation_matrix_ok (σ : store) (u p : nat) (um : mat3) (pv : vec3) :
  σ !! u = Some (AMat3 um) → σ !! p = Some (AVec3 pv) →
  _get_transformation_matrix u p σ
  = (Ok (fresh (dom σ)), <[fresh (dom σ) := AMat4 (transformation_matrix_value um pv)]> σ).
Proof.
  intros Hu Hp. unfold _get_transformation_matrix. unfold_monad. store_lookups. reflexivity.
Qed.

Lemma display_pose_run (σ : store) (cloud : o3d_cloud) (u p : nat) (um : mat3) (pv : vec3)
    (theta : scalar) :
  σ !! u = Some (AMat3 um) → σ !! p = Some (AVec3 pv) →
  value_at (_display_point_cloud_with_coordinate_frame_on_a_point cloud u p theta σ)
  = pose_result (AMat3 um) (AVec3 pv) theta.
Proof.
  intros Hu Hp.
  unfold _display_point_cloud_with_coordinate_frame_on_a_point, pose_result.
  unfold bind at 1. rewrite (get_transformation_matrix_ok σ u p um pv Hu Hp).
  set (l1 := fresh (dom σ)).
  set (σ1 := <[l1 := AMat4 (transformation_matrix_value um pv)]> σ).
  unfold bind at 1. rewrite get_z_rotation_matrix_run.
  set (l2 := fresh (dom σ1)).
  set (σ2 := <[l2 := AMat4 (z_rotation_value theta)]> σ1).
  assert (σ1 !! l1 = Some (AMat4 (transformation_matrix_value um pv))) as H1
    by apply lookup_insert_eq.
  assert (l2 ≠ l1) as Hne by (eapply fresh_ne; exact H1).
  assert (σ2 !! l1 = Some (AMat4 (transformation_matrix_value um pv))) as H21.
  { subst σ2. rewrite lookup_insert_ne by exact Hne. exact H1. }
  assert (σ2 !! l2 = Some (AMat4 (z_rotation_value theta))) as H22 by apply lookup_insert_eq.
  unfold_monad. rewrite H21. cbv beta iota. rewrite H22. cbv beta iota.
  unfold value_at. rewrite lookup_insert_eq. reflexivity.
Qed.

End PoseRuns.

Lemma call2_lookup_0 (a b : ndarray) :
  (<[1%nat := b]> ({[0%nat := a]} : store)) !! 0%nat = Some a.
Proof. rewrite lookup_insert_ne by discriminate. apply lookup_singleton_eq. Qed.

Lemma call2_lookup_1 (a b : ndarray) :
  (<[1%nat := b]> ({[0%nat := a]} : store)) !! 1%nat = Some b.
Proof. apply lookup_insert_eq. Qed.

Lemma transformation_matrix_call (u_matrix : mat3) (point : vec3) :
  value_at (call2 _get_transformation_matrix (AMat3 u_matrix) (AVec3 point))
  = Ok (AMat4 (transformation_matrix_value u_matrix point)).
Proof.
  unfold call2.
  destruct (get_transformation_matrix_run _ 0%nat 1%nat _ _
              (call2_lookup_0 (AMat3 u_matrix) (AVec3 point))
              (call2_lookup_1 (AMat3 u_matrix) (AVec3 point))) as [Hv _].
  exact Hv.
Qed.

(** ** The frame construction *)

(** C2. For every 3x3 [u_matrix] and 3-vector [point],
    [_get_transformation_matrix] returns the 4x4 matrix whose second column is
    [(1,0,0) x (-z)] for [z = u_matrix[:,2]], whose first column is that
    second column crossed with [z], whose third column is [z], whose
    translation column is [point] and whose last row is [(0,0,0,1)]. *)
Theorem get_transformation_matrix_columns (u_matrix : mat3) (point : vec3) :
  let z := mat3_col2 u_matrix in
  let y := cross (V3 (Fin 1) (Fin 0) (Fin 0)) (vec3_neg z) in
  let x := cross y z in
  value_at (call2 _get_transformation_matrix (AMat3 u_matrix) (AVec3 point))
  = Ok (AMat4 (M4 (V4 (v0 x) (v0 y) (v0 z) (v0 point))
                  (V4 (v1 x) (v1 y) (v1 z) (v1 point))
                  (V4 (v2 x) (v2 y) (v2 z) (v2 point))
                  (V4 (Fin 0) (Fin 0) (Fin 0) (Fin 1)))).
Proof.
  intros z y x. unfold call2.
  destruct (get_transformation_matrix_run _ 0%nat 1%nat _ _
              (call2_lookup_0 (AMat3 u_matrix) (AVec3 point))
              (call2_lookup_1 (AMat3 u_matrix) (AVec3 point))) as [Hv _].
  rewrite Hv. reflexivity.
Qed.

(** ** The pose *)

Lemma vec4_dot_last (x y z p : scalar) :
  isfinite x = true → isfinite y = true → isfinite z = true →
  vec4_dot (V4 x y z p) (V4 (Fin 0) (Fin 0) (Fin 0) (Fin 1)) = p.
Proof.
  intros Hx Hy Hz. unfold vec4_dot; simpl w0; simpl w1; simpl w2; simpl w3.
  rewrite (smul_finite_0 x Hx), (smul_finite_0 y Hy), (smul_finite_0 z Hz).
  rewrite smul_1_r, !sadd_0_l. reflexivity.
Qed.

(** The first three entries of the three axis columns of a matrix are
    finite. *)
Lemma axes_finite_spec (t : mat4) :
  vec3_finite (top3 (mat4_col t J0)) = true → vec3_finite (top3 (mat4_col t J1)) = true →
  vec3_finite (top3 (mat4_col t J2)) = true →
  (isfinite (w0 (b0 t)) = true ∧ isfinite (w1 (b0 t)) = true ∧ isfinite (w2 (b0 t)) = true)
  ∧ (isfinite (w0 (b1 t)) = true ∧ isfinite (w1 (b1 t)) = true ∧ isfinite (w2 (b1 t)) = true)
  ∧ (isfinite (w0 (b2 t)) = true ∧ isfinite (w1 (b2 t)) = true ∧ isfinite (w2 (b2 t)) = true).
Proof.
  rewrite !vec3_finite_spec. destruct t as [[] [] [] []]. cbn. tauto.
Qed.

(** The fourth column of the product with a rotation about z: only products
    of a finite entry with 0, of an entry with 1, and sums with 0 enter. *)
Lemma pose_fourth_column `{NumPy} (u : mat3) (point : vec3) (theta : scalar) :
  let t := transformation_matrix_value u point in
  vec3_finite (top3 (mat4_col t J0)) = true → vec3_finite (top3 (mat4_col t J1)) = true →
  vec3_finite (top3 (mat4_col t J2)) = true →
  mat4_col (matmul4 t (z_rotation_value theta)) J3
  = V4 (v0 point) (v1 point) (v2 point) (Fin 1).
Proof.
  intros t Hx Hy Hz.
  destruct (axes_finite_spec t Hx Hy Hz) as ((H00 & H01 & H02) & (H10 & H11 & H12)
                                             & (H20 & H21 & H22)).
  change (mat4_col (matmul4 t (z_rotation_value theta)) J3)
    with (V4 (vec4_dot (V4 (w0 (b0 t)) (w1 (b0 t)) (w2 (b0 t)) (v0 point))
                (V4 (Fin 0) (Fin 0) (Fin 0) (Fin 1)))
             (vec4_dot (V4 (w0 (b1 t)) (w1 (b1 t)) (w2 (b1 t)) (v1 point))
                (V4 (Fin 0) (Fin 0) (Fin 0) (Fin 1)))
             (vec4_dot (V4 (w0 (b2 t)) (w1 (b2 t)) (w2 (b2 t)) (v2 point))
                (V4 (Fin 0) (Fin 0) (Fin 0) (Fin 1)))
             (vec4_dot (V4 (Fin 0) (Fin 0) (Fin 0) (Fin 1)) (V4 (Fin 0) (Fin 0) (Fin 0) (Fin 1)))).
  rewrite !vec4_dot_last by (assumption || reflexivity). reflexivity.
Qed.

Ltac compute_eq := apply (bool_decide_unpack _); vm_compute; exact I.

(** C9, as amended. When the three axis columns of the matrix
    [_get_transformation_matrix(u_matrix, point)] returns (its first three
    columns, as the code computes them) hold no NaN and no infinity, the pose
    [_get_transformation_matrix(u_matrix, point) @ _get_z_rotation_matrix(theta)]
    has fourth column [(point, 1)], for every [point] and [theta]; and when
    the cosine and sine of 0 are 1 and 0, [_get_z_rotation_matrix(0)] is the
    4x4 identity. *)
Theorem pose_translation_is_point `{NumPy}
    (cloud : o3d_cloud) (u_matrix : mat3) (point : vec3) (theta : scalar) (transform : mat4) :
  value_at (call2 _get_transformation_matrix (AMat3 u_matrix) (AVec3 point))
  = Ok (AMat4 transform) →
  vec3_finite (top3 (mat4_col transform J0)) = true →
  vec3_finite (top3 (mat4_col transform J1)) = true →
  vec3_finite (top3 (mat4_col transform J2)) = true →
  (∃ pose, pose_of cloud u_matrix point theta = Ok (AMat4 pose)
           ∧ mat4_col pose J3 = V4 (v0 point) (v1 point) (v2 point) (Fin 1))
  ∧ (cos_fin 0 = 1 → sin_fin 0 = 0 →
     value_at (_get_z_rotation_matrix (of_int 0) ∅) = Ok (AMat4 identity4)).
Proof.
  rewrite transformation_matrix_call. intros [= <-] Hx Hy Hz. split.
  - exists (matmul4 (transformation_matrix_value u_matrix point) (z_rotation_value theta)).
    split; [|now apply pose_fourth_column].
    unfold pose_of, call2.
    apply (display_pose_run _ cloud 0%nat 1%nat u_matrix point theta);
      [apply call2_lookup_0 | apply call2_lookup_1].
  - intros Hcos Hsin. rewrite get_z_rotation_matrix_run.
    unfold value_at. rewrite lookup_insert_eq.
    unfold z_rotation_value, scos, ssin, of_int.
    change (Qz 0) with (Q2Qc 0). rewrite Hcos, Hsin.
    unfold identity4. simpl sneg.
    replace (- 0)%Qc with (Q2Qc 0) by ring. reflexivity.
Qed.

Lemma pose_translation_is_point_witness :
  let u_matrix := M3 (ipoint 1 0 3) (ipoint 0 1 4) (ipoint 0 0 12) in
  let transform := M4 (V4 (of_int 160) (of_int 0) (of_int 3) (of_int 1))
                      (V4 (of_int (-12)) (of_int 12) (of_int 4) (of_int 2))
                      (V4 (of_int (-36)) (of_int (-4)) (of_int 12) (of_int 3))
                      (V4 (Fin 0) (Fin 0) (Fin 0) (Fin 1)) in
  value_at (call2 _get_transformation_matrix (AMat3 u_matrix) (AVec3 (ipoint 1 2 3)))
  = Ok (AMat4 transform)
  ∧ cos_fin (NumPy := sample_numpy) 0 = 1
  ∧ sin_fin (NumPy := sample_numpy) 0 = 0
  ∧ (∃ pose, pose_of (H := sample_numpy) (O3D [] []) u_matrix (ipoint 1 2 3) (Fin 1)
             = Ok (AMat4 pose)
             ∧ mat4_col pose J3 = V4 (of_int 1) (of_int 2) (of_int 3) (Fin 1))
  ∧ value_at (_get_z_rotation_matrix (H := sample_numpy) (of_int 0) ∅) = Ok (AMat4 identity4).
Proof.
  intros u_matrix transform.
  assert (value_at (call2 _get_transformation_matrix (AMat3 u_matrix) (AVec3 (ipoint 1 2 3)))
          = Ok (AMat4 transform)) as Hrun by compute_eq.
  assert (cos_fin (NumPy := sample_numpy) 0 = 1) as Hcos by compute_eq.
  assert (sin_fin (NumPy := sample_numpy) 0 = 0) as Hsin by compute_eq.
  destruct (pose_translation_is_point (H := sample_numpy) (O3D [] []) u_matrix (ipoint 1 2 3)
              (Fin 1) transform Hrun eq_refl eq_refl eq_refl) as [Hpose Hrot].
  exact (conj Hrun (conj Hcos (conj Hsin (conj Hpose (Hrot Hcos Hsin))))).
Defined.

(** C9, as stated, fails: with a NaN in the third column of [u_matrix] the
    translation of the pose is NaN, not the point [(1, 2, 3)]. *)
Lemma pose_translation_nan_counterexample :
  pose_of (H := sample_numpy) (O3D [] []) nan_u_matrix (ipoint 1 2 3) (Fin 0)
  = Ok (AMat4 (M4 (V4 NaN NaN NaN NaN) (V4 NaN NaN NaN NaN) (V4 NaN NaN NaN NaN)
                  (V4 (Fin 0) (Fin 0) (Fin 0) (Fin 1))))
  ∧ ¬ pose_translation_is_point_everywhere (H := sample_numpy).
Proof.
  assert (pose_of (H := sample_numpy) (O3D [] []) nan_u_matrix (ipoint 1 2 3) (Fin 0)
          = Ok (AMat4 (M4 (V4 NaN NaN NaN NaN) (V4 NaN NaN NaN NaN) (V4 NaN NaN NaN NaN)
                          (V4 (Fin 0) (Fin 0) (Fin 0) (Fin 1))))) as Hrun by compute_eq.
  split; [exact Hrun|].
  intros Hclaim.
  destruct (Hclaim (O3D [] []) nan_u_matrix (ipoint 1 2 3) (Fin 0)) as (pose & Hpose & Hcol).
  rewrite Hrun in Hpose. injection Hpose as <-. discriminate Hcol.
Qed.

(** ** The region of interest *)

Ltac to_fmap :=
  repeat match goal with
         | |- context [@map ?A ?B ?f ?l] => change (@map A B f l) with (f <$> l)
         end.

Lemma mask_assign_map (img : image) (m : vec3 → bool) (v : vec3) :
  mask_assign img (map (map m) img) v = map (map (λ p, if m p then v else p)) img.
Proof.
  unfold mask_assign. induction img as [|row img IH]; simpl; [reflexivity|].
  f_equal; [|exact IH].
  clear IH. induction row as [|p row IH]; simpl; [reflexivity|]. now f_equal.
Qed.

Lemma mask_assign_map_map (img : image) (h : vec3 → vec3) (m : vec3 → bool) (v : vec3) :
  mask_assign (map (map h) img) (map (map m) img) v
  = map (map (λ p, if m p then v else h p)) img.
Proof.
  unfold mask_assign. induction img as [|row img IH]; simpl; [reflexivity|].
  f_equal; [|exact IH].
  clear IH. induction row as [|p row IH]; simpl; [reflexivity|]. now f_equal.
Qed.

Lemma map_map_nested {A B C} (f : B → C) (g : A → B) (x : list (list A)) :
  map (map f) (map (map g) x) = map (map (λ a, f (g a))) x.
Proof.
  induction x as [|row x IH]; simpl; [reflexivity|].
  f_equal; [|exact IH]. apply map_map.
Qed.

Section Roi.
Context `{NumPy}.

Lemma roi_value_pixels (img : image) (c : vec3) (inner outer : Z) :
  roi_value img c inner outer = map (map (roi_pixel c inner outer)) img.
Proof.
  unfold roi_value, radius_image. rewrite !map_map_nested.
  rewrite mask_assign_map, mask_assign_map_map. reflexivity.
Qed.

Lemma roi_between_two_spheres_ok (σ : store) (x c : nat) (img : image) (cv : vec3)
    (inner outer : Z) :
  σ !! x = Some (AImage img) → σ !! c = Some (AVec3 cv) →
  _roi_between_two_spheres x c inner outer σ
  = (Ok (fresh (dom σ)), <[fresh (dom σ) := AImage (roi_value img cv inner outer)]> σ).
Proof.
  intros Hx Hc.
  unfold _roi_between_two_spheres. unfold_monad. store_lookups.
  unfold radius_image. rewrite same_shape_map2. store_lookups.
  rewrite (same_shape_trans _ img _ (mask_assign_shape _ _ _ (same_shape_map2 _ _ _))
             (same_shape_map2 _ _ _)).
  store_lookups. reflexivity.
Qed.

Lemma Qc_square_nonneg (q : Qc) : 0 ≤ q * q.
Proof.
  destruct (Qclt_le_dec q 0) as [Hneg|Hpos].
  - replace (q * q) with ((- q) * (- q)) by ring.
    assert (0 ≤ - q) as Hq.
    { apply Qclt_le_weak, Qcle_minus_iff in Hneg.
      replace (0 + - q) with (- q) in Hneg by ring. exact Hneg. }
    now apply Qcmult_nonneg_nonneg.
  - now apply Qcmult_nonneg_nonneg.
Qed.

Lemma sge0_fin (q : Qc) : sge (Fin q) (Fin 0) = true ↔ 0 ≤ q.
Proof.
  unfold sge; simpl. rewrite (Qcge_alt q 0).
  destruct (q ?= 0); split; intros; congruence.
Qed.

Lemma sge0_square (x : scalar) : isnan x = false → sge (smul x x) (Fin 0) = true.
Proof.
  destruct x; simpl; try discriminate; try reflexivity.
  intros _. apply sge0_fin, Qc_square_nonneg.
Qed.

Lemma sge0_add (x y : scalar) :
  sge x (Fin 0) = true → sge y (Fin 0) = true → sge (sadd x y) (Fin 0) = true.
Proof.
  destruct x, y; simpl; try discriminate; try reflexivity.
  rewrite !sge0_fin. apply Qcplus_nonneg_nonneg.
Qed.

Lemma sge0_sqrt (x : scalar) : sge x (Fin 0) = true → isnan (ssqrt x) = false.
Proof.
  destruct x; simpl; try discriminate; try reflexivity.
  unfold sge; simpl. destruct (q ?= 0); try discriminate; reflexivity.
Qed.


Lemma vec3_any_nan_spec (v : vec3) :
  vec3_any_nan v = false ↔ isnan (v0 v) = false ∧ isnan (v1 v) = false ∧ isnan (v2 v) = false.
Proof.
  unfold vec3_any_nan, vec3_to_list; simpl.
  rewrite !orb_false_iff. intuition.
Qed.



End Roi.




(** ** The Open3D cloud *)

Lemma filter_all {A} (P : A → Prop) `{∀ x, Decision (P x)} (l : list A) :
  Forall P l → filter P l = l.
Proof.
  induction 1 as [|x l Hx _ IH]; [reflexivity|].
  rewrite filter_cons_True by exact Hx. now f_equal.
Qed.

Lemma vec3_finite_nan_to_num (p : vec3) : vec3_finite (vec3_map nan_to_num p) = true.
Proof. apply vec3_finite_spec. simpl. repeat split; apply nan_to_num_finite. Qed.

Lemma reshape_nan_to_num (img : image) :
  reshape_nx3 (nan_to_num_image img) = vec3_map nan_to_num <$> reshape_nx3 img.
Proof.
  unfold reshape_nx3, nan_to_num_image. symmetry. apply concat_map.
Qed.

(** After [nan_to_num] no point is removed. *)
Lemma remove_non_finite_after_nan_to_num (img : image) (colours : list vec3) :
  o3d_points (remove_non_finite_points (O3D (reshape_nx3 (nan_to_num_image img)) colours))
  = vec3_map nan_to_num <$> reshape_nx3 img.
Proof.
  rewrite reshape_nan_to_num.
  set (pts := vec3_map nan_to_num <$> reshape_nx3 img).
  assert (Forall (λ p, vec3_finite p = true) pts) as Hfin.
  { subst pts. apply Forall_fmap, Forall_forall. intros p _. apply vec3_finite_nan_to_num. }
  unfold remove_non_finite_points. simpl o3d_points. simpl o3d_colors.
  case_bool_decide as Hlen; simpl o3d_points.
  - rewrite filter_all.
    + apply fst_zip. lia.
    + apply Forall_forall. intros [p col] Hin. simpl.
      apply elem_of_zip_l in Hin. rewrite Forall_forall in Hfin. now apply Hfin.
  - now apply filter_all.
Qed.

Lemma create_open3d_point_cloud_run (img : image) (colours : rgba_image) :
  (call2 _create_open3d_point_cloud (AImage img) (ARgba colours)).1
  = Ok (remove_non_finite_points (open3d_cloud_value img colours)).
Proof.
  unfold call2, _create_open3d_point_cloud. unfold_monad.
  rewrite call2_lookup_0. cbv beta iota. rewrite call2_lookup_1. reflexivity.
Qed.

(** C6, as amended. [_create_open3d_point_cloud] replaces every NaN
    coordinate with 0 (via [nan_to_num]) before the non-finite-point removal
    step, so no point is removed: a point with a NaN coordinate appears in the
    returned cloud, at its place, with 0 for each NaN coordinate and its
    finite coordinates unchanged; a point whose three coordinates are NaN
    appears at the origin. *)
Theorem create_open3d_point_cloud_keeps_nan_points (img : image) (colours : rgba_image) :
  ∃ pc, (call2 _create_open3d_point_cloud (AImage img) (ARgba colours)).1 = Ok pc
    ∧ length (o3d_points pc) = length (reshape_nx3 img)
    ∧ ∀ k p, reshape_nx3 img !! k = Some p →
        ∃ q, o3d_points pc !! k = Some q
             ∧ nan_replaced_by_zero (v0 p) (v0 q)
             ∧ nan_replaced_by_zero (v1 p) (v1 q)
             ∧ nan_replaced_by_zero (v2 p) (v2 q)
             ∧ (p = nan3 → q = zero3).
Proof.
  exists (remove_non_finite_points (open3d_cloud_value img colours)).
  split; [apply create_open3d_point_cloud_run|].
  unfold open3d_cloud_value. rewrite remove_non_finite_after_nan_to_num.
  split; [apply length_fmap|].
  intros k p Hk. exists (vec3_map nan_to_num p).
  split; [rewrite list_lookup_fmap, Hk; reflexivity|].
  unfold nan_replaced_by_zero. simpl.
  repeat split; try (intros Hx; destruct (_ p); simpl in *; congruence).
  intros ->. reflexivity.
Qed.

Lemma create_open3d_point_cloud_keeps_nan_points_witness :
  reshape_nx3 [[V3 NaN (of_int 1) (of_int 2); nan3]] !! 1%nat = Some nan3
  ∧ ∃ pc, (call2 _create_open3d_point_cloud
             (AImage [[V3 NaN (of_int 1) (of_int 2); nan3]]) (ARgba [[black; black]])).1 = Ok pc
          ∧ o3d_points pc !! 1%nat = Some zero3.
Proof.
  destruct (create_open3d_point_cloud_keeps_nan_points
              [[V3 NaN (of_int 1) (of_int 2); nan3]] [[black; black]])
    as (pc & Hrun & _ & Hkept).
  destruct (Hkept 1%nat nan3 eq_refl) as (q & Hq & _ & _ & _ & Horigin).
  exact (conj eq_refl
           (ex_intro _ pc (conj Hrun (eq_trans Hq (f_equal Some (Horigin eq_refl)))))).
Defined.

(** C6, as stated, fails: the point [(NaN, 1, 2)] appears in the returned
    cloud as [(0, 1, 2)], not at the origin. *)
Lemma nan_point_not_at_origin_counterexample :
  (call2 _create_open3d_point_cloud (AImage [[V3 NaN (of_int 1) (of_int 2)]]) (ARgba [[black]])).1
  = Ok (O3D [V3 (Fin 0) (of_int 1) (of_int 2)] [zero3])
  ∧ ¬ nan_points_at_origin_everywhere.
Proof.
  assert ((call2 _create_open3d_point_cloud (AImage [[V3 NaN (of_int 1) (of_int 2)]])
             (ARgba [[black]])).1
          = Ok (O3D [V3 (Fin 0) (of_int 1) (of_int 2)] [zero3])) as Hrun by compute_eq.
  split; [exact Hrun|].
  intros Hclaim.
  destruct (Hclaim [[V3 NaN (of_int 1) (of_int 2)]] [[black]] 0%nat
              (V3 NaN (of_int 1) (of_int 2)) eq_refl eq_refl) as (pc & Hpc & Hk).
  rewrite Hrun in Hpc. injection Hpc as <-.
  simpl in Hk. injection Hk as Hk. discriminate Hk.
Qed.

(** ** The plane fit *)

Lemma has_no_nan_any (p : vec3) : has_no_nan p = negb (vec3_any_nan p).
Proof.
  unfold has_no_nan, vec3_any_nan, vec3_to_list. simpl.
  destruct (isnan (v0 p)), (isnan (v1 p)), (isnan (v2 p)); reflexivity.
Qed.

Lemma boolean_index_row {A} (f : A → bool) (row : list A) :
  (filter (λ pb, pb.2 = true) (zip row (map f row))).*1 = filter (λ p, f p = true) row.
Proof.
  induction row as [|p row IH]; [reflexivity|].
  change (zip (p :: row) (map f (p :: row))) with ((p, f p) :: zip row (map f row)).
  rewrite !filter_cons. cbn [snd].
  destruct (decide (f p = true)); [rewrite fmap_cons; cbn [fst]|]; now rewrite IH.
Qed.

Lemma boolean_index_filter (f : vec3 → bool) (img : image) :
  boolean_index img (map (map f) img) = filter (λ p, f p = true) (concat img).
Proof.
  unfold boolean_index. induction img as [|row img IH]; [reflexivity|].
  simpl. rewrite filter_app, IH. f_equal. apply boolean_index_row.
Qed.

Lemma plane_fit_points_spec (img : image) : plane_fit_points img = points_without_nan img.
Proof.
  unfold plane_fit_points, points_without_nan. rewrite boolean_index_filter.
  apply list_filter_iff. intros p. now rewrite has_no_nan_any.
Qed.

Lemma fold_left_vec3_add (pts : list vec3) (acc : vec3) :
  fold_left vec3_add pts acc
  = V3 (fold_left sadd (v0 <$> pts) (v0 acc)) (fold_left sadd (v1 <$> pts) (v1 acc))
       (fold_left sadd (v2 <$> pts) (v2 acc)).
Proof.
  revert acc. induction pts as [|p pts IH]; intros acc; [now destruct acc|].
  cbn [fold_left fmap list_fmap]. rewrite IH. reflexivity.
Qed.

Lemma mean_axis0_spec (pts : list vec3) : mean_axis0 pts = arithmetic_mean pts.
Proof.
  unfold mean_axis0, arithmetic_mean, ssum. rewrite fold_left_vec3_add. reflexivity.
Qed.

Lemma dot_list_spec (d : list vec3) (ci cj : vec3 → scalar) :
  dot_list (ci <$> d) (cj <$> d) = scatter_entry d ci cj.
Proof.
  unfold dot_list, scatter_entry, ssum.
  now rewrite zip_with_fmap_l, zip_with_fmap_r, zip_with_diag.
Qed.

Lemma dot_transpose_spec (d : list vec3) : dot_3xn_nx3 (transpose_nx3 d) d = scatter_matrix d.
Proof.
  unfold dot_3xn_nx3, transpose_nx3, scatter_matrix. simpl.
  now rewrite !dot_list_spec.
Qed.

Lemma plane_fit_matrix_spec (img : image) :
  plane_fit_matrix img
  = scatter_matrix (differences (points_without_nan img)
                      (arithmetic_mean (points_without_nan img))).
Proof.
  unfold plane_fit_matrix. rewrite dot_transpose_spec, plane_fit_points_spec, mean_axis0_spec.
  reflexivity.
Qed.

Lemma call1_lookup (a : ndarray) : ({[0%nat := a]} : store) !! 0%nat = Some a.
Proof. apply lookup_singleton_eq. Qed.

(** C1, as amended. For every input array with at least one point without
    NaN coordinate, when NumPy's SVD of the 3x3 scatter matrix [D^T . D]
    succeeds, [_plane_fit] returns the pair [(u_matrix, point_in_plane)]
    where [point_in_plane] is the arithmetic mean of the points that have no
    NaN coordinate (there is at least one), [D] holds the differences between
    each such point and the mean, and [u_matrix] is the matrix [U] of that
    SVD; when the SVD fails, [_plane_fit] returns nothing and ends with the
    [LinAlgError] of the SVD. *)
Theorem plane_fit_mean_and_svd `{NumPy} (points : image) :
  (∃ p, p ∈ reshape_nx3 points ∧ has_no_nan p = true) →
  let pts := points_without_nan points in
  let mean := arithmetic_mean pts in
  let m := scatter_matrix (differences pts mean) in
  (0 < length pts)%nat
  ∧ values_at (call1 _plane_fit (AImage points))
    = match np_linalg_svd m with
      | Some usv => Ok (AMat3 usv.1.1, AVec3 mean)
      | None => Raise LinAlgError
      end.
Proof.
  intros (p & Hin & Hp) pts mean m. split.
  - assert (p ∈ pts) as Hpts.
    { subst pts. unfold points_without_nan. apply list_elem_of_filter. now split. }
    destruct pts; [inversion Hpts | simpl; lia].
  - unfold call1.
    destruct (plane_fit_run _ 0%nat _ (call1_lookup (AImage points))) as [Hv _].
    rewrite Hv. unfold plane_fit_result.
    rewrite plane_fit_matrix_spec, plane_fit_points_spec, mean_axis0_spec. reflexivity.
Qed.

Lemma plane_fit_mean_and_svd_witness :
  let points : image :=
    [[ipoint 2 0 0; ipoint (-2) 0 0; nan3]; [ipoint 0 1 0; ipoint 0 (-1) 0; V3 NaN (Fin 0) (Fin 0)]] in
  (∃ p, p ∈ reshape_nx3 points ∧ has_no_nan p = true)
  ∧ (0 < length (points_without_nan points))%nat
  ∧ values_at (call1 (_plane_fit (H := sample_numpy)) (AImage points))
    = match np_linalg_svd (NumPy := sample_numpy)
              (scatter_matrix (differences (points_without_nan points)
                                 (arithmetic_mean (points_without_nan points)))) with
      | Some usv => Ok (AMat3 usv.1.1, AVec3 (arithmetic_mean (points_without_nan points)))
      | None => Raise LinAlgError
      end.
Proof.
  intros points.
  assert (∃ p, p ∈ reshape_nx3 points ∧ has_no_nan p = true) as Hex.
  { exists (ipoint 2 0 0). split; [apply list_elem_of_here | reflexivity]. }
  exact (conj Hex (plane_fit_mean_and_svd (H := sample_numpy) points Hex)).
Defined.

(** C1, as stated, fails: the array with the two points [(+inf, 0, 0)] and
    [(1, 0, 0)] has points without NaN coordinate, but their mean has an
    infinite coordinate, the differences [inf - inf] are NaN, the scatter
    matrix holds NaN and the SVD fails on it (NumPy's does not converge on a
    matrix with a NaN): [_plane_fit] raises [LinAlgError] and returns no
    pair. *)
Lemma plane_fit_infinite_point_counterexample :
  plane_fit_matrix [[V3 PInf (Fin 0) (Fin 0); ipoint 1 0 0]]
  = M3 (V3 NaN NaN NaN) (V3 NaN (Fin 0) (Fin 0)) (V3 NaN (Fin 0) (Fin 0))
  ∧ values_at (call1 (_plane_fit (H := sample_numpy))
                 (AImage [[V3 PInf (Fin 0) (Fin 0); ipoint 1 0 0]]))
    = Raise LinAlgError
  ∧ ¬ plane_fit_returns_pair_everywhere (H := sample_numpy).
Proof.
  assert (values_at (call1 (_plane_fit (H := sample_numpy))
                       (AImage [[V3 PInf (Fin 0) (Fin 0); ipoint 1 0 0]]))
          = Raise LinAlgError) as Hrun by compute_eq.
  split; [compute_eq|]. split; [exact Hrun|].
  intros Hclaim.
  destruct (Hclaim [[V3 PInf (Fin 0) (Fin 0); ipoint 1 0 0]]) as (u & p & Hpair).
  - exists (ipoint 1 0 0). split; [|reflexivity].
    apply list_elem_of_further, list_elem_of_here.
  - rewrite Hrun in Hpair. discriminate Hpair.
Qed.

(** On the sample the fit is the identity frame at the origin. *)
Example plane_fit_sample :
  values_at (call1 (_plane_fit (H := sample_numpy))
               (AImage [[ipoint 2 0 0; ipoint (-2) 0 0; nan3];
                        [ipoint 0 1 0; ipoint 0 (-1) 0; V3 NaN (Fin 0) (Fin 0)]]))
  = Ok (AMat3 identity3, AVec3 zero3).
Proof. compute_eq. Qed.

(** ** Determinism and frame of the helpers *)

(** C7. Each numerical helper of the pose estimation script ([_plane_fit],
    [_get_transformation_matrix], [_get_z_rotation_matrix],
    [_roi_between_two_spheres]) is deterministic and depends only on its
    arguments: two calls, in any two stores, on arguments that are arrays of
    equal contents (and equal numbers) end alike, with equal returned arrays
    or with the same exception; and a call changes no array that exists when
    it is made, its arguments included. *)
Theorem helpers_depend_only_on_arguments `{NumPy} :
  (∀ (σ1 σ2 : store) (p1 p2 : nat) (points : ndarray),
     σ1 !! p1 = Some points → σ2 !! p2 = Some points →
     values_at (_plane_fit p1 σ1) = values_at (_plane_fit p2 σ2)
     ∧ σ1 ⊆ (_plane_fit p1 σ1).2)
  ∧ (∀ (σ1 σ2 : store) (u1 u2 q1 q2 : nat) (u_matrix point : ndarray),
       σ1 !! u1 = Some u_matrix → σ2 !! u2 = Some u_matrix →
       σ1 !! q1 = Some point → σ2 !! q2 = Some point →
       value_at (_get_transformation_matrix u1 q1 σ1)
       = value_at (_get_transformation_matrix u2 q2 σ2)
       ∧ σ1 ⊆ (_get_transformation_matrix u1 q1 σ1).2)
  ∧ (∀ (σ1 σ2 : store) (theta : scalar),
       value_at (_get_z_rotation_matrix theta σ1) = value_at (_get_z_rotation_matrix theta σ2)
       ∧ σ1 ⊆ (_get_z_rotation_matrix theta σ1).2)
  ∧ (∀ (σ1 σ2 : store) (x1 x2 c1 c2 : nat) (xyz centroid : ndarray) (inner outer : Z),
       σ1 !! x1 = Some xyz → σ2 !! x2 = Some xyz →
       σ1 !! c1 = Some centroid → σ2 !! c2 = Some centroid →
       value_at (_roi_between_two_spheres x1 c1 inner outer σ1)
       = value_at (_roi_between_two_spheres x2 c2 inner outer σ2)
       ∧ σ1 ⊆ (_roi_between_two_spheres x1 c1 inner outer σ1).2).
Proof.
  split; [|split; [|split]].
  - intros σ1 σ2 p1 p2 points H1 H2.
    destruct (plane_fit_run σ1 p1 points H1) as [-> Hsub].
    destruct (plane_fit_run σ2 p2 points H2) as [-> _]. now split.
  - intros σ1 σ2 u1 u2 q1 q2 vu vp Hu1 Hu2 Hq1 Hq2.
    destruct (get_transformation_matrix_run σ1 u1 q1 vu vp Hu1 Hq1) as [-> [m ->]].
    destruct (get_transformation_matrix_run σ2 u2 q2 vu vp Hu2 Hq2) as [-> _].
    split; [reflexivity | apply alloc_subseteq].
  - intros σ1 σ2 theta. rewrite !get_z_rotation_matrix_run. split.
    + unfold value_at. now rewrite !lookup_insert_eq.
    + apply alloc_subseteq.
  - intros σ1 σ2 x1 x2 c1 c2 vx vc inner outer Hx1 Hx2 Hc1 Hc2.
    destruct (roi_between_two_spheres_run σ1 x1 c1 vx vc inner outer Hx1 Hc1) as [-> Hst].
    destruct (roi_between_two_spheres_run σ2 x2 c2 vx vc inner outer Hx2 Hc2) as [-> _].
    split; [reflexivity|].
    destruct Hst as [-> | [m ->]]; [reflexivity | apply alloc_subseteq].
Qed.

Lemma helpers_depend_only_on_arguments_witness :
  let σ1 : store := <[1%nat := AVec3 (ipoint 1 2 3)]> {[0%nat := AMat3 identity3]} in
  let σ2 : store := <[7%nat := AMat3 identity3]> {[3%nat := AVec3 (ipoint 1 2 3)]} in
  σ1 !! 0%nat = Some (AMat3 identity3) ∧ σ2 !! 7%nat = Some (AMat3 identity3)
  ∧ σ1 !! 1%nat = Some (AVec3 (ipoint 1 2 3)) ∧ σ2 !! 3%nat = Some (AVec3 (ipoint 1 2 3))
  ∧ value_at (_get_transformation_matrix 0%nat 1%nat σ1)
    = value_at (_get_transformation_matrix 7%nat 3%nat σ2)
  ∧ σ1 ⊆ (_get_transformation_matrix 0%nat 1%nat σ1).2.
Proof.
  intros σ1 σ2.
  assert (σ1 !! 0%nat = Some (AMat3 identity3)) as H10 by apply call2_lookup_0.
  assert (σ2 !! 7%nat = Some (AMat3 identity3)) as H27 by apply lookup_insert_eq.
  assert (σ1 !! 1%nat = Some (AVec3 (ipoint 1 2 3))) as H11 by apply call2_lookup_1.
  assert (σ2 !! 3%nat = Some (AVec3 (ipoint 1 2 3))) as H23.
  { subst σ2. rewrite lookup_insert_ne by discriminate. apply lookup_singleton_eq. }
  destruct (helpers_depend_only_on_arguments (H := sample_numpy)) as (_ & Hframe & _).
  exact (conj H10 (conj H27 (conj H11 (conj H23
           (Hframe σ1 σ2 0%nat 7%nat 1%nat 3%nat _ _ H10 H27 H11 H23))))).
Defined.

(** ** The stitching loops *)

Lemma for_each_cons {A St} (body : St → A → outcome St) (x : A) (xs : list A) (s : St) :
  for_each body (x :: xs) s = outcome_bind (body s x) (for_each body xs).
Proof. reflexivity. Qed.

Lemma for_each_app {A St} (body : St → A → outcome St) (xs ys : list A) (s : St) :
  for_each body (xs ++ ys) s = outcome_bind (for_each body xs s) (for_each body ys).
Proof.
  revert s. induction xs as [|x xs IH]; intros s; [reflexivity|].
  simpl. destruct (body s x); [apply IH | reflexivity].
Qed.

Section Stitching.
Context `{ZividSDK} `{NumPy}.

Lemma continuous_loop_body_converged (camera : nat → frame) (st : Continuous.loop_state)
    (n : nat) (inverse : mat4) :
  n ≠ 0%nat →
  converged (continuous_registration camera st n) = true →
  np_linalg_inv (transform (continuous_registration camera st n)) = Some inverse →
  Continuous.loop_body camera st n
  = Ok (Continuous.LoopState (transform (continuous_registration camera st n))
          (transformed inverse (Continuous.unorganized_stitched_point_cloud st)
           ++ continuous_capture camera n)).
Proof.
  intros Hn Hconv Hinv. unfold Continuous.loop_body.
  apply Nat.eqb_neq in Hn. rewrite Hn. simpl negb. cbv iota.
  fold (continuous_capture camera n). fold (continuous_registration camera st n).
  rewrite Hconv. simpl negb. cbv iota. rewrite Hinv. reflexivity.
Qed.

Lemma continuous_loop_body_skips (camera : nat → frame) (st : Continuous.loop_state) (n : nat) :
  n ≠ 0%nat →
  converged (continuous_registration camera st n) = false →
  Continuous.loop_body camera st n = Ok st.
Proof.
  intros Hn Hconv. unfold Continuous.loop_body.
  apply Nat.eqb_neq in Hn. rewrite Hn. simpl negb. cbv iota.
  fold (continuous_capture camera n). fold (continuous_registration camera st n).
  rewrite Hconv. reflexivity.
Qed.

Lemma continuous_loop_body_outcome (camera : nat → frame) (st : Continuous.loop_state) (n : nat) :
  (∃ st', Continuous.loop_body camera st n = Ok st')
  ∨ Continuous.loop_body camera st n = Raise LinAlgError.
Proof.
  unfold Continuous.loop_body.
  destruct (negb (n =? 0)%nat); [|left; eexists; reflexivity].
  destruct (negb (converged _)); [left; eexists; reflexivity|].
  destruct (np_linalg_inv _); [left; eexists; reflexivity | right; reflexivity].
Qed.

Lemma continuous_loop_outcome (camera : nat → frame) (ns : list nat) (st : Continuous.loop_state) :
  (∃ st', for_each (Continuous.loop_body camera) ns st = Ok st')
  ∨ for_each (Continuous.loop_body camera) ns st = Raise LinAlgError.
Proof.
  revert st. induction ns as [|n ns IH]; intros st.
  - left. eexists. reflexivity.
  - rewrite for_each_cons.
    destruct (continuous_loop_body_outcome camera st n) as [[st' ->] | ->].
    + apply IH.
    + right. reflexivity.
Qed.

End Stitching.

Section StitchingChainRuns.
Context `{ZividSDK} `{NumPy}.

Lemma shoes_main_as_loop (frames : nat → frame) :
  Shoes._main frames
  = outcome_bind (for_each (Shoes.loop_body (λ i, to_unorganized_point_cloud (frames i)))
                    (seq 1 4) (to_unorganized_point_cloud (frames 0%nat)))
      (λ s, Ok (s, voxel_downsampled s half 1)).
Proof.
  set (clouds := λ i, to_unorganized_point_cloud (frames i)).
  change (to_unorganized_point_cloud (frames 0%nat)) with (clouds 0%nat).
  change (seq 1 4) with (1%nat :: seq 2 3). rewrite for_each_cons.
  unfold Shoes._main. fold clouds.
  change (Shoes.loop_body clouds (clouds 0%nat) 1) with (Shoes.first_pair clouds).
  now destruct (Shoes.first_pair clouds).
Qed.

(** The loop of the shoes script, run from the accumulation of the clouds
    [0] to [j], reaches the accumulation of the clouds [0] to [j + n]. *)
Lemma shoes_chain_run (clouds : nat → cloud) (n j : nat) :
  (∀ i, (j ≤ i < j + n)%nat →
     converged (local_point_cloud_registration (shoes_accumulated clouds i) (clouds (S i))
                  Shoes.registration_params None) = true) →
  for_each (Shoes.loop_body clouds) (seq (S j) n) (shoes_accumulated clouds j)
  = Ok (shoes_accumulated clouds (j + n)).
Proof.
  revert j. induction n as [|n IH]; intros j Hconv.
  - rewrite Nat.add_0_r. reflexivity.
  - cbn [seq]. rewrite for_each_cons.
    assert (Shoes.loop_body clouds (shoes_accumulated clouds j) (S j)
            = Ok (shoes_accumulated clouds (S j))) as ->.
    { unfold Shoes.loop_body. rewrite (Hconv j) by lia. reflexivity. }
    cbn [outcome_bind]. rewrite IH by (intros i Hi; apply Hconv; lia).
    f_equal. f_equal. lia.
Qed.

(** The loop of the continuous script over the first [n] captures reaches
    the state the description gives. *)
Lemma continuous_loop_is_chain (camera : nat → frame) (n : nat) :
  for_each (Continuous.loop_body camera) (seq 0 n) Continuous.initial_state
  = continuous_after camera n.
Proof.
  induction n as [|n IH]; [reflexivity|].
  rewrite seq_S, for_each_app, IH. cbn [plus continuous_after].
  destruct (continuous_after camera n) as [st|e]; [|reflexivity].
  cbn [outcome_bind]. rewrite for_each_cons.
  unfold Continuous.loop_body, continuous_registration, continuous_capture.
  destruct (n =? 0)%nat; cbn [negb].
  - reflexivity.
  - destruct (converged _); cbn [negb]; [|reflexivity].
    now destruct (np_linalg_inv _).
Qed.

End StitchingChainRuns.

(** C3, as amended. In the two scripts that stitch files, for each capture
    after the first whose registration converges, the accumulated cloud after
    the step is the previous accumulated cloud extended with the new cloud
    transformed by the registration transform (followed by voxel
    down-sampling in the shoes script); in the continuous loop it is the
    previous accumulated cloud transformed by the inverse of the registration
    transform, extended with the new cloud as captured.  The transforms are
    chained through the whole of each script: when its registrations
    converge, the shoes script ends with the accumulation of its five clouds,
    each registered against the accumulation of all the clouds before it, and
    the continuous script ends with the state its twenty captures reach one
    after the other, each registered against the cloud accumulated so far
    with the previous transform as initial transform.  In the two-cloud
    script the registration is computed between down-sampled copies of the
    two clouds. *)
Theorem stitching_steps `{ZividSDK} `{NumPy} :
  (∀ (clouds : nat → cloud) (stitched_cloud : cloud) (i : nat),
     let r := local_point_cloud_registration stitched_cloud (clouds i)
                Shoes.registration_params None in
     converged r = true →
     Shoes.loop_body clouds stitched_cloud i
     = Ok (voxel_downsampled (stitched_cloud ++ transformed (transform r) (clouds i)) 1 1))
  ∧ (∀ (clouds : nat → cloud),
       let r := local_point_cloud_registration (clouds 0%nat) (clouds 1%nat)
                  Shoes.registration_params None in
       converged r = true →
       Shoes.first_pair clouds
       = Ok (voxel_downsampled (clouds 0%nat ++ transformed (transform r) (clouds 1%nat)) 1 1))
  ∧ (∀ (frame_1 frame_2 : frame),
       let c1 := to_unorganized_point_cloud frame_1 in
       let c2 := to_unorganized_point_cloud frame_2 in
       let r := local_point_cloud_registration (voxel_downsampled c1 1 3)
                  (voxel_downsampled c2 1 3) LocalPointCloudRegistrationParameters None in
       converged r = true →
       TwoClouds._main frame_1 frame_2
       = Ok (c1 ++ transformed (transform r) c2,
             voxel_downsampled (c1 ++ transformed (transform r) c2) half 1))
  ∧ (∀ (camera : nat → frame) (st : Continuous.loop_state) (n : nat) (inverse : mat4),
       n ≠ 0%nat →
       converged (continuous_registration camera st n) = true →
       np_linalg_inv (transform (continuous_registration camera st n)) = Some inverse →
       Continuous.loop_body camera st n
       = Ok (Continuous.LoopState (transform (continuous_registration camera st n))
               (transformed inverse (Continuous.unorganized_stitched_point_cloud st)
                ++ continuous_capture camera n)))
  ∧ (∀ (frames : nat → frame),
       let clouds i := to_unorganized_point_cloud (frames i) in
       (∀ j, (j < 4)%nat →
          converged (local_point_cloud_registration (shoes_accumulated clouds j)
                       (clouds (S j)) Shoes.registration_params None) = true) →
       Shoes._main frames
       = Ok (shoes_accumulated clouds 4,
             voxel_downsampled (shoes_accumulated clouds 4) half 1))
  ∧ (∀ (camera : nat → frame),
       Continuous._main camera
       = outcome_bind (continuous_after camera 20)
           (λ st, Ok (voxel_downsampled (Continuous.unorganized_stitched_point_cloud st)
                        three_quarters 2))).
Proof.
  split; [|split; [|split; [|split; [|split]]]].
  - intros clouds stitched_cloud i r Hconv. unfold Shoes.loop_body.
    fold r. now rewrite Hconv.
  - intros clouds r Hconv. unfold Shoes.first_pair. fold r. now rewrite Hconv.
  - intros frame_1 frame_2 c1 c2 r Hconv. unfold TwoClouds._main.
    fold c1. fold c2. fold r. now rewrite Hconv.
  - apply continuous_loop_body_converged.
  - intros frames clouds Hconv. rewrite (shoes_main_as_loop frames). fold clouds.
    change (to_unorganized_point_cloud (frames 0%nat)) with (shoes_accumulated clouds 0).
    rewrite (shoes_chain_run clouds 4 0) by (intros i Hi; apply Hconv; lia).
    reflexivity.
  - intros camera. unfold Continuous._main. now rewrite continuous_loop_is_chain.
Qed.

Lemma stitching_steps_witness :
  let st := Continuous.LoopState identity4 [UPoint (ipoint 0 0 0) black] in
  let r := continuous_registration (H := sample_sdk) moving_point_camera st 5 in
  let clouds i := to_unorganized_point_cloud (ZividSDK := sample_sdk) (doubling_frames i) in
  5%nat ≠ 0%nat
  ∧ converged r = true
  ∧ np_linalg_inv (NumPy := sample_numpy) (transform r) = Some (translation (ipoint 5 0 0))
  ∧ Continuous.loop_body (H := sample_sdk) (H0 := sample_numpy) moving_point_camera st 5
    = Ok (Continuous.LoopState (transform r)
            (transformed (translation (ipoint 5 0 0)) [UPoint (ipoint 0 0 0) black]
             ++ continuous_capture (H := sample_sdk) moving_point_camera 5))
  ∧ Shoes._main (H := sample_sdk) doubling_frames
    = Ok (shoes_accumulated (H := sample_sdk) clouds 4,
          voxel_downsampled (ZividSDK := sample_sdk)
            (shoes_accumulated (H := sample_sdk) clouds 4) half 1).
Proof.
  intros st r clouds.
  assert (5%nat ≠ 0%nat) as Hn by discriminate.
  assert (converged r = true) as Hconv by reflexivity.
  assert (np_linalg_inv (NumPy := sample_numpy) (transform r)
          = Some (translation (ipoint 5 0 0))) as Hinv by compute_eq.
  assert (∀ j, (j < 4)%nat →
            converged (local_point_cloud_registration (ZividSDK := sample_sdk)
                         (shoes_accumulated (H := sample_sdk) clouds j) (clouds (S j))
                         Shoes.registration_params None) = true) as Hchain.
  { intros [|[|[|[|j]]]] Hj; [compute_eq.. | lia]. }
  destruct (stitching_steps (H := sample_sdk) (H0 := sample_numpy))
    as (_ & _ & _ & Hcont & Hshoes & _).
  exact (conj Hn (conj Hconv (conj Hinv
           (conj (Hcont moving_point_camera st 5%nat (translation (ipoint 5 0 0)) Hn Hconv Hinv)
                 (Hshoes doubling_frames Hchain))))).
Defined.

(** C3, as stated, fails on the continuous loop: the accumulated cloud
    [(0,0,0)] and the capture [(5,0,0)] register by the translation by
    [(-5,0,0)]; the loop leaves [(5,0,0); (5,0,0)] (the accumulated cloud moved
    by the inverse, then the capture as it is), not [(0,0,0); (0,0,0)].  It
    fails on the two-cloud script too: the registration runs between the
    copies down-sampled with three points per voxel, which have lost the
    outliers [(0,0,0)] and [(1,0,0)], and gives the translation by [(-2,0,0)],
    where the registration against the first cloud itself gives the
    translation by [(-1,0,0)]; the second cloud is stitched with its outlier
    at [(-1,0,0)], not at [(0,0,0)]. *)
Lemma continuous_loop_counterexample :
  Continuous.loop_body (H := sample_sdk) (H0 := sample_numpy) moving_point_camera
    (Continuous.LoopState identity4 [UPoint (ipoint 0 0 0) black]) 5
  = Ok (Continuous.LoopState (translation (ipoint (-5) 0 0))
          [UPoint (ipoint 5 0 0) black; UPoint (ipoint 5 0 0) black])
  ∧ ¬ continuous_extends_everywhere (H := sample_sdk) (H0 := sample_numpy)
  ∧ TwoClouds._main (H := sparse_voxel_sdk) outlier_frame_1 outlier_frame_2
    = Ok ((λ p, UPoint p black)
            <$> [ipoint 0 0 0; ipoint 5 0 0; ipoint 5 0 0; ipoint 5 0 0;
                 ipoint (-1) 0 0; ipoint 5 0 0; ipoint 5 0 0; ipoint 5 0 0],
          (λ p, UPoint p black)
            <$> [ipoint 0 0 0; ipoint 5 0 0; ipoint 5 0 0; ipoint 5 0 0;
                 ipoint (-1) 0 0; ipoint 5 0 0; ipoint 5 0 0; ipoint 5 0 0])
  ∧ transform (local_point_cloud_registration (ZividSDK := sparse_voxel_sdk)
                 (to_unorganized_point_cloud (ZividSDK := sparse_voxel_sdk) outlier_frame_1)
                 (to_unorganized_point_cloud (ZividSDK := sparse_voxel_sdk) outlier_frame_2)
                 (LocalPointCloudRegistrationParameters (ZividSDK := sparse_voxel_sdk)) None)
    = translation (ipoint (-1) 0 0)
  ∧ ¬ two_clouds_registers_accumulated_everywhere (H := sparse_voxel_sdk).
Proof.
  assert (Continuous.loop_body (H := sample_sdk) (H0 := sample_numpy) moving_point_camera
            (Continuous.LoopState identity4 [UPoint (ipoint 0 0 0) black]) 5
          = Ok (Continuous.LoopState (translation (ipoint (-5) 0 0))
                  [UPoint (ipoint 5 0 0) black; UPoint (ipoint 5 0 0) black])) as Hrun.
  { compute_eq. }
  split; [exact Hrun|]. split.
  { intros Hclaim.
    specialize (Hclaim moving_point_camera
                  (Continuous.LoopState identity4 [UPoint (ipoint 0 0 0) black]) _ 5%nat
                  ltac:(discriminate) eq_refl Hrun).
    destruct Hclaim as [Heq | (vs & mp & Heq)];
      apply (f_equal head) in Heq; cbn [head Continuous.unorganized_stitched_point_cloud] in Heq;
      change (Some (UPoint (ipoint 5 0 0) black) = Some (UPoint (ipoint 0 0 0) black)) in Heq;
      discriminate Heq. }
  set (stitched := (λ p, UPoint p black)
                     <$> [ipoint 0 0 0; ipoint 5 0 0; ipoint 5 0 0; ipoint 5 0 0;
                          ipoint (-1) 0 0; ipoint 5 0 0; ipoint 5 0 0; ipoint 5 0 0]).
  assert (TwoClouds._main (H := sparse_voxel_sdk) outlier_frame_1 outlier_frame_2
          = Ok (stitched, stitched)) as Htwo by compute_eq.
  split; [exact Htwo|]. split; [compute_eq|].
  intros Hclaim. specialize (Hclaim outlier_frame_1 outlier_frame_2 stitched stitched Htwo).
  cbv zeta in Hclaim.
  set (expected := (λ p, UPoint p black)
                     <$> [ipoint 0 0 0; ipoint 5 0 0; ipoint 5 0 0; ipoint 5 0 0;
                          ipoint 0 0 0; ipoint 6 0 0; ipoint 6 0 0; ipoint 6 0 0]).
  assert (to_unorganized_point_cloud (ZividSDK := sparse_voxel_sdk) outlier_frame_1
          ++ transformed
               (transform (local_point_cloud_registration (ZividSDK := sparse_voxel_sdk)
                             (to_unorganized_point_cloud (ZividSDK := sparse_voxel_sdk)
                                outlier_frame_1)
                             (to_unorganized_point_cloud (ZividSDK := sparse_voxel_sdk)
                                outlier_frame_2)
                             (LocalPointCloudRegistrationParameters
                                (ZividSDK := sparse_voxel_sdk)) None))
               (to_unorganized_point_cloud (ZividSDK := sparse_voxel_sdk) outlier_frame_2)
          = expected) as Hexpected by compute_eq.
  unfold extended_by_registration in Hclaim. rewrite Hexpected in Hclaim.
  assert (UPoint (ipoint (-1) 0 0) black ∈ stitched) as Hin.
  { subst stitched. do 4 apply list_elem_of_further. apply list_elem_of_here. }
  assert (UPoint (ipoint (-1) 0 0) black ∉ expected) as Hout.
  { apply (bool_decide_unpack _). vm_compute. exact I. }
  destruct Hclaim as [Heq | (vs & mp & Heq)]; rewrite Heq in Hin.
  - exact (Hout Hin).
  - unfold voxel_downsampled, sparse_voxel_sdk, sparse_voxel_downsampled in Hin.
    apply list_elem_of_filter in Hin as [_ Hin]. exact (Hout Hin).
Qed.

(** C4, as amended. In the two scripts that stitch files the only handling
    of a registration that did not converge is the assertion: the step ends
    with an assertion failure, and that ends the loop and the script.  In the
    continuous loop a capture whose registration did not converge is skipped:
    the accumulated cloud and the previous transform stay as they were and the
    loop goes on; that script never ends with an assertion failure. *)
Theorem non_convergence_handling `{ZividSDK} `{NumPy} :
  (∀ (frame_1 frame_2 : frame),
     converged (local_point_cloud_registration
                  (voxel_downsampled (to_unorganized_point_cloud frame_1) 1 3)
                  (voxel_downsampled (to_unorganized_point_cloud frame_2) 1 3)
                  LocalPointCloudRegistrationParameters None) = false →
     TwoClouds._main frame_1 frame_2 = Raise (AssertionError 2))
  ∧ (∀ (clouds : nat → cloud),
       converged (local_point_cloud_registration (clouds 0%nat) (clouds 1%nat)
                    Shoes.registration_params None) = false →
       Shoes.first_pair clouds = Raise (AssertionError 2))
  ∧ (∀ (clouds : nat → cloud) (stitched_cloud : cloud) (i : nat),
       converged (local_point_cloud_registration stitched_cloud (clouds i)
                    Shoes.registration_params None) = false →
       Shoes.loop_body clouds stitched_cloud i = Raise (AssertionError (i + 1)))
  ∧ (∀ {A St} (body : St → A → outcome St) (x : A) (xs : list A) (s : St) (e : exn),
       body s x = Raise e → for_each body (x :: xs) s = Raise e)
  ∧ (∀ (frames : nat → frame) (e : exn),
       Shoes.first_pair (λ i, to_unorganized_point_cloud (frames i)) = Raise e
       ∨ (∃ s, Shoes.first_pair (λ i, to_unorganized_point_cloud (frames i)) = Ok s
               ∧ for_each (Shoes.loop_body (λ i, to_unorganized_point_cloud (frames i)))
                   (seq 2 3) s = Raise e) →
       Shoes._main frames = Raise e)
  ∧ (∀ (camera : nat → frame) (st : Continuous.loop_state) (n : nat),
       n ≠ 0%nat →
       converged (continuous_registration camera st n) = false →
       Continuous.loop_body camera st n = Ok st)
  ∧ (∀ (camera : nat → frame),
       (∃ c, Continuous._main camera = Ok c) ∨ Continuous._main camera = Raise LinAlgError).
Proof.
  split; [|split; [|split; [|split; [|split; [|split]]]]].
  - intros frame_1 frame_2 Hconv. unfold TwoClouds._main. now rewrite Hconv.
  - intros clouds Hconv. unfold Shoes.first_pair. now rewrite Hconv.
  - intros clouds stitched_cloud i Hconv. unfold Shoes.loop_body. now rewrite Hconv.
  - intros A St body x xs s e Hbody. rewrite for_each_cons, Hbody. reflexivity.
  - intros frames e [Hfirst | (s & Hfirst & Hloop)]; unfold Shoes._main; rewrite Hfirst.
    + reflexivity.
    + unfold outcome_bind. rewrite Hloop. reflexivity.
  - apply continuous_loop_body_skips.
  - intros camera. unfold Continuous._main.
    destruct (continuous_loop_outcome camera (seq 0 20) Continuous.initial_state)
      as [[st ->] | ->].
    + left. eexists. reflexivity.
    + right. reflexivity.
Qed.

Lemma non_convergence_handling_witness :
  let st := Continuous.LoopState identity4 [UPoint (ipoint 0 0 0) black] in
  1%nat ≠ 0%nat
  ∧ converged (continuous_registration (H := sample_sdk) growing_camera st 1) = false
  ∧ Continuous.loop_body (H := sample_sdk) (H0 := sample_numpy) growing_camera st 1 = Ok st.
Proof.
  intros st.
  assert (1%nat ≠ 0%nat) as Hn by discriminate.
  assert (converged (continuous_registration (H := sample_sdk) growing_camera st 1) = false)
    as Hconv by reflexivity.
  destruct (non_convergence_handling (H := sample_sdk) (H0 := sample_numpy))
    as (_ & _ & _ & _ & _ & Hskip & _).
  exact (conj Hn (conj Hconv (Hskip growing_camera st 1%nat Hn Hconv))).
Defined.

(** C4, as stated, fails on the continuous loop: none of the nineteen
    registrations after the first capture converges, and the script ends
    normally with the cloud of the first capture. *)
Lemma continuous_skip_counterexample :
  Continuous._main (H := sample_sdk) (H0 := sample_numpy) growing_camera
  = Ok [UPoint (ipoint 0 0 0) black]
  ∧ converged (continuous_registration (H := sample_sdk) growing_camera
                 (Continuous.LoopState identity4 [UPoint (ipoint 0 0 0) black]) 1) = false
  ∧ ¬ continuous_asserts_everywhere (H := sample_sdk) (H0 := sample_numpy).
Proof.
  split; [compute_eq|]. split; [reflexivity|].
  intros Hclaim.
  destruct (Hclaim growing_camera
              (Continuous.LoopState identity4 [UPoint (ipoint 0 0 0) black]) 1%nat
              ltac:(discriminate) eq_refl) as [k Hk].
  rewrite (continuous_loop_body_skips (H := sample_sdk) (H0 := sample_numpy)) in Hk;
    [discriminate Hk | discriminate | reflexivity].
Qed.

(** ** The calibration loop *)

Section MultiCamLoops.
Context `{ZividSDK}.
Variable dir : MultiCam.directory.

Lemma calibration_loop_run (idatas : list nat) (inputs : list detection_result)
    (log : list MultiCam.sdk_call) :
  MultiCam.calibration_loop dir idatas inputs log
  = (match first_invalid dir idatas with
     | Some _ => Raise (RuntimeError "Failed to detect feature points from frame")
     | None => Ok (inputs ++ collected dir idatas)
     end,
     log ++ (MultiCam.DetectFeaturePoints <$> detected dir idatas)).
Proof.
  revert inputs log. induction idatas as [|idata rest IH]; intros inputs log; simpl.
  - unfold ret. now rewrite !app_nil_r.
  - destruct (MultiCam.img dir !! idata) as [f|].
    + unfold bind, MultiCam.call_detect.
      destruct (valid (detect_feature_points f)); simpl.
      * rewrite IH, <- !app_assoc. reflexivity.
      * reflexivity.
    + unfold ret. now rewrite !app_nil_r.
Qed.

Lemma first_invalid_seq_some (n i k : nat) :
  first_invalid dir (seq i n) = Some k →
  (i ≤ k)%nat
  ∧ (∀ j, (i ≤ j ≤ k)%nat → is_Some (MultiCam.img dir !! j))
  ∧ (∃ f, MultiCam.img dir !! k = Some f ∧ valid (detect_feature_points f) = false)
  ∧ detected dir (seq i n) = seq i (S k - i).
Proof.
  revert i. induction n as [|n IH]; intros i; simpl; [discriminate|].
  destruct (MultiCam.img dir !! i) as [f|] eqn:Hf; [|discriminate].
  destruct (valid (detect_feature_points f)) eqn:Hv.
  - intros Hk. destruct (IH (S i) Hk) as (Hle & Hall & Hinv & Hdet).
    split; [lia|]. split; [|split; [exact Hinv|]].
    + intros j Hj. destruct (decide (j = i)) as [->|]; [now rewrite Hf | apply Hall; lia].
    + rewrite Hdet. replace (S k - i)%nat with (S (S k - S i)) by lia. reflexivity.
  - intros [= <-]. split; [lia|]. split; [|split; [now exists f|]].
    + intros j Hj. replace j with i by lia. now rewrite Hf.
    + replace (S i - i)%nat with 1%nat by lia. reflexivity.
Qed.

Lemma first_invalid_seq_exists (n i k : nat) (f : frame) :
  (i ≤ k < i + n)%nat →
  (∀ j, (i ≤ j ≤ k)%nat → is_Some (MultiCam.img dir !! j)) →
  MultiCam.img dir !! k = Some f → valid (detect_feature_points f) = false →
  is_Some (first_invalid dir (seq i n)).
Proof.
  revert i. induction n as [|n IH]; intros i Hk Hall Hf Hv; [lia|].
  simpl. destruct (Hall i ltac:(lia)) as [g Hg]. rewrite Hg.
  destruct (valid (detect_feature_points g)) eqn:Hvg; [|now eexists].
  assert (i ≠ k) as Hne by (intros ->; congruence).
  apply IH; [lia | intros j Hj; apply Hall; lia | assumption..].
Qed.

Lemma detected_seq (n i : nat) : ∃ m, detected dir (seq i n) = seq i m.
Proof.
  revert i. induction n as [|n IH]; intros i; simpl; [now exists 0%nat|].
  destruct (MultiCam.img dir !! i) as [f|]; [|now exists 0%nat].
  destruct (valid (detect_feature_points f)).
  - destruct (IH (S i)) as [m ->]. now exists (S m).
  - now exists 1%nat.
Qed.

(** As many files as consecutive numbers that have one: the [while] loop
    stops among the first [size + 1] numbers. *)
Lemma present_le_size (k : nat) :
  (∀ j, (1 ≤ j ≤ k)%nat → is_Some (MultiCam.img dir !! j)) → (k ≤ size (MultiCam.img dir))%nat.
Proof.
  intros Hall.
  rewrite <- (size_dom (D := gset nat)), <- (size_set_seq (C := gset nat) 1 k).
  apply subseteq_size. intros j Hj.
  apply elem_of_set_seq in Hj. apply elem_of_dom, Hall. lia.
Qed.

(** The detection is called on fewer numbers than the loop is unfolded over:
    the loop is left by its [break] or by the [raise]. *)
Lemma detected_within_size :
  (length (detected dir (seq 1 (S (size (MultiCam.img dir))))) ≤ size (MultiCam.img dir))%nat.
Proof.
  assert (∀ n i j, j ∈ detected dir (seq i n) → is_Some (MultiCam.img dir !! j)) as Hpresent.
  { induction n as [|n IH]; intros i j; simpl; [intros Hj; inversion Hj|].
    destruct (MultiCam.img dir !! i) as [f|] eqn:Hf; [|intros Hj; inversion Hj].
    intros Hj. apply elem_of_cons in Hj as [->|Hj]; [now rewrite Hf|].
    destruct (valid (detect_feature_points f)); [now apply (IH (S i)) | inversion Hj]. }
  destruct (detected_seq (S (size (MultiCam.img dir))) 1) as [m Hm].
  rewrite Hm, length_seq. apply present_le_size.
  intros j Hj. apply (Hpresent (S (size (MultiCam.img dir))) 1%nat).
  rewrite Hm. apply elem_of_seq. lia.
Qed.

Lemma calibration_loop_breaks :
  ∃ k, (1 ≤ k ≤ S (size (MultiCam.img dir)))%nat ∧ MultiCam.img dir !! k = None
       ∧ ∀ j, (1 ≤ j < k)%nat → is_Some (MultiCam.img dir !! j).
Proof.
  assert (∀ n, (∀ j, (1 ≤ j ≤ n)%nat → is_Some (MultiCam.img dir !! j))
               ∨ ∃ k, (1 ≤ k ≤ n)%nat ∧ MultiCam.img dir !! k = None
                      ∧ ∀ j, (1 ≤ j < k)%nat → is_Some (MultiCam.img dir !! j)) as Hscan.
  { induction n as [|n [IH | (k & Hk & Hnone & Hbefore)]].
    - left. intros j Hj. lia.
    - destruct (MultiCam.img dir !! S n) as [f|] eqn:Hf.
      + left. intros j Hj. destruct (decide (j = S n)) as [->|]; [now rewrite Hf | apply IH; lia].
      + right. exists (S n). split; [lia|]. split; [exact Hf|]. intros j Hj. apply IH. lia.
    - right. exists k. split; [lia|]. now split. }
  destruct (Hscan (S (size (MultiCam.img dir)))) as [Hall | Hk]; [|exact Hk].
  apply present_le_size in Hall. lia.
Qed.

Lemma stitch_body_not_runtime_error (ts : list mat4) (st : MultiCam.stitch_state) (i : nat) :
  raises_runtime_error (MultiCam.stitch_body dir ts st i) = false.
Proof.
  unfold MultiCam.stitch_body.
  destruct (MultiCam.img_test dir !! MultiCam.idata st); [|reflexivity].
  destruct (ts !! i); [|reflexivity].
  destruct (i =? 0)%nat; [reflexivity|].
  destruct (MultiCam.stitched st) as [[? ?]|]; reflexivity.
Qed.

Lemma stitch_loop_not_runtime_error (ts : list mat4) (indices : list nat)
    (st : MultiCam.stitch_state) :
  raises_runtime_error (for_each (MultiCam.stitch_body dir ts) indices st) = false.
Proof.
  revert st. induction indices as [|i indices IH]; intros st; [reflexivity|].
  rewrite for_each_cons.
  pose proof (stitch_body_not_runtime_error ts st i) as Hb.
  destruct (MultiCam.stitch_body dir ts st i) as [st'|e]; [apply IH | exact Hb].
Qed.

(** [main] ends with a [RuntimeError] exactly when the calibration loop
    does, and then the log holds the detections made up to the failed one. *)
Lemma multicam_main_run (log : list MultiCam.sdk_call) :
  match first_invalid dir (seq 1 (S (size (MultiCam.img dir)))) with
  | Some _ =>
      MultiCam.main dir log
      = (Raise (RuntimeError "Failed to detect feature points from frame"),
         log ++ (MultiCam.DetectFeaturePoints
                   <$> detected dir (seq 1 (S (size (MultiCam.img dir))))))
  | None =>
      raises_runtime_error (MultiCam.main dir log).1 = false
      ∧ (MultiCam.main dir log).2
        = log ++ (MultiCam.DetectFeaturePoints
                    <$> detected dir (seq 1 (S (size (MultiCam.img dir)))))
              ++ [MultiCam.CalibrateMultiCamera
                    (length (collected dir (seq 1 (S (size (MultiCam.img dir))))))]
  end.
Proof.
  unfold MultiCam.main, bind. rewrite calibration_loop_run.
  destruct (first_invalid dir (seq 1 (S (size (MultiCam.img dir))))); [reflexivity|].
  cbv beta iota zeta delta [MultiCam.call_calibrate MultiCam.lift ret raise].
  rewrite !app_nil_l, <- !app_assoc.
  destruct (output_valid _); [|split; reflexivity].
  pose proof (stitch_loop_not_runtime_error
                (transforms (calibrate_multi_camera
                               (collected dir (seq 1 (S (size (MultiCam.img dir)))))))
                (seq 0 (length (transforms (calibrate_multi_camera
                               (collected dir (seq 1 (S (size (MultiCam.img dir)))))))))
                (MultiCam.StitchState 1 None)) as Hloop.
  unfold MultiCam.stitch_loop.
  destruct (for_each _ _ _) as [st|e]; [|split; [exact Hloop | reflexivity]].
  destruct (MultiCam.stitched st) as [[? ?]|]; split; reflexivity.
Qed.

End MultiCamLoops.

(** ** Raising on a failed set-up *)

Lemma detect_calls_nodup `{ZividSDK} (dir : MultiCam.directory) (n : nat) :
  NoDup (MultiCam.DetectFeaturePoints <$> detected dir (seq 1 n)).
Proof.
  destruct (detected_seq dir n 1) as [m ->].
  apply NoDup_fmap_2; [|apply NoDup_seq].
  intros x y Hxy. now injection Hxy.
Qed.

Ltac nodup_calls :=
  repeat (apply NoDup_cons; split;
          [rewrite ?elem_of_cons, elem_of_nil; intuition discriminate|]);
  apply NoDup_nil_2.

(** C5. [_initialize_robot_sync] raises [RuntimeError] exactly when the
    protocol negotiation fails, the output set-up is refused or the
    synchronisation does not start, it ends otherwise with the connection, and
    it sends each request at most once, the refused one last; the
    multi-camera calibration script raises [RuntimeError] exactly when the
    detection on a loaded frame is not valid, and then it has called the
    detection once on each frame up to that one and nothing else. *)
Theorem setup_failures_raise `{RobotComm.Controller} `{ZividSDK} :
  (∀ (conf : RobotComm.config_file) (host : string),
     let r := RobotComm._initialize_robot_sync conf host [] in
     let connected := [RobotComm.Connect host 30004; RobotComm.NegotiateProtocolVersion] in
     let configured :=
       connected ++ [RobotComm.SendOutputSetup (RobotComm.recipe_out conf).1
                       (RobotComm.recipe_out conf).2 200] in
     let started :=
       configured ++ [RobotComm.SendInputSetup (RobotComm.recipe_in conf).1
                        (RobotComm.recipe_in conf).2; RobotComm.SendStart] in
     (raises_runtime_error r.1 = true
      ↔ RobotComm.negotiates = false ∨ RobotComm.accepts_output_setup = false
        ∨ RobotComm.starts = false)
     ∧ is_ok r.1 = negb (raises_runtime_error r.1)
     ∧ NoDup r.2
     ∧ (RobotComm.negotiates = false →
        r = (Raise (RuntimeError "Protocol do not match"), connected))
     ∧ (RobotComm.negotiates = true → RobotComm.accepts_output_setup = false →
        r = (Raise (RuntimeError "Unable to configure output"), configured))
     ∧ (RobotComm.negotiates = true → RobotComm.accepts_output_setup = true →
        RobotComm.starts = false →
        r = (Raise (RuntimeError "Unable to start synchronization"), started)))
  ∧ (∀ (dir : MultiCam.directory),
       let r := MultiCam.main dir [] in
       (raises_runtime_error r.1 = true
        ↔ ∃ k f, (1 ≤ k)%nat
                 ∧ (∀ j, (1 ≤ j ≤ k)%nat → is_Some (MultiCam.img dir !! j))
                 ∧ MultiCam.img dir !! k = Some f
                 ∧ valid (detect_feature_points f) = false)
       ∧ NoDup r.2
       ∧ (raises_runtime_error r.1 = true →
          ∃ k f, r.2 = MultiCam.DetectFeaturePoints <$> seq 1 k
                 ∧ MultiCam.img dir !! k = Some f
                 ∧ valid (detect_feature_points f) = false)).
Proof.
  split.
  - intros [[on ot] [inn it]] host.
    unfold RobotComm._initialize_robot_sync, RobotComm.connect,
      RobotComm.negotiate_protocol_version, RobotComm.send_output_setup,
      RobotComm.send_input_setup, RobotComm.send_start, RobotComm.request, bind, ret, raise.
    cbn [RobotComm.recipe_out RobotComm.recipe_in RobotComm.hostname RobotComm.port fst snd app].
    destruct RobotComm.negotiates, RobotComm.accepts_output_setup, RobotComm.starts;
      cbn [negb fst snd app raises_runtime_error is_ok];
      (split; [split; [intros Hr; try discriminate Hr; auto | intros [Hf | [Hf | Hf]];
                        try discriminate Hf; reflexivity]|]);
      (split; [reflexivity|]);
      (split; [nodup_calls|]);
      repeat split; intros; try discriminate; reflexivity.
  - intros dir r. subst r.
    pose proof (multicam_main_run dir []) as Hrun.
    destruct (first_invalid dir (seq 1 (S (size (MultiCam.img dir))))) as [k|] eqn:Hfirst.
    + rewrite Hrun. cbn [fst snd app raises_runtime_error].
      destruct (first_invalid_seq_some dir _ _ _ Hfirst) as (Hle & Hall & (f & Hf & Hv) & Hdet).
      split; [split; [intros _; now exists k, f | reflexivity]|].
      split; [apply detect_calls_nodup|].
      intros _. exists k, f. rewrite Hdet.
      replace (S k - 1)%nat with k by lia. now split.
    + destruct Hrun as [Hnot Hlog]. rewrite Hnot, Hlog. cbn [app].
      split; [split; [discriminate|]|split; [|discriminate]].
      * intros (k & f & Hk & Hall & Hf & Hv). exfalso.
        pose proof (present_le_size dir k Hall) as Hsize.
        destruct (first_invalid_seq_exists dir (S (size (MultiCam.img dir))) 1 k f)
          as [k' Hk']; [lia | assumption..|].
        congruence.
      * apply NoDup_app. split; [apply detect_calls_nodup|]. split; [|nodup_calls].
        intros c Hc. apply list_elem_of_fmap in Hc as (i & -> & _).
        rewrite list_elem_of_singleton. discriminate.
Qed.

Lemma setup_failures_raise_witness :
  RobotComm.negotiates (Controller := refusing_controller) = false
  ∧ RobotComm._initialize_robot_sync (H := refusing_controller) sample_config "192.168.56.101" []
    = (Raise (RuntimeError "Protocol do not match"),
       [RobotComm.Connect "192.168.56.101" 30004; RobotComm.NegotiateProtocolVersion]).
Proof.
  destruct (setup_failures_raise (H := refusing_controller) (H0 := sample_sdk)) as [Hrobot _].
  destruct (Hrobot sample_config "192.168.56.101") as (_ & _ & _ & Hrefused & _).
  exact (conj eq_refl (Hrefused eq_refl)).
Defined.

(** ** The stitched arrays *)

Lemma length_reshape_map {A B} (g : A → B) (x : list (list A)) :
  length (reshape_nx3 (map (map g) x)) = length (reshape_nx3 x).
Proof.
  unfold reshape_nx3. rewrite <- concat_map. apply length_map.
Qed.

Section StitchedArrays.
Context `{ZividSDK}.
Variable dir : MultiCam.directory.

Lemma frame_arrays_rows (t : mat4) (f : frame) : length (frame_arrays t f).1 = point_count f.
Proof.
  unfold frame_arrays, point_count, nan_to_num_image, transformed_xyz. cbn [fst].
  now rewrite !length_reshape_map.
Qed.

Lemma loaded_frames_S (ts : list mat4) (k : nat) :
  loaded_frames dir ts (S k)
  = loaded_frames dir ts k
    ++ match MultiCam.img_test dir !! (k + 1)%nat, ts !! k with
       | Some f, Some t => [(t, f)]
       | _, _ => []
       end.
Proof.
  unfold loaded_frames. rewrite seq_S, omap_app. f_equal. simpl.
  destruct (MultiCam.img_test dir !! (k + 1)%nat); [|reflexivity].
  destruct (ts !! k); reflexivity.
Qed.

Lemma loaded_frames_prefix (ts : list mat4) (j k : nat) :
  (j ≤ k)%nat → loaded_frames dir ts j `prefix_of` loaded_frames dir ts k.
Proof.
  induction 1 as [|k _ IH]; [reflexivity|].
  rewrite loaded_frames_S. etrans; [exact IH | now apply prefix_app_r].
Qed.

Lemma stitch_body_first (ts : list mat4) (f1 : frame) (t : mat4) :
  MultiCam.img_test dir !! 1%nat = Some f1 → ts !! 0%nat = Some t →
  MultiCam.stitch_body dir ts (MultiCam.StitchState 1 None) 0
  = Ok (MultiCam.StitchState 2 (Some (frame_arrays t f1))).
Proof.
  intros Hf1 Ht. unfold MultiCam.stitch_body. cbn [MultiCam.idata].
  rewrite Hf1, Ht. reflexivity.
Qed.

Lemma stitch_body_next (ts : list mat4) (m : nat) (t : mat4)
    (sx : list vec3) (sr : list (Z * Z * Z)) :
  m ≠ 0%nat → ts !! m = Some t →
  MultiCam.stitch_body dir ts (MultiCam.StitchState (m + 1) (Some (sx, sr))) m
  = Ok (MultiCam.StitchState (S m + 1)
          (Some match MultiCam.img_test dir !! (m + 1)%nat with
                | Some f => (sx ++ (frame_arrays t f).1, sr ++ (frame_arrays t f).2)
                | None => (sx, sr)
                end)).
Proof.
  intros Hm Ht. unfold MultiCam.stitch_body. cbn [MultiCam.idata MultiCam.stitched].
  apply Nat.eqb_neq in Hm. rewrite Ht, Hm.
  replace (m + 1 + 1)%nat with (S m + 1)%nat by lia.
  destruct (MultiCam.img_test dir !! (m + 1)%nat); reflexivity.
Qed.

Lemma stitch_prefix_run (ts : list mat4) (f1 : frame) (k : nat) :
  MultiCam.img_test dir !! 1%nat = Some f1 → (1 ≤ k)%nat → (k ≤ length ts)%nat →
  for_each (MultiCam.stitch_body dir ts) (seq 0 k) (MultiCam.StitchState 1 None)
  = Ok (MultiCam.StitchState (k + 1)
          (Some (concat (loaded_arrays dir ts k).*1, concat (loaded_arrays dir ts k).*2))).
Proof.
  intros Hf1 Hk1. induction Hk1 as [|m Hm IH]; intros Hk2.
  - destruct (lookup_lt_is_Some_2 ts 0%nat ltac:(lia)) as [t Ht].
    change (seq 0 1) with [0%nat]. rewrite for_each_cons, (stitch_body_first ts f1 t Hf1 Ht).
    unfold loaded_arrays, loaded_frames. cbn [seq omap list_omap plus].
    rewrite Hf1, Ht. cbn [fmap list_fmap concat fst snd outcome_bind for_each].
    now rewrite !app_nil_r.
  - destruct (lookup_lt_is_Some_2 ts m ltac:(lia)) as [t Ht].
    rewrite seq_S, for_each_app, IH by lia.
    cbn [outcome_bind plus]. rewrite for_each_cons.
    rewrite (stitch_body_next ts m t _ _ ltac:(lia) Ht). cbn [outcome_bind for_each].
    unfold loaded_arrays. rewrite loaded_frames_S, Ht.
    destruct (MultiCam.img_test dir !! (m + 1)%nat) as [f|].
    + rewrite !fmap_app, !concat_app. cbn [fmap list_fmap concat fst snd].
      now rewrite !app_nil_r.
    + now rewrite !app_nil_r.
Qed.

(** Without the first test frame the arrays are never bound: the loop goes
    on with nothing stitched, or stops at the first frame that exists. *)
Lemma stitch_first_missing (ts : list mat4) (k : nat) :
  MultiCam.img_test dir !! 1%nat = None →
  match for_each (MultiCam.stitch_body dir ts) (seq 0 k) (MultiCam.StitchState 1 None) with
  | Ok st => st = MultiCam.StitchState (k + 1) None
  | Raise _ => True
  end.
Proof.
  intros Hmissing. induction k as [|k IH]; [reflexivity|].
  rewrite seq_S, for_each_app.
  destruct (for_each (MultiCam.stitch_body dir ts) (seq 0 k) (MultiCam.StitchState 1 None))
    as [st|e]; [|exact I].
  subst st. cbn [outcome_bind plus]. rewrite for_each_cons.
  unfold MultiCam.stitch_body. cbn [MultiCam.idata MultiCam.stitched].
  destruct (MultiCam.img_test dir !! (k + 1)%nat) as [f|] eqn:Hf.
  - destruct (ts !! k); [|exact I].
    destruct (k =? 0)%nat eqn:Hk; [|exact I].
    apply Nat.eqb_eq in Hk. subst k. cbn [plus] in Hf. congruence.
  - cbn [outcome_bind for_each]. f_equal. lia.
Qed.

End StitchedArrays.

Lemma loaded_arrays_rows (dir : MultiCam.directory) (ts : list mat4) (k : nat) :
  length (concat (loaded_arrays dir ts k).*1)
  = list_sum (map (λ tf, point_count tf.2) (loaded_frames dir ts k)).
Proof.
  unfold loaded_arrays. rewrite length_concat. f_equal.
  induction (loaded_frames dir ts k) as [|[t f] l IH]; [reflexivity|].
  cbn [fmap list_fmap map fst snd]. f_equal; [apply frame_arrays_rows | exact IH].
Qed.

Lemma loaded_arrays_colour_rows (dir : MultiCam.directory) (ts : list mat4) (k : nat) :
  length (concat (loaded_arrays dir ts k).*2)
  = list_sum (map (λ tf, colour_count tf.2) (loaded_frames dir ts k)).
Proof.
  unfold loaded_arrays. rewrite length_concat. f_equal.
  induction (loaded_frames dir ts k) as [|[t f] l IH]; [reflexivity|].
  cbn [fmap list_fmap map fst snd]. f_equal; [|exact IH].
  unfold frame_arrays, colour_count, rgb_slice. cbn [snd]. apply length_reshape_map.
Qed.

Lemma loaded_frames_are_test_frames (dir : MultiCam.directory) (ts : list mat4) (k : nat)
    (t : mat4) (f : frame) :
  (t, f) ∈ loaded_frames dir ts k → ∃ i, MultiCam.img_test dir !! i = Some f.
Proof.
  unfold loaded_frames. intros Hin. apply list_elem_of_omap in Hin as (i & _ & Hi).
  destruct (MultiCam.img_test dir !! (i + 1)%nat) as [g|] eqn:Hg; [|discriminate Hi].
  destruct (ts !! i); [|discriminate Hi]. injection Hi as _ <-. now exists (i + 1)%nat.
Qed.

Lemma loaded_colour_count_is_point_count (dir : MultiCam.directory) (ts : list mat4) (k : nat) :
  (∀ i f, MultiCam.img_test dir !! i = Some f → colour_count f = point_count f) →
  list_sum (map (λ tf, colour_count tf.2) (loaded_frames dir ts k))
  = list_sum (map (λ tf, point_count tf.2) (loaded_frames dir ts k)).
Proof.
  intros Hagree. f_equal. apply map_ext_in. intros [t f] Hin. cbn [snd].
  apply list_elem_of_In, loaded_frames_are_test_frames in Hin as [i Hi].
  exact (Hagree i f Hi).
Qed.

Lemma loaded_arrays_prefix (dir : MultiCam.directory) (ts : list mat4) (j k : nat) :
  (j ≤ k)%nat →
  concat (loaded_arrays dir ts j).*1 `prefix_of` concat (loaded_arrays dir ts k).*1
  ∧ concat (loaded_arrays dir ts j).*2 `prefix_of` concat (loaded_arrays dir ts k).*2.
Proof.
  intros Hjk. destruct (loaded_frames_prefix dir ts j k Hjk) as [rest Hrest].
  unfold loaded_arrays. rewrite Hrest, !fmap_app, !concat_app.
  split; now apply prefix_app_r.
Qed.

(** C8. In the multi-camera stitching script the stitched arrays are the
    pure concatenation of the per-frame arrays: after the first [k]
    iterations of the stitching loop (for each [k] up to the number of
    transforms), whenever [stitched_xyz] and [stitched_rgb] are bound they are
    the concatenations of the arrays of the frames loaded so far, in order;
    [stitched_xyz] has as many rows as these frames have points together and
    [stitched_rgb] as many rows as they have colour pixels together, which is
    the same number since the two arrays of a frame are copies of one point
    cloud; they are bound after every iteration when the first test frame
    exists; and what was stitched after fewer iterations is a prefix of what
    is stitched later. *)
Theorem stitched_arrays_are_concatenation
    (dir : MultiCam.directory) (ts : list mat4) (k : nat) :
  (k ≤ length ts)%nat →
  let after_k :=
    for_each (MultiCam.stitch_body dir ts) (seq 0 k) (MultiCam.StitchState 1 None) in
  (∀ st stitched_xyz stitched_rgb,
     after_k = Ok st → MultiCam.stitched st = Some (stitched_xyz, stitched_rgb) →
     stitched_xyz = concat (loaded_arrays dir ts k).*1
     ∧ stitched_rgb = concat (loaded_arrays dir ts k).*2
     ∧ length stitched_xyz = list_sum (map (λ tf, point_count tf.2) (loaded_frames dir ts k))
     ∧ length stitched_rgb = list_sum (map (λ tf, colour_count tf.2) (loaded_frames dir ts k))
     ∧ ((∀ i f, MultiCam.img_test dir !! i = Some f → colour_count f = point_count f) →
        length stitched_rgb
        = list_sum (map (λ tf, point_count tf.2) (loaded_frames dir ts k))))
  ∧ (∀ f1, MultiCam.img_test dir !! 1%nat = Some f1 → (1 ≤ k)%nat →
       after_k = Ok (MultiCam.StitchState (k + 1)
                       (Some (concat (loaded_arrays dir ts k).*1,
                              concat (loaded_arrays dir ts k).*2))))
  ∧ (∀ j, (j ≤ k)%nat →
       concat (loaded_arrays dir ts j).*1 `prefix_of` concat (loaded_arrays dir ts k).*1
       ∧ concat (loaded_arrays dir ts j).*2 `prefix_of` concat (loaded_arrays dir ts k).*2)
  ∧ (k = length ts → MultiCam.stitch_loop dir ts = after_k).
Proof.
  intros Hk after_k. subst after_k.
  split; [|split; [|split]].
  - intros st sx sr Hrun Hbound.
    destruct (MultiCam.img_test dir !! 1%nat) as [f1|] eqn:Hf1.
    + destruct k as [|k].
      * injection Hrun as <-. discriminate Hbound.
      * rewrite (stitch_prefix_run dir ts f1 (S k) Hf1 ltac:(lia) Hk) in Hrun.
        injection Hrun as <-. injection Hbound as <- <-.
        split; [reflexivity|]. split; [reflexivity|].
        split; [apply loaded_arrays_rows|]. split; [apply loaded_arrays_colour_rows|].
        intros Hagree. rewrite loaded_arrays_colour_rows.
        now apply loaded_colour_count_is_point_count.
    + pose proof (stitch_first_missing dir ts k Hf1) as Hnone.
      rewrite Hrun in Hnone. subst st. discriminate Hbound.
  - intros f1 Hf1 Hk1. now apply (stitch_prefix_run dir ts f1).
  - intros j Hj. now apply loaded_arrays_prefix.
  - intros ->. reflexivity.
Qed.

Lemma stitched_arrays_are_concatenation_witness :
  (2 ≤ length [identity4; translation (ipoint 1 0 0)])%nat
  ∧ MultiCam.img_test sample_directory !! 1%nat = Some (sample_frame [ipoint 1 2 3; nan3])
  ∧ (1 ≤ 2)%nat
  ∧ MultiCam.stitch_loop sample_directory [identity4; translation (ipoint 1 0 0)]
    = Ok (MultiCam.StitchState 3
            (Some (concat (loaded_arrays sample_directory
                             [identity4; translation (ipoint 1 0 0)] 2).*1,
                   concat (loaded_arrays sample_directory
                             [identity4; translation (ipoint 1 0 0)] 2).*2))).
Proof.
  assert (MultiCam.img_test sample_directory !! 1%nat
          = Some (sample_frame [ipoint 1 2 3; nan3])) as Hf1.
  { unfold sample_directory. cbn [MultiCam.img_test].
    rewrite lookup_insert_ne by discriminate. apply lookup_singleton_eq. }
  assert (1 ≤ 2)%nat as H1 by lia.
  assert (2 ≤ length [identity4; translation (ipoint 1 0 0)])%nat as H2 by (simpl; lia).
  destruct (stitched_arrays_are_concatenation sample_directory
              [identity4; translation (ipoint 1 0 0)] 2%nat H2)
    as (_ & Hbound & _ & Hloop).
  exact (conj H2 (conj Hf1 (conj H1 (eq_trans (Hloop eq_refl) (Hbound _ Hf1 H1))))).
Defined.

(** On the sample directory: the NaN point of the first frame is stitched
    as the origin, and the second frame follows, moved by its transform. *)
Example stitch_loop_sample :
  concat (loaded_arrays sample_directory [identity4; translation (ipoint 1 0 0)] 2).*1
  = [ipoint 1 2 3; zero3; ipoint 8 8 9].
Proof. compute_eq. Qed.

(** * Further properties of the scripts *)

(** ** The coordinate frame *)

Ltac finite_scalar x := destruct x; try discriminate.

Ltac frame_entries :=
  cbv [dot3 transformation_matrix_value mat4_set_col3 identity4 vec4_set mat4_col vec4_get
       top3 cross vec3_neg vec3_map mat3_col2 of_int zero3 sadd smul ssub sneg
       v0 v1 v2 a0 a1 a2 b0 b1 b2 b3 w0 w1 w2 w3] in *;
  change (Qz 1) with (Q2Qc 1) in *; change (Qz 0) with (Q2Qc 0) in *.

(** X1. When the third column [z] of [u_matrix] is finite, the y axis of
    the frame [_get_transformation_matrix] builds is [(0, z[2], -z[1])] and
    its x axis is [(z[2]*z[2] + z[1]*z[1], -(z[1]*z[0]), -(z[2]*z[0]))], with
    the products and the sum as the code computes them: of the two cross
    products only these terms are left, all others being a product with 0. *)
Theorem frame_axes_closed_form (u_matrix : mat3) (point : vec3) :
  vec3_finite (mat3_col2 u_matrix) = true →
  let z := mat3_col2 u_matrix in
  ∃ t, value_at (call2 _get_transformation_matrix (AMat3 u_matrix) (AVec3 point)) = Ok (AMat4 t)
       ∧ top3 (mat4_col t J1) = V3 (Fin 0) (v2 z) (sneg (v1 z))
       ∧ top3 (mat4_col t J0)
         = V3 (sadd (smul (v2 z) (v2 z)) (smul (v1 z) (v1 z)))
              (sneg (smul (v1 z) (v0 z))) (sneg (smul (v2 z) (v0 z))).
Proof.
  intros Hz z. subst z. exists (transformation_matrix_value u_matrix point).
  split; [apply transformation_matrix_call|].
  destruct u_matrix as [[x0 y0 z0] [x1 y1 z1] [x2 y2 z2]].
  apply vec3_finite_spec in Hz as (Hz0 & Hz1 & Hz2). simpl in Hz0, Hz1, Hz2.
  finite_scalar z0. finite_scalar z1. finite_scalar z2.
  frame_entries. split; f_equal; f_equal; ring.
Qed.

Lemma frame_axes_closed_form_witness :
  let u := M3 (ipoint 1 0 3) (ipoint 0 1 4) (ipoint 0 0 12) in
  vec3_finite (mat3_col2 u) = true
  ∧ ∃ t, value_at (call2 _get_transformation_matrix (AMat3 u) (AVec3 (ipoint 1 2 3)))
         = Ok (AMat4 t)
         ∧ top3 (mat4_col t J1) = ipoint 0 12 (-4)
         ∧ top3 (mat4_col t J0) = ipoint 160 (-12) (-36).
Proof.
  intros u.
  destruct (frame_axes_closed_form u (ipoint 1 2 3) eq_refl) as (t & Hrun & Hy & Hx).
  assert (V3 (Fin 0) (v2 (mat3_col2 u)) (sneg (v1 (mat3_col2 u))) = ipoint 0 12 (-4)) as Hy'
    by compute_eq.
  assert (V3 (sadd (smul (v2 (mat3_col2 u)) (v2 (mat3_col2 u)))
                (smul (v1 (mat3_col2 u)) (v1 (mat3_col2 u))))
             (sneg (smul (v1 (mat3_col2 u)) (v0 (mat3_col2 u))))
             (sneg (smul (v2 (mat3_col2 u)) (v0 (mat3_col2 u))))
          = ipoint 160 (-12) (-36)) as Hx' by compute_eq.
  exact (conj eq_refl
           (ex_intro _ t (conj Hrun (conj (eq_trans Hy Hy') (eq_trans Hx Hx'))))).
Defined.

(** X3. When the third column of [u_matrix] is finite and its second and
    third entries are zero (the normal lies along the first axis of the
    camera), the first two columns of the frame are zero: the frame is
    degenerate. *)
Theorem frame_degenerate_along_x (u_matrix : mat3) (point : vec3) :
  isfinite (v0 (mat3_col2 u_matrix)) = true →
  v1 (mat3_col2 u_matrix) = Fin 0 → v2 (mat3_col2 u_matrix) = Fin 0 →
  ∃ t, value_at (call2 _get_transformation_matrix (AMat3 u_matrix) (AVec3 point)) = Ok (AMat4 t)
       ∧ top3 (mat4_col t J0) = zero3 ∧ top3 (mat4_col t J1) = zero3.
Proof.
  intros Hz0 Hz1 Hz2. exists (transformation_matrix_value u_matrix point).
  split; [apply transformation_matrix_call|].
  destruct u_matrix as [[x0 y0 z0] [x1 y1 z1] [x2 y2 z2]].
  simpl in Hz0, Hz1, Hz2. subst z1 z2. finite_scalar z0.
  frame_entries. split; f_equal; f_equal; ring.
Qed.

Lemma frame_degenerate_along_x_witness :
  let u := M3 (ipoint 0 0 1) (ipoint 0 1 0) (ipoint 1 0 0) in
  isfinite (v0 (mat3_col2 u)) = true ∧ v1 (mat3_col2 u) = Fin 0 ∧ v2 (mat3_col2 u) = Fin 0
  ∧ ∃ t, value_at (call2 _get_transformation_matrix (AMat3 u) (AVec3 (ipoint 1 2 3)))
         = Ok (AMat4 t)
         ∧ top3 (mat4_col t J0) = zero3 ∧ top3 (mat4_col t J1) = zero3.
Proof.
  intros u.
  exact (conj eq_refl (conj eq_refl (conj eq_refl
           (frame_degenerate_along_x u (ipoint 1 2 3) eq_refl eq_refl eq_refl)))).
Defined.

(** ** The pose *)

Lemma matmul4_identity_finite (x y z p : vec3) :
  vec3_finite x = true → vec3_finite y = true → vec3_finite z = true →
  vec3_finite p = true →
  let t := mat4_set_col3 (mat4_set_col3 (mat4_set_col3 (mat4_set_col3 identity4 J0 x) J1 y)
                            J2 z) J3 p in
  matmul4 t identity4 = t.
Proof.
  intros Hx Hy Hz Hp.
  destruct x as [x0 x1 x2], y as [y0 y1 y2], z as [z0 z1 z2], p as [p0 p1 p2].
  apply vec3_finite_spec in Hx as (? & ? & ?), Hy as (? & ? & ?),
      Hz as (? & ? & ?), Hp as (? & ? & ?).
  cbn [v0 v1 v2] in *.
  finite_scalar x0. finite_scalar x1. finite_scalar x2.
  finite_scalar y0. finite_scalar y1. finite_scalar y2.
  finite_scalar z0. finite_scalar z1. finite_scalar z2.
  finite_scalar p0. finite_scalar p1. finite_scalar p2.
  cbv [matmul4 vec4_mat4 vec4_dot mat4_set_col3 identity4 vec4_set mat4_col vec4_get
       sadd smul v0 v1 v2 b0 b1 b2 b3 w0 w1 w2 w3].
  repeat f_equal; ring.
Qed.

(** X4. With a rotation angle of 0, as [main] passes it, and the cosine and
    sine of 0 equal to 1 and 0,
    [_display_point_cloud_with_coordinate_frame_on_a_point] returns the very
    matrix [_get_transformation_matrix] builds, provided that matrix, as the
    code computes it, holds no NaN and no infinity. *)
Theorem pose_without_rotation_is_transform `{NumPy}
    (cloud : o3d_cloud) (u_matrix : mat3) (point : vec3) (transform : mat4) :
  cos_fin 0 = 1 → sin_fin 0 = 0 →
  value_at (call2 _get_transformation_matrix (AMat3 u_matrix) (AVec3 point))
  = Ok (AMat4 transform) →
  vec3_finite (top3 (mat4_col transform J0)) = true →
  vec3_finite (top3 (mat4_col transform J1)) = true →
  vec3_finite (top3 (mat4_col transform J2)) = true →
  vec3_finite (top3 (mat4_col transform J3)) = true →
  pose_of cloud u_matrix point (of_int 0) = Ok (AMat4 transform).
Proof.
  intros Hcos Hsin. rewrite transformation_matrix_call. intros [= <-] Hx Hy Hz Hp.
  unfold pose_of, call2.
  rewrite (display_pose_run _ cloud 0%nat 1%nat u_matrix point (of_int 0)
             (call2_lookup_0 _ _) (call2_lookup_1 _ _)).
  unfold pose_result. do 2 f_equal.
  assert (z_rotation_value (of_int 0) = identity4) as ->.
  { unfold z_rotation_value, scos, ssin, of_int.
    change (Qz 0) with (Q2Qc 0). rewrite Hcos, Hsin.
    unfold identity4. cbn [sneg].
    replace (- 0)%Qc with (Q2Qc 0) by ring. reflexivity. }
  exact (matmul4_identity_finite _ _ _ _ Hx Hy Hz Hp).
Qed.

Lemma pose_without_rotation_is_transform_witness :
  let u_matrix := M3 (ipoint 1 0 3) (ipoint 0 1 4) (ipoint 0 0 12) in
  let transform := M4 (V4 (of_int 160) (of_int 0) (of_int 3) (of_int 1))
                      (V4 (of_int (-12)) (of_int 12) (of_int 4) (of_int 2))
                      (V4 (of_int (-36)) (of_int (-4)) (of_int 12) (of_int 3))
                      (V4 (Fin 0) (Fin 0) (Fin 0) (Fin 1)) in
  cos_fin (NumPy := sample_numpy) 0 = 1
  ∧ sin_fin (NumPy := sample_numpy) 0 = 0
  ∧ value_at (call2 _get_transformation_matrix (AMat3 u_matrix) (AVec3 (ipoint 1 2 3)))
    = Ok (AMat4 transform)
  ∧ pose_of (H := sample_numpy) (O3D [] []) u_matrix (ipoint 1 2 3) (of_int 0)
    = Ok (AMat4 transform).
Proof.
  intros u_matrix transform.
  assert (cos_fin (NumPy := sample_numpy) 0 = 1) as Hcos by compute_eq.
  assert (sin_fin (NumPy := sample_numpy) 0 = 0) as Hsin by compute_eq.
  assert (value_at (call2 _get_transformation_matrix (AMat3 u_matrix) (AVec3 (ipoint 1 2 3)))
          = Ok (AMat4 transform)) as Hrun by compute_eq.
  exact (conj Hcos (conj Hsin (conj Hrun
           (pose_without_rotation_is_transform (H := sample_numpy) (O3D [] []) u_matrix
              (ipoint 1 2 3) transform Hcos Hsin Hrun eq_refl eq_refl eq_refl eq_refl)))).
Defined.

(** The third column of the product with a rotation about z: only products
    of a finite entry with 0, of an entry with 1, and sums with 0 enter. *)
Lemma vec4_dot_third (x y z p : scalar) :
  isfinite x = true → isfinite y = true → isfinite p = true →
  vec4_dot (V4 x y z p) (V4 (Fin 0) (Fin 0) (Fin 1) (Fin 0)) = z.
Proof.
  intros Hx Hy Hp. unfold vec4_dot; cbn [w0 w1 w2 w3].
  rewrite (smul_finite_0 x Hx), (smul_finite_0 y Hy), (smul_finite_0 p Hp).
  rewrite smul_1_r, !sadd_0_l. apply sadd_0_r.
Qed.

(** X5. Whatever the rotation angle, the third axis of the pose is the third
    column of [u_matrix], when the matrix [_get_transformation_matrix]
    builds, as the code computes it, holds no NaN and no infinity: the
    rotation turns the frame about its own third axis. *)
Theorem pose_keeps_third_axis `{NumPy}
    (cloud : o3d_cloud) (u_matrix : mat3) (point : vec3) (theta : scalar) (transform : mat4) :
  value_at (call2 _get_transformation_matrix (AMat3 u_matrix) (AVec3 point))
  = Ok (AMat4 transform) →
  vec3_finite (top3 (mat4_col transform J0)) = true →
  vec3_finite (top3 (mat4_col transform J1)) = true →
  vec3_finite (top3 (mat4_col transform J2)) = true →
  vec3_finite (top3 (mat4_col transform J3)) = true →
  ∃ pose, pose_of cloud u_matrix point theta = Ok (AMat4 pose)
          ∧ top3 (mat4_col pose J2) = mat3_col2 u_matrix.
Proof.
  rewrite transformation_matrix_call. intros [= <-] Hx Hy Hz Hp.
  set (t := transformation_matrix_value u_matrix point) in *.
  exists (matmul4 t (z_rotation_value theta)).
  split.
  { unfold pose_of, call2.
    apply (display_pose_run _ cloud 0%nat 1%nat u_matrix point theta);
      [apply call2_lookup_0 | apply call2_lookup_1]. }
  destruct (axes_finite_spec t Hx Hy Hz) as ((H00 & H01 & H02) & (H10 & H11 & H12)
                                             & (H20 & H21 & H22)).
  apply vec3_finite_spec in Hp as (Hp0 & Hp1 & Hp2).
  change (top3 (mat4_col (matmul4 t (z_rotation_value theta)) J2))
    with (V3 (vec4_dot (V4 (w0 (b0 t)) (w1 (b0 t)) (w2 (b0 t)) (w3 (b0 t)))
                (V4 (Fin 0) (Fin 0) (Fin 1) (Fin 0)))
             (vec4_dot (V4 (w0 (b1 t)) (w1 (b1 t)) (w2 (b1 t)) (w3 (b1 t)))
                (V4 (Fin 0) (Fin 0) (Fin 1) (Fin 0)))
             (vec4_dot (V4 (w0 (b2 t)) (w1 (b2 t)) (w2 (b2 t)) (w3 (b2 t)))
                (V4 (Fin 0) (Fin 0) (Fin 1) (Fin 0)))).
  rewrite !vec4_dot_third by assumption.
  subst t. now destruct u_matrix as [[] [] []].
Qed.

Lemma pose_keeps_third_axis_witness :
  let u_matrix := M3 (ipoint 1 0 3) (ipoint 0 1 4) (ipoint 0 0 12) in
  let transform := M4 (V4 (of_int 160) (of_int 0) (of_int 3) (of_int 1))
                      (V4 (of_int (-12)) (of_int 12) (of_int 4) (of_int 2))
                      (V4 (of_int (-36)) (of_int (-4)) (of_int 12) (of_int 3))
                      (V4 (Fin 0) (Fin 0) (Fin 0) (Fin 1)) in
  value_at (call2 _get_transformation_matrix (AMat3 u_matrix) (AVec3 (ipoint 1 2 3)))
  = Ok (AMat4 transform)
  ∧ ∃ pose, pose_of (H := sample_numpy) (O3D [] []) u_matrix (ipoint 1 2 3) (Fin 1)
            = Ok (AMat4 pose)
            ∧ top3 (mat4_col pose J2) = mat3_col2 u_matrix.
Proof.
  intros u_matrix transform.
  assert (value_at (call2 _get_transformation_matrix (AMat3 u_matrix) (AVec3 (ipoint 1 2 3)))
          = Ok (AMat4 transform)) as Hrun by compute_eq.
  exact (conj Hrun
           (pose_keeps_third_axis (H := sample_numpy) (O3D [] []) u_matrix (ipoint 1 2 3)
              (Fin 1) transform Hrun eq_refl eq_refl eq_refl eq_refl)).
Defined.

Lemma lookup_after_alloc (σ : store) (l : loc) (v w : ndarray) :
  σ !! l = Some v → <[fresh (dom σ) := w]> σ !! l = Some v.
Proof.
  intros Hl. rewrite lookup_insert_ne; [exact Hl | eapply fresh_ne; exact Hl].
Qed.

Lemma display_two_points_run `{NumPy} (σ : store) (cloud : o3d_cloud) (u m p : loc)
    (um mm : mat3) (pv : vec3) (theta : scalar) :
  σ !! u = Some (AMat3 um) → σ !! m = Some (AMat3 mm) → σ !! p = Some (AVec3 pv) →
  value_at (_display_point_cloud_with_coordinate_frame_on_two_points cloud u m p theta σ)
  = pose_result (AMat3 um) (AVec3 pv) theta.
Proof.
  intros Hu Hm Hp.
  unfold _display_point_cloud_with_coordinate_frame_on_two_points, pose_result.
  unfold bind at 1. rewrite (get_transformation_matrix_ok σ u p um pv Hu Hp).
  set (t := AMat4 (transformation_matrix_value um pv)).
  set (σ1 := <[fresh (dom σ) := t]> σ).
  assert (σ1 !! fresh (dom σ) = Some t) as H1 by apply lookup_insert_eq.
  assert (σ1 !! m = Some (AMat3 mm)) as Hm1 by now apply lookup_after_alloc.
  assert (σ1 !! p = Some (AVec3 pv)) as Hp1 by now apply lookup_after_alloc.
  unfold bind at 1. rewrite get_z_rotation_matrix_run.
  set (r := AMat4 (z_rotation_value theta)).
  set (σ2 := <[fresh (dom σ1) := r]> σ1).
  assert (σ2 !! fresh (dom σ) = Some t) as H21 by now apply lookup_after_alloc.
  assert (σ2 !! fresh (dom σ1) = Some r) as H22 by apply lookup_insert_eq.
  assert (σ2 !! m = Some (AMat3 mm)) as Hm2 by now apply lookup_after_alloc.
  assert (σ2 !! p = Some (AVec3 pv)) as Hp2 by now apply lookup_after_alloc.
  unfold bind at 1.
  destruct (load_mat4 (fresh (dom σ)) σ2) as [[ta|e] σa] eqn:Hla.
  2:{ unfold load_mat4, bind, load in Hla. rewrite H21 in Hla. discriminate Hla. }
  assert (ta = transformation_matrix_value um pv ∧ σa = σ2) as [-> ->].
  { unfold load_mat4, bind, load, ret in Hla. rewrite H21 in Hla. now inversion Hla. }
  unfold bind at 1.
  destruct (load_mat4 (fresh (dom σ1)) σ2) as [[ra|e] σb] eqn:Hlb.
  2:{ unfold load_mat4, bind, load in Hlb. rewrite H22 in Hlb. discriminate Hlb. }
  assert (ra = z_rotation_value theta ∧ σb = σ2) as [-> ->].
  { unfold load_mat4, bind, load, ret in Hlb. rewrite H22 in Hlb. now inversion Hlb. }
  unfold bind at 1. unfold alloc at 1.
  set (pose := AMat4 (matmul4 (transformation_matrix_value um pv) (z_rotation_value theta))).
  set (σ3 := <[fresh (dom σ2) := pose]> σ2).
  assert (σ3 !! fresh (dom σ2) = Some pose) as H33 by apply lookup_insert_eq.
  assert (σ3 !! m = Some (AMat3 mm)) as Hm3 by now apply lookup_after_alloc.
  assert (σ3 !! p = Some (AVec3 pv)) as Hp3 by now apply lookup_after_alloc.
  unfold bind at 1. rewrite (get_transformation_matrix_ok σ3 m p mm pv Hm3 Hp3).
  set (t' := AMat4 (transformation_matrix_value mm pv)).
  set (σ4 := <[fresh (dom σ3) := t']> σ3).
  assert (σ4 !! fresh (dom σ2) = Some pose) as H43 by now apply lookup_after_alloc.
  assert (σ4 !! fresh (dom σ3) = Some t') as H44 by apply lookup_insert_eq.
  unfold bind at 1. rewrite get_z_rotation_matrix_run. fold r.
  set (σ5 := <[fresh (dom σ4) := r]> σ4).
  assert (σ5 !! fresh (dom σ2) = Some pose) as H53 by now apply lookup_after_alloc.
  assert (σ5 !! fresh (dom σ3) = Some t') as H54 by now apply lookup_after_alloc.
  assert (σ5 !! fresh (dom σ4) = Some r) as H55 by apply lookup_insert_eq.
  unfold_monad. rewrite H54. unfold t'. cbv beta iota zeta.
  rewrite H55. unfold r. cbv beta iota zeta.
  unfold value_at. now rewrite (lookup_after_alloc σ5 _ pose).
Qed.

(** X6. [_display_point_cloud_with_coordinate_frame_on_two_points] returns
    the pose built from [u_matrix], the one
    [_display_point_cloud_with_coordinate_frame_on_a_point] returns for the
    same [u_matrix], point and angle: the contents of [u_matrix_modified]
    have no part in the result. *)
Theorem two_points_returns_pose_of_u_matrix `{NumPy} (σ : store) (cloud : o3d_cloud)
    (u_matrix u_matrix_modified point : loc) (um mm : mat3) (pv : vec3) (z_rotation : scalar) :
  σ !! u_matrix = Some (AMat3 um) → σ !! u_matrix_modified = Some (AMat3 mm) →
  σ !! point = Some (AVec3 pv) →
  value_at (_display_point_cloud_with_coordinate_frame_on_two_points
              cloud u_matrix u_matrix_modified point z_rotation σ)
  = value_at (_display_point_cloud_with_coordinate_frame_on_a_point
                cloud u_matrix point z_rotation σ).
Proof.
  intros Hu Hm Hp.
  rewrite (display_two_points_run σ cloud _ _ _ um mm pv z_rotation Hu Hm Hp).
  symmetry. now apply display_pose_run.
Qed.

Lemma two_points_returns_pose_of_u_matrix_witness :
  let σ : store := <[2%nat := AVec3 (ipoint 1 2 3)]>
                     (<[1%nat := AMat3 (diagonal3 (Qz 3) (Qz 2) (Qz 1))]>
                        {[0%nat := AMat3 identity3]}) in
  value_at (_display_point_cloud_with_coordinate_frame_on_two_points (H := sample_numpy)
              (O3D [] []) 0%nat 1%nat 2%nat (Fin 1) σ)
  = value_at (_display_point_cloud_with_coordinate_frame_on_a_point (H := sample_numpy)
                (O3D [] []) 0%nat 2%nat (Fin 1) σ).
Proof.
  intros σ.
  exact (two_points_returns_pose_of_u_matrix (H := sample_numpy) σ (O3D [] []) 0%nat 1%nat 2%nat
           identity3 (diagonal3 (Qz 3) (Qz 2) (Qz 1)) (ipoint 1 2 3) (Fin 1)
           eq_refl eq_refl eq_refl).
Defined.

(** ** The region of interest *)

Section RoiMore.
Context `{NumPy}.

Lemma roi_of_pixels (img : image) (c : vec3) (inner outer : Z) :
  roi_of img c inner outer = Ok (AImage (map (map (roi_pixel c inner outer)) img)).
Proof.
  unfold roi_of, call2.
  rewrite (roi_between_two_spheres_ok _ 0%nat 1%nat img c inner outer
             (call2_lookup_0 _ _) (call2_lookup_1 _ _)).
  unfold value_at. rewrite lookup_insert_eq, roi_value_pixels. reflexivity.
Qed.

Lemma pixel_at_roi (img : image) (c : vec3) (inner outer : Z) (i j : nat) :
  pixel_at (roi_of img c inner outer) i j
  = roi_pixel c inner outer <$> pixel_at (Ok (AImage img)) i j.
Proof.
  rewrite roi_of_pixels. unfold pixel_at. to_fmap.
  rewrite list_lookup_fmap. destruct (img !! i) as [row|]; [|reflexivity].
  cbn. apply list_lookup_fmap.
Qed.

Lemma distance_nan_centroid (c p : vec3) : vec3_any_nan c = true → distance c p = NaN.
Proof.
  destruct c as [c0 c1 c2], p as [p0 p1 p2].
  unfold vec3_any_nan, vec3_to_list, distance, norm3, vec3_sub, vec3_zip.
  cbn [existsb v0 v1 v2]. rewrite !orb_true_iff.
  intros [Hc | [Hc | [Hc | Hc]]]; try discriminate Hc.
  - destruct c0; try discriminate Hc. reflexivity.
  - destruct c1; try discriminate Hc.
    cbn [ssub sadd smul]. now destruct (smul (ssub c0 p0) (ssub c0 p0)).
  - destruct c2; try discriminate Hc.
    cbn [ssub sadd smul].
    now destruct (sadd (smul (ssub c0 p0) (ssub c0 p0)) (smul (ssub c1 p1) (ssub c1 p1))).
Qed.

Lemma distance_nan_point (c p : vec3) : vec3_any_nan p = true → distance c p = NaN.
Proof.
  destruct c as [c0 c1 c2], p as [p0 p1 p2].
  unfold vec3_any_nan, vec3_to_list, distance, norm3, vec3_sub, vec3_zip.
  cbn [existsb v0 v1 v2]. rewrite !orb_true_iff.
  intros [Hp | [Hp | [Hp | Hp]]]; try discriminate Hp.
  - destruct p0; try discriminate Hp. now destruct c0.
  - destruct p1; try discriminate Hp.
    replace (ssub c1 NaN) with NaN by now destruct c1.
    cbn [sadd smul]. now destruct (smul (ssub c0 p0) (ssub c0 p0)).
  - destruct p2; try discriminate Hp.
    replace (ssub c2 NaN) with NaN by now destruct c2.
    cbn [sadd smul].
    now destruct (sadd (smul (ssub c0 p0) (ssub c0 p0)) (smul (ssub c1 p1) (ssub c1 p1))).
Qed.

Lemma roi_pixel_nan_distance (c p : vec3) (inner outer : Z) :
  distance c p = NaN → roi_pixel c inner outer p = p.
Proof. intros Hd. unfold roi_pixel. rewrite Hd. reflexivity. Qed.

Lemma roi_pixel_idempotent (c p : vec3) (inner outer : Z) :
  roi_pixel c inner outer (roi_pixel c inner outer p) = roi_pixel c inner outer p.
Proof.
  assert (roi_pixel c inner outer nan3 = nan3) as Hnan
    by now apply roi_pixel_nan_distance, distance_nan_point.
  unfold roi_pixel at 2 3.
  destruct (sgt (distance c p) (of_int outer)) eqn:Hout; [exact Hnan|].
  destruct (slt (distance c p) (of_int inner)) eqn:Hin; [exact Hnan|].
  unfold roi_pixel. now rewrite Hout, Hin.
Qed.

Lemma isnan_ssub_finite_l (x y : scalar) :
  isfinite x = true → isnan y = false → isnan (ssub x y) = false.
Proof. destruct x, y; simpl; try discriminate; reflexivity. Qed.

(** The distance of a point without NaN to a finite centroid is not NaN. *)
Lemma distance_not_nan_finite_centroid (c p : vec3) :
  vec3_finite c = true → vec3_any_nan p = false → isnan (distance c p) = false.
Proof.
  rewrite vec3_any_nan_spec, vec3_finite_spec.
  intros (Hc0 & Hc1 & Hc2) (Hp0 & Hp1 & Hp2).
  unfold distance, norm3. apply sge0_sqrt.
  unfold vec3_sub, vec3_zip; simpl.
  repeat apply sge0_add; apply sge0_square; now apply isnan_ssub_finite_l.
Qed.

Lemma roi_pixel_within_shell (c p : vec3) (inner outer : Z) :
  isnan (distance c p) = false →
  roi_pixel c inner outer p = if within_shell c inner outer p then p else nan3.
Proof.
  intros Hd. unfold roi_pixel, within_shell.
  rewrite <- (slt_sge (distance c p) (of_int inner) Hd eq_refl).
  rewrite <- (sgt_sle (distance c p) (of_int outer) Hd eq_refl).
  destruct (sgt (distance c p) (of_int outer)), (slt (distance c p) (of_int inner)); reflexivity.
Qed.

Lemma distance_infinite_point (c p : vec3) :
  vec3_finite c = true → vec3_any_nan p = false → vec3_finite p = false →
  distance c p = PInf.
Proof.
  destruct c as [c0 c1 c2], p as [p0 p1 p2].
  rewrite vec3_finite_spec, vec3_any_nan_spec. cbn [v0 v1 v2].
  intros (Hc0 & Hc1 & Hc2) (Hp0 & Hp1 & Hp2) Hinf.
  finite_scalar c0. finite_scalar c1. finite_scalar c2.
  destruct p0, p1, p2; try discriminate; reflexivity.
Qed.

End RoiMore.

(** X7. When the centroid has a NaN coordinate, [_roi_between_two_spheres]
    returns a copy of [xyz] with no point removed, whatever the radii: every
    distance is NaN and both comparisons are false. *)
Theorem roi_nan_centroid_keeps_every_point `{NumPy}
    (xyz : image) (centroid : vec3) (inner outer : Z) :
  vec3_any_nan centroid = true →
  roi_of xyz centroid inner outer = Ok (AImage xyz).
Proof.
  intros Hc. rewrite roi_of_pixels. do 2 f_equal.
  to_fmap. rewrite <- (list_fmap_id xyz) at 2.
  apply list_fmap_ext. intros _ row _.
  rewrite <- (list_fmap_id row) at 2.
  apply list_fmap_ext. intros _ p _.
  now apply roi_pixel_nan_distance, distance_nan_centroid.
Qed.

Lemma roi_nan_centroid_keeps_every_point_witness :
  vec3_any_nan (V3 (Fin 0) NaN (Fin 0)) = true
  ∧ roi_of (H := sample_numpy) [[ipoint 100 0 0; ipoint 1 2 3]] (V3 (Fin 0) NaN (Fin 0)) 0 10
    = Ok (AImage [[ipoint 100 0 0; ipoint 1 2 3]]).
Proof.
  exact (conj eq_refl
           (roi_nan_centroid_keeps_every_point (H := sample_numpy)
              [[ipoint 100 0 0; ipoint 1 2 3]] (V3 (Fin 0) NaN (Fin 0)) 0 10 eq_refl)).
Defined.

(** X8. Filtering twice with the same centroid and radii gives what filtering
    once gives: [_roi_between_two_spheres] applied to its own result returns
    an equal array. *)
Theorem roi_twice_is_roi_once `{NumPy} (xyz : image) (centroid : vec3) (inner outer : Z) :
  ∃ filtered, roi_of xyz centroid inner outer = Ok (AImage filtered)
              ∧ roi_of filtered centroid inner outer = Ok (AImage filtered).
Proof.
  exists (map (map (roi_pixel centroid inner outer)) xyz).
  split; [apply roi_of_pixels|].
  rewrite roi_of_pixels, map_map_nested. do 2 f_equal.
  to_fmap. apply list_fmap_ext. intros _ row _.
  apply list_fmap_ext. intros _ p _. apply roi_pixel_idempotent.
Qed.

(** X9. In the array [_roi_between_two_spheres] returns, a pixel of [xyz]
    that has a NaN coordinate is left as it is (its other coordinates are
    kept), and, when the centroid is finite, a pixel with an infinite and no
    NaN coordinate is replaced by NaN. *)
Theorem roi_non_finite_pixels `{NumPy}
    (xyz : image) (centroid : vec3) (inner outer : Z) (i j : nat) (p : vec3) :
  pixel_at (Ok (AImage xyz)) i j = Some p →
  (vec3_any_nan p = true → pixel_at (roi_of xyz centroid inner outer) i j = Some p)
  ∧ (vec3_finite centroid = true → vec3_any_nan p = false → vec3_finite p = false →
     pixel_at (roi_of xyz centroid inner outer) i j = Some nan3).
Proof.
  intros Hp. rewrite pixel_at_roi, Hp. cbn [fmap option_fmap option_map]. split.
  - intros Hnan. f_equal. now apply roi_pixel_nan_distance, distance_nan_point.
  - intros Hc Hnan Hinf. f_equal.
    unfold roi_pixel. now rewrite (distance_infinite_point centroid p Hc Hnan Hinf).
Qed.

Lemma roi_non_finite_pixels_witness :
  let xyz := [[V3 NaN (of_int 1) (of_int 2); V3 (of_int 1) PInf (of_int 2)]] in
  pixel_at (roi_of (H := sample_numpy) xyz (ipoint 0 0 0) 0 10) 0 0
  = Some (V3 NaN (of_int 1) (of_int 2))
  ∧ pixel_at (roi_of (H := sample_numpy) xyz (ipoint 0 0 0) 0 10) 0 1 = Some nan3.
Proof.
  intros xyz.
  exact (conj
           (proj1 (roi_non_finite_pixels (H := sample_numpy) xyz (ipoint 0 0 0) 0 10 0 0
                     (V3 NaN (of_int 1) (of_int 2)) eq_refl) eq_refl)
           (proj2 (roi_non_finite_pixels (H := sample_numpy) xyz (ipoint 0 0 0) 0 10 0 1
                     (V3 (of_int 1) PInf (of_int 2)) eq_refl) eq_refl eq_refl eq_refl)).
Defined.

(** ** The plane fit of [main] *)

Lemma smul_comm (x y : scalar) : smul x y = smul y x.
Proof.
  destruct x as [| | |a], y as [| | |b]; try reflexivity;
    try (cbn [smul]; f_equal; ring);
    unfold smul, sign, sign_mul;
    match goal with |- context [?q ?= 0] => destruct (q ?= 0) end; reflexivity.
Qed.

Lemma dot_list_comm (a b : list scalar) : dot_list a b = dot_list b a.
Proof.
  unfold dot_list. f_equal.
  revert b. induction a as [|x a IH]; intros [|y b]; try reflexivity.
  cbn [zip_with]. now rewrite smul_comm, IH.
Qed.

Section PlaneFitMore.
Context `{NumPy}.

Lemma plane_fit_of_result (img : image) : plane_fit_of img = plane_fit_result (AImage img).
Proof.
  unfold plane_fit_of, call1.
  exact (proj1 (plane_fit_run _ 0%nat (AImage img) (call1_lookup _))).
Qed.

Lemma main_plane_fit_run (img : image) (h w : nat) (t : vec3) :
  pixel_at (Ok (AImage img)) h w = Some t →
  main_plane_fit_of img h w = plane_fit_result (AImage (roi_value img t 0 10)).
Proof.
  intros Ht. unfold pixel_at in Ht.
  unfold main_plane_fit_of, call1, main_plane_fit.
  unfold bind at 1. unfold load_image, bind, load, ret.
  rewrite call1_lookup. cbv beta iota. rewrite Ht.
  set (σ := ({[0%nat := AImage img]} : store)).
  unfold alloc at 1.
  set (σ1 := <[fresh (dom σ) := AVec3 t]> σ).
  assert (σ1 !! 0%nat = Some (AImage img)) as H0
    by (apply lookup_after_alloc, call1_lookup).
  assert (σ1 !! fresh (dom σ) = Some (AVec3 t)) as H1 by apply lookup_insert_eq.
  rewrite (roi_between_two_spheres_ok σ1 0%nat _ img t 0 10 H0 H1).
  cbv beta iota.
  apply (plane_fit_run _ _ (AImage (roi_value img t 0 10))), lookup_insert_eq.
Qed.

Lemma plane_fit_points_filter (img : image) :
  plane_fit_points img = filter (λ p, vec3_any_nan p = false) (concat img).
Proof.
  unfold plane_fit_points. rewrite boolean_index_filter.
  apply list_filter_iff. intros p. now destruct (vec3_any_nan p).
Qed.

Lemma concat_map_map {A B} (f : A → B) (x : list (list A)) :
  concat (map (map f) x) = f <$> concat x.
Proof. symmetry. apply (concat_map f x). Qed.

Lemma filter_roi_pixels (t : vec3) (inner outer : Z) (l : list vec3) :
  vec3_finite t = true →
  filter (λ p, vec3_any_nan p = false) (roi_pixel t inner outer <$> l)
  = filter (λ p, within_shell t inner outer p = true) (filter (λ p, vec3_any_nan p = false) l).
Proof.
  intros Ht. induction l as [|p l IH]; [reflexivity|].
  rewrite fmap_cons. destruct (vec3_any_nan p) eqn:Hnan.
  - rewrite (roi_pixel_nan_distance t p inner outer (distance_nan_point t p Hnan)).
    rewrite !(filter_cons_False _ p) by (rewrite Hnan; discriminate).
    exact IH.
  - rewrite (roi_pixel_within_shell t p inner outer
               (distance_not_nan_finite_centroid t p Ht Hnan)).
    rewrite (filter_cons_True (λ p, vec3_any_nan p = false) p l Hnan).
    destruct (within_shell t inner outer p) eqn:Hin.
    + rewrite (filter_cons_True _ p _ Hnan), (filter_cons_True _ p _ Hin). now f_equal.
    + rewrite (filter_cons_False _ nan3) by discriminate.
      rewrite (filter_cons_False _ p) by (rewrite Hin; discriminate).
      exact IH.
Qed.

Lemma within_shell_self (t : vec3) :
  sqrt_fin 0 = 0 → vec3_finite t = true → within_shell t 0 10 t = true.
Proof.
  intros Hsqrt Ht. destruct t as [t0 t1 t2].
  apply vec3_finite_spec in Ht as (? & ? & ?). cbn [v0 v1 v2] in *.
  finite_scalar t0. finite_scalar t1. finite_scalar t2.
  assert (distance (V3 (Fin q) (Fin q0) (Fin q1)) (V3 (Fin q) (Fin q0) (Fin q1)) = Fin 0) as Hd.
  { unfold distance, norm3, vec3_sub, vec3_zip. cbn [v0 v1 v2 ssub sneg sadd smul].
    replace ((q + - q) * (q + - q) + (q0 + - q0) * (q0 + - q0) + (q1 + - q1) * (q1 + - q1))
      with (Q2Qc 0) by ring.
    unfold ssqrt. change (Q2Qc 0 ?= 0) with Eq. cbv beta iota. now rewrite Hsqrt. }
  unfold within_shell. rewrite Hd. reflexivity.
Qed.

End PlaneFitMore.

(** X10. When the target pixel of [main] has a NaN coordinate (no data at
    that pixel), the region of interest removes nothing and the plane is
    fitted on the whole array [xyz]. *)
Theorem main_nan_target_fits_whole_cloud `{NumPy}
    (xyz : image) (target_height target_width : nat) (target_point : vec3) :
  pixel_at (Ok (AImage xyz)) target_height target_width = Some target_point →
  vec3_any_nan target_point = true →
  main_plane_fit_of xyz target_height target_width = plane_fit_of xyz.
Proof.
  intros Ht Hnan.
  rewrite (main_plane_fit_run xyz _ _ target_point Ht), plane_fit_of_result.
  assert (roi_value xyz target_point 0 10 = xyz) as ->; [|reflexivity].
  rewrite roi_value_pixels. to_fmap. rewrite <- (list_fmap_id xyz) at 2.
  apply list_fmap_ext. intros _ row _.
  rewrite <- (list_fmap_id row) at 2.
  apply list_fmap_ext. intros _ p _.
  now apply roi_pixel_nan_distance, distance_nan_centroid.
Qed.

Lemma main_nan_target_fits_whole_cloud_witness :
  let xyz := [[ipoint 1 0 0; nan3]; [ipoint 0 1 0; ipoint 50 50 0]] in
  main_plane_fit_of (H := sample_numpy) xyz 0 1 = plane_fit_of (H := sample_numpy) xyz.
Proof.
  intros xyz.
  exact (main_nan_target_fits_whole_cloud (H := sample_numpy) xyz 0 1 nan3 eq_refl eq_refl).
Defined.

(** X11. When the target pixel of [main] is finite, the plane is fitted on
    the array the region of interest returns for that pixel and the radii 0
    and 10; the points that enter the fit are the points of [xyz] without NaN
    coordinate whose distance to the target pixel is between 0 and 10, in
    their order, and, when the square root of 0 is 0, the target pixel is one
    of them. *)
Theorem main_fits_points_near_target `{NumPy}
    (xyz : image) (target_height target_width : nat) (target_point : vec3) :
  pixel_at (Ok (AImage xyz)) target_height target_width = Some target_point →
  vec3_finite target_point = true →
  ∃ mask_region,
    roi_of xyz target_point 0 10 = Ok (AImage mask_region)
    ∧ main_plane_fit_of xyz target_height target_width = plane_fit_of mask_region
    ∧ plane_fit_points mask_region
      = filter (λ p, within_shell target_point 0 10 p = true) (plane_fit_points xyz)
    ∧ (sqrt_fin 0 = 0 → target_point ∈ plane_fit_points mask_region).
Proof.
  intros Ht Hfin. exists (map (map (roi_pixel target_point 0 10)) xyz).
  assert (plane_fit_points (map (map (roi_pixel target_point 0 10)) xyz)
          = filter (λ p, within_shell target_point 0 10 p = true) (plane_fit_points xyz))
    as Hpts.
  { rewrite !plane_fit_points_filter, concat_map_map. now apply filter_roi_pixels. }
  split; [apply roi_of_pixels|]. split; [|split; [exact Hpts|]].
  - rewrite (main_plane_fit_run xyz _ _ target_point Ht), plane_fit_of_result.
    now rewrite roi_value_pixels.
  - intros Hsqrt. rewrite Hpts, plane_fit_points_filter.
    apply list_elem_of_filter. split; [now apply within_shell_self|].
    apply list_elem_of_filter. split.
    + apply vec3_finite_spec in Hfin as (H0 & H1 & H2). apply vec3_any_nan_spec.
      destruct target_point as [[] [] []]; try discriminate; now repeat split.
    + unfold pixel_at in Ht.
      destruct (xyz !! target_height) as [row|] eqn:Hrow; [|discriminate Ht].
      cbn in Ht. apply list_elem_of_lookup_2 in Ht, Hrow.
      apply list_elem_of_In, in_concat. exists row.
      split; now apply list_elem_of_In.
Qed.

Lemma main_fits_points_near_target_witness :
  let xyz := [[ipoint 1 0 0; nan3]; [ipoint 0 1 0; ipoint 50 50 0]] in
  sqrt_fin (NumPy := sample_numpy) 0 = 0
  ∧ ∃ mask_region,
      roi_of (H := sample_numpy) xyz (ipoint 1 0 0) 0 10 = Ok (AImage mask_region)
      ∧ main_plane_fit_of (H := sample_numpy) xyz 0 0
        = plane_fit_of (H := sample_numpy) mask_region
      ∧ plane_fit_points mask_region
        = filter (λ p, within_shell (H := sample_numpy) (ipoint 1 0 0) 0 10 p = true)
            (plane_fit_points xyz)
      ∧ ipoint 1 0 0 ∈ plane_fit_points mask_region.
Proof.
  intros xyz.
  assert (sqrt_fin (NumPy := sample_numpy) 0 = 0) as Hsqrt by compute_eq.
  destruct (main_fits_points_near_target (H := sample_numpy) xyz 0 0 (ipoint 1 0 0)
              eq_refl eq_refl) as (mask_region & Hroi & Hfit & Hpts & Hin).
  exact (conj Hsqrt
           (ex_intro _ mask_region (conj Hroi (conj Hfit (conj Hpts (Hin Hsqrt)))))).
Defined.

(** X12. When every pixel of the array has a NaN coordinate (and when the
    array is empty), [_plane_fit] raises nothing of its own: the mean of no
    point is NaN in its three coordinates, the matrix handed to the SVD is
    the 3x3 zero matrix, and the result is the U of that SVD with the NaN
    point. *)
Theorem plane_fit_without_valid_point `{NumPy} (points : image) :
  Forall (Forall (λ p, vec3_any_nan p = true)) points →
  plane_fit_of points
  = match np_linalg_svd zero_matrix3 with
    | Some usv => Ok (AMat3 usv.1.1, AVec3 nan3)
    | None => Raise LinAlgError
    end.
Proof.
  intros Hall. rewrite plane_fit_of_result. unfold plane_fit_result, plane_fit_matrix.
  assert (plane_fit_points points = []) as ->.
  { rewrite plane_fit_points_filter.
    induction Hall as [|row img Hrow _ IH]; [reflexivity|].
    cbn [concat]. rewrite filter_app, IH, app_nil_r.
    induction Hrow as [|p row Hp _ IHrow]; [reflexivity|].
    rewrite filter_cons_False by (rewrite Hp; discriminate). exact IHrow. }
  assert (mean_axis0 [] = nan3) as -> by compute_eq.
  reflexivity.
Qed.

Lemma plane_fit_without_valid_point_witness :
  plane_fit_of (H := sample_numpy) [[nan3; V3 (of_int 1) NaN (of_int 2)]]
  = match np_linalg_svd (NumPy := sample_numpy) zero_matrix3 with
    | Some usv => Ok (AMat3 usv.1.1, AVec3 nan3)
    | None => Raise LinAlgError
    end.
Proof.
  apply (plane_fit_without_valid_point (H := sample_numpy)).
  repeat constructor.
Defined.

(** X13. The matrix [_plane_fit] hands to the SVD is symmetric, for every
    input array. *)
Theorem plane_fit_matrix_is_symmetric (points : image) :
  transpose3 (plane_fit_matrix points) = plane_fit_matrix points.
Proof.
  unfold plane_fit_matrix, dot_3xn_nx3, transpose_nx3, transpose3.
  cbn [fst snd a0 a1 a2 v0 v1 v2].
  set (d := (λ p, vec3_sub p (mean_axis0 (plane_fit_points points))) <$> plane_fit_points points).
  now rewrite (dot_list_comm (v1 <$> d) (v0 <$> d)), (dot_list_comm (v2 <$> d) (v0 <$> d)),
    (dot_list_comm (v2 <$> d) (v1 <$> d)).
Qed.

(** ** The Open3D cloud, its colours and its infinite coordinates *)

Lemma open3d_cloud_of_same_size (img : image) (colours : rgba_image) :
  length (reshape_nx3 colours) = length (reshape_nx3 img) →
  remove_non_finite_points (open3d_cloud_value img colours)
  = O3D (vec3_map nan_to_num <$> reshape_nx3 img) (over_255 <$> reshape_nx3 (rgb_slice colours)).
Proof.
  intros Hlen. unfold open3d_cloud_value. rewrite reshape_nan_to_num.
  set (pts := vec3_map nan_to_num <$> reshape_nx3 img).
  set (cols := over_255 <$> reshape_nx3 (rgb_slice colours)).
  assert (length cols = length pts) as Hsame.
  { subst cols pts. rewrite !length_fmap. unfold rgb_slice, reshape_nx3 in *.
    rewrite concat_map_map, length_fmap. exact Hlen. }
  assert (Forall (λ p, vec3_finite p = true) pts) as Hfin.
  { subst pts. apply Forall_fmap, Forall_forall. intros p _. apply vec3_finite_nan_to_num. }
  unfold remove_non_finite_points. cbn [o3d_points o3d_colors].
  rewrite bool_decide_eq_true_2 by exact Hsame.
  rewrite filter_all.
  - rewrite fst_zip, snd_zip by lia. reflexivity.
  - apply Forall_forall. intros [p col] Hin. cbn [fst].
    apply elem_of_zip_l in Hin. rewrite Forall_forall in Hfin. now apply Hfin.
Qed.

(** X14. When the colour image has as many pixels as [xyz],
    [_create_open3d_point_cloud] returns a cloud in which every point is
    finite and which has one colour per point: the colour of the k-th point
    is the red, green and blue of the k-th pixel divided by 255, the alpha
    channel being dropped. *)
Theorem open3d_cloud_is_finite_and_coloured (xyz : image) (rgba : rgba_image) :
  length (reshape_nx3 rgba) = length (reshape_nx3 xyz) →
  ∃ pc, (call2 _create_open3d_point_cloud (AImage xyz) (ARgba rgba)).1 = Ok pc
    ∧ Forall (λ q, vec3_finite q = true) (o3d_points pc)
    ∧ length (o3d_colors pc) = length (o3d_points pc)
    ∧ ∀ k px, reshape_nx3 rgba !! k = Some px →
        o3d_colors pc !! k
        = Some (V3 (sdiv (of_int (red px)) (of_int 255)) (sdiv (of_int (green px)) (of_int 255))
                  (sdiv (of_int (blue px)) (of_int 255))).
Proof.
  intros Hlen. eexists. split; [apply create_open3d_point_cloud_run|].
  rewrite (open3d_cloud_of_same_size xyz rgba Hlen). cbn [o3d_points o3d_colors].
  split; [|split].
  - apply Forall_fmap, Forall_forall. intros p _. apply vec3_finite_nan_to_num.
  - rewrite !length_fmap. unfold rgb_slice, reshape_nx3 in *.
    rewrite concat_map_map, length_fmap. exact Hlen.
  - intros k px Hk. unfold rgb_slice, reshape_nx3 in *.
    rewrite concat_map_map, <- list_fmap_compose, list_lookup_fmap, Hk. reflexivity.
Qed.

Lemma open3d_cloud_is_finite_and_coloured_witness :
  let xyz := [[V3 NaN (of_int 1) PInf; ipoint 1 2 3]] in
  let rgba := [[RGBA 255 0 51 255; black]] in
  length (reshape_nx3 rgba) = length (reshape_nx3 xyz)
  ∧ ∃ pc, (call2 _create_open3d_point_cloud (AImage xyz) (ARgba rgba)).1 = Ok pc
      ∧ Forall (λ q, vec3_finite q = true) (o3d_points pc)
      ∧ length (o3d_colors pc) = length (o3d_points pc)
      ∧ ∀ k px, reshape_nx3 rgba !! k = Some px →
          o3d_colors pc !! k
          = Some (V3 (sdiv (of_int (red px)) (of_int 255))
                    (sdiv (of_int (green px)) (of_int 255))
                    (sdiv (of_int (blue px)) (of_int 255))).
Proof.
  intros xyz rgba.
  exact (conj eq_refl (open3d_cloud_is_finite_and_coloured xyz rgba eq_refl)).
Defined.

(** X15. [_create_open3d_point_cloud] does not drop a point of the
    [float32] array [xyz] that has an infinite coordinate either: the point
    stays at its place, with the largest finite [float32] value in place of
    [+inf] and its opposite in place of [-inf]. *)
Theorem open3d_cloud_clamps_infinite (xyz : image) (rgba : rgba_image) (k : nat) (p : vec3)
    (coordinate : vec3 → scalar) :
  coordinate = v0 ∨ coordinate = v1 ∨ coordinate = v2 →
  reshape_nx3 xyz !! k = Some p →
  ∃ pc q, (call2 _create_open3d_point_cloud (AImage xyz) (ARgba rgba)).1 = Ok pc
    ∧ o3d_points pc !! k = Some q
    ∧ (coordinate p = PInf → coordinate q = Fin (finfo_max float32))
    ∧ (coordinate p = NInf → coordinate q = Fin (- finfo_max float32)).
Proof.
  intros Hcoord Hk. eexists. exists (vec3_map nan_to_num p).
  split; [apply create_open3d_point_cloud_run|].
  unfold open3d_cloud_value. rewrite remove_non_finite_after_nan_to_num.
  split; [rewrite list_lookup_fmap, Hk; reflexivity|].
  destruct Hcoord as [-> | [-> | ->]]; cbn [vec3_map v0 v1 v2];
    split; intros ->; reflexivity.
Qed.

Lemma open3d_cloud_clamps_infinite_witness :
  ∃ pc q, (call2 _create_open3d_point_cloud (AImage [[ipoint 1 2 3; V3 (of_int 1) NInf PInf]])
             (ARgba [[black; black]])).1 = Ok pc
    ∧ o3d_points pc !! 1%nat = Some q
    ∧ v2 q = Fin (finfo_max float32).
Proof.
  destruct (open3d_cloud_clamps_infinite [[ipoint 1 2 3; V3 (of_int 1) NInf PInf]]
              [[black; black]] 1 (V3 (of_int 1) NInf PInf) v2
              (or_intror (or_intror eq_refl)) eq_refl)
    as (pc & q & Hrun & Hq & Hpos & _).
  exact (ex_intro _ pc (ex_intro _ q (conj Hrun (conj Hq (Hpos eq_refl))))).
Defined.

(** ** The whole of multicam_cal.py *)

Section MultiCamMain.
Context `{ZividSDK}.
Variable dir : MultiCam.directory.

Lemma calibration_scan (fs : list frame) (i n : nat) :
  (∀ j f, fs !! j = Some f →
     MultiCam.img dir !! (i + j)%nat = Some f ∧ valid (detect_feature_points f) = true) →
  MultiCam.img dir !! (i + length fs)%nat = None →
  (length fs < n)%nat →
  first_invalid dir (seq i n) = None
  ∧ detected dir (seq i n) = seq i (length fs)
  ∧ collected dir (seq i n) = detect_feature_points <$> fs.
Proof.
  revert i n. induction fs as [|f fs IH]; intros i n Hfs Hgap Hn.
  - destruct n as [|n]; [cbn [length] in Hn; lia|].
    cbn [length] in Hgap. rewrite Nat.add_0_r in Hgap.
    cbn [seq first_invalid detected collected]. rewrite Hgap. now repeat split.
  - destruct n as [|n]; [lia|].
    destruct (Hfs 0%nat f eq_refl) as [Hf Hv]. rewrite Nat.add_0_r in Hf.
    cbn [seq first_invalid detected collected]. rewrite Hf, Hv.
    destruct (IH (S i) n) as (H1 & H2 & H3).
    + intros j g Hg. replace (S i + j)%nat with (i + S j)%nat by lia. now apply Hfs.
    + cbn [length] in Hgap. replace (S i + length fs)%nat with (i + S (length fs))%nat by lia.
      exact Hgap.
    + cbn [length] in Hn. lia.
    + rewrite H1, H2, H3. now repeat split.
Qed.

Lemma calibration_files_within_size (fs : list frame) :
  calibration_files dir fs → (length fs ≤ size (MultiCam.img dir))%nat.
Proof.
  intros [Hfs _]. apply present_le_size. intros j Hj.
  destruct (lookup_lt_is_Some_2 fs (j - 1)%nat ltac:(lia)) as [f Hf].
  destruct (Hfs _ _ Hf) as [Himg _].
  replace (S (j - 1)) with j in Himg by lia. now rewrite Himg.
Qed.

(** What [main] does once the calibration loop has read the files [fs]. *)
Lemma main_after_calibration (fs : list frame) :
  calibration_files dir fs →
  MultiCam.main dir []
  = (let results := calibrate_multi_camera (detect_feature_points <$> fs) in
     if output_valid results then
       match MultiCam.stitch_loop dir (transforms results) with
       | Ok st =>
           match MultiCam.stitched st with
           | Some (stitched_xyz, stitched_rgb) =>
               Ok (remove_non_finite_points (O3D stitched_xyz (over_255 <$> stitched_rgb)))
           | None => Raise (UnboundLocalError "stitched_xyz")
           end
       | Raise e => Raise e
       end
     else Raise (UnboundLocalError "transforms"),
     calibration_log (length fs)).
Proof.
  intros Hfiles. pose proof (calibration_files_within_size fs Hfiles) as Hsize.
  destruct Hfiles as [Hfs Hgap].
  destruct (calibration_scan fs 1 (S (size (MultiCam.img dir)))) as (H1 & H2 & H3);
    [exact Hfs | exact Hgap | lia |].
  unfold MultiCam.main, bind. rewrite calibration_loop_run, H1, H2, H3.
  cbv beta iota zeta delta [MultiCam.call_calibrate MultiCam.lift ret raise].
  rewrite !app_nil_l, length_fmap. fold (calibration_log (length fs)).
  destruct (output_valid _); [|reflexivity].
  destruct (MultiCam.stitch_loop dir _) as [st|e]; [|reflexivity].
  destruct (MultiCam.stitched st) as [[? ?]|]; reflexivity.
Qed.

(** Without the first test frame, or without a transform, the stitching loop
    binds nothing, or stops at the first concatenation. *)
Lemma stitch_unbound (ts : list mat4) (k : nat) :
  MultiCam.img_test dir !! 1%nat = None → (k ≤ length ts)%nat →
  for_each (MultiCam.stitch_body dir ts) (seq 0 k) (MultiCam.StitchState 1 None)
  = Ok (MultiCam.StitchState (k + 1) None)
  ∨ for_each (MultiCam.stitch_body dir ts) (seq 0 k) (MultiCam.StitchState 1 None)
    = Raise (UnboundLocalError "stitched_xyz").
Proof.
  intros Hmissing. induction k as [|k IH]; intros Hk; [now left|].
  rewrite seq_S, for_each_app.
  destruct IH as [-> | ->]; [lia | | now right].
  cbn [outcome_bind plus]. rewrite for_each_cons.
  unfold MultiCam.stitch_body. cbn [MultiCam.idata MultiCam.stitched].
  destruct (lookup_lt_is_Some_2 ts k ltac:(lia)) as [t ->].
  destruct (MultiCam.img_test dir !! (k + 1)%nat) as [f|] eqn:Hf.
  - destruct (k =? 0)%nat eqn:Hk0; [|now right].
    apply Nat.eqb_eq in Hk0. subst k. cbn [plus] in Hf. congruence.
  - left. cbn [outcome_bind for_each]. do 2 f_equal. lia.
Qed.

Lemma remove_non_finite_points_finite (pts cols : list vec3) :
  Forall (λ p, vec3_finite p = true) pts →
  remove_non_finite_points (O3D pts cols) = O3D pts cols.
Proof.
  intros Hfin. unfold remove_non_finite_points. cbn [o3d_points o3d_colors].
  case_bool_decide as Hlen.
  - rewrite filter_all.
    + rewrite fst_zip, snd_zip by lia. reflexivity.
    + apply Forall_forall. intros [p col] Hin. cbn [fst].
      apply elem_of_zip_l in Hin. rewrite Forall_forall in Hfin. now apply Hfin.
  - now rewrite filter_all.
Qed.

Lemma loaded_arrays_finite (ts : list mat4) (k : nat) :
  Forall (λ p, vec3_finite p = true) (concat (loaded_arrays dir ts k).*1).
Proof.
  apply Forall_concat, Forall_fmap, Forall_fmap, Forall_forall. intros [t f] _.
  cbn [fst snd frame_arrays compose]. rewrite reshape_nan_to_num.
  apply Forall_fmap, Forall_forall. intros p _. apply vec3_finite_nan_to_num.
Qed.

End MultiCamMain.

(** X16. When every calibration file up to the first missing number has a
    valid detection and the calibration does not succeed, [main] ends with
    an [UnboundLocalError] for [transforms], after one detection per file and
    one calibration call: the script goes on to the stitching loop without
    the transforms. *)
Theorem multicam_failed_calibration_is_unbound_transforms `{ZividSDK}
    (dir : MultiCam.directory) (fs : list frame) :
  calibration_files dir fs →
  output_valid (calibrate_multi_camera (detect_feature_points <$> fs)) = false →
  MultiCam.main dir []
  = (Raise (UnboundLocalError "transforms"), calibration_log (length fs)).
Proof.
  intros Hfiles Hinvalid. rewrite (main_after_calibration dir fs Hfiles).
  cbv zeta. now rewrite Hinvalid.
Qed.

Lemma multicam_failed_calibration_is_unbound_transforms_witness :
  let fs := [sample_frame [ipoint 0 0 0]; sample_frame [ipoint 0 0 1]] in
  calibration_files (H := failing_calibration_sdk) two_camera_directory fs
  ∧ MultiCam.main (H := failing_calibration_sdk) two_camera_directory []
    = (Raise (UnboundLocalError "transforms"),
       [MultiCam.DetectFeaturePoints 1; MultiCam.DetectFeaturePoints 2;
        MultiCam.CalibrateMultiCamera 2]).
Proof.
  intros fs.
  assert (calibration_files (H := failing_calibration_sdk) two_camera_directory fs) as Hfiles.
  { split; [|reflexivity].
    intros [|[|j]] f Hf; try discriminate Hf; injection Hf as <-; split; reflexivity. }
  exact (conj Hfiles
           (multicam_failed_calibration_is_unbound_transforms (H := failing_calibration_sdk)
              two_camera_directory fs Hfiles eq_refl)).
Defined.

(** X17. When the calibration succeeds but [img_test_01.zdf] is missing, or
    the calibration returns no transform, [main] ends with an
    [UnboundLocalError] for [stitched_xyz], whatever other test frames exist:
    the arrays are first bound for [i == 0] only. *)
Theorem multicam_without_first_test_frame `{ZividSDK}
    (dir : MultiCam.directory) (fs : list frame) :
  calibration_files dir fs →
  output_valid (calibrate_multi_camera (detect_feature_points <$> fs)) = true →
  MultiCam.img_test dir !! 1%nat = None
  ∨ transforms (calibrate_multi_camera (detect_feature_points <$> fs)) = [] →
  MultiCam.main dir []
  = (Raise (UnboundLocalError "stitched_xyz"), calibration_log (length fs)).
Proof.
  intros Hfiles Hvalid Hmissing. rewrite (main_after_calibration dir fs Hfiles).
  cbv zeta. rewrite Hvalid. f_equal.
  destruct Hmissing as [Hmissing | ->]; [|reflexivity].
  unfold MultiCam.stitch_loop.
  set (ts := transforms (calibrate_multi_camera (detect_feature_points <$> fs))).
  now destruct (stitch_unbound dir ts (length ts) Hmissing (Nat.le_refl _)) as [-> | ->].
Qed.

Lemma multicam_without_first_test_frame_witness :
  let fs := [sample_frame [ipoint 0 0 0]; sample_frame [ipoint 0 0 1]] in
  calibration_files (H := sample_sdk) missing_first_directory fs
  ∧ MultiCam.img_test missing_first_directory !! 1%nat = None
  ∧ MultiCam.main (H := sample_sdk) missing_first_directory []
    = (Raise (UnboundLocalError "stitched_xyz"),
       [MultiCam.DetectFeaturePoints 1; MultiCam.DetectFeaturePoints 2;
        MultiCam.CalibrateMultiCamera 2]).
Proof.
  intros fs.
  assert (calibration_files (H := sample_sdk) missing_first_directory fs) as Hfiles.
  { split; [|reflexivity].
    intros [|[|j]] f Hf; try discriminate Hf; injection Hf as <-; split; reflexivity. }
  exact (conj Hfiles (conj eq_refl
           (multicam_without_first_test_frame (H := sample_sdk) missing_first_directory fs
              Hfiles eq_refl (or_introl eq_refl)))).
Defined.

(** X18. When the calibration succeeds with at least one transform and
    [img_test_01.zdf] exists, [main] builds the cloud whose points are the
    concatenation of the arrays of the test frames that exist, each
    transformed by the transform of its number, and whose colours are their
    colours over 255; every point is finite, so the removal of non-finite
    points removes nothing. *)
Theorem multicam_stitches_every_loaded_frame `{ZividSDK}
    (dir : MultiCam.directory) (fs : list frame) (f1 : frame) :
  calibration_files dir fs →
  output_valid (calibrate_multi_camera (detect_feature_points <$> fs)) = true →
  MultiCam.img_test dir !! 1%nat = Some f1 →
  transforms (calibrate_multi_camera (detect_feature_points <$> fs)) ≠ [] →
  let ts := transforms (calibrate_multi_camera (detect_feature_points <$> fs)) in
  let stitched_xyz := concat (loaded_arrays dir ts (length ts)).*1 in
  let stitched_rgb := concat (loaded_arrays dir ts (length ts)).*2 in
  MultiCam.main dir [] = (Ok (O3D stitched_xyz (over_255 <$> stitched_rgb)),
                          calibration_log (length fs))
  ∧ Forall (λ p, vec3_finite p = true) stitched_xyz.
Proof.
  intros Hfiles Hvalid Hf1 Hts ts sx sr.
  split; [|apply loaded_arrays_finite].
  rewrite (main_after_calibration dir fs Hfiles).
  cbv zeta. rewrite Hvalid. fold ts. f_equal.
  unfold MultiCam.stitch_loop.
  rewrite (stitch_prefix_run dir ts f1 (length ts) Hf1); [| |lia].
  - cbn [MultiCam.stitched]. f_equal.
    apply remove_non_finite_points_finite, loaded_arrays_finite.
  - assert (length ts ≠ 0%nat) as Hlen by (intros Hl; now apply Hts, nil_length_inv).
    lia.
Qed.

Lemma multicam_stitches_every_loaded_frame_witness :
  let fs := [sample_frame [ipoint 0 0 0]; sample_frame [ipoint 0 0 1]] in
  calibration_files (H := sample_sdk) two_camera_directory fs
  ∧ MultiCam.main (H := sample_sdk) two_camera_directory []
    = (Ok (O3D (concat (loaded_arrays two_camera_directory [identity4; identity4] 2).*1)
             (over_255 <$> concat (loaded_arrays two_camera_directory
                                     [identity4; identity4] 2).*2)),
       calibration_log 2).
Proof.
  intros fs.
  assert (calibration_files (H := sample_sdk) two_camera_directory fs) as Hfiles.
  { split; [|reflexivity].
    intros [|[|j]] f Hf; try discriminate Hf; injection Hf as <-; split; reflexivity. }
  assert (transforms (calibrate_multi_camera (ZividSDK := sample_sdk)
                        (detect_feature_points (ZividSDK := sample_sdk) <$> fs)) ≠ [])
    as Hts by discriminate.
  exact (conj Hfiles
           (proj1 (multicam_stitches_every_loaded_frame (H := sample_sdk) two_camera_directory fs
                     (sample_frame [ipoint 1 2 3; nan3]) Hfiles eq_refl eq_refl Hts))).
Defined.

(** ** The live display of the continuous stitching *)

Lemma show_first (xyz : list vec3) (rgb : list (Z * Z * Z)) (vis : option Live.visualizer)
    (log : list Live.vis_call) :
  Live.show_pointcloud_open3d xyz rgb vis None log
  = (Ok (Live.Visualizer "Stitching", O3D xyz (over_255 <$> rgb)),
     log ++ [Live.CreateWindow "Stitching" 1920 1080; Live.AddGeometry (O3D xyz (over_255 <$> rgb));
             Live.SetBackgroundColor; Live.PollEvents; Live.UpdateRenderer]).
Proof.
  cbv [Live.show_pointcloud_open3d bind ret Live.call].
  now rewrite <- !app_assoc.
Qed.

Lemma show_next (xyz : list vec3) (rgb : list (Z * Z * Z)) (vis : Live.visualizer)
    (pcd : o3d_cloud) (log : list Live.vis_call) :
  Live.show_pointcloud_open3d xyz rgb (Some vis) (Some pcd) log
  = (Ok (vis, O3D xyz (over_255 <$> rgb)),
     log ++ [Live.UpdateGeometry (O3D xyz (over_255 <$> rgb)); Live.PollEvents;
             Live.UpdateRenderer]).
Proof.
  cbv [Live.show_pointcloud_open3d bind ret Live.call].
  now rewrite <- !app_assoc.
Qed.

Section LiveRuns.
Context `{ZividSDK} `{NumPy}.
Variable camera : nat → frame.

Lemma extend_and_show_next (st : Live.loop_state) (t : mat4) (stitched new : cloud)
    (v : Live.visualizer) (p : o3d_cloud) (log : list Live.vis_call) :
  Live.vis st = Some v → Live.pcd st = Some p →
  Live.extend_and_show st t stitched new log
  = (Ok (Live.LoopState (Continuous.LoopState t (stitched ++ new)) (Some v)
           (Some (O3D (Live.copy_xyz (stitched ++ new))
                    (over_255 <$> Live.copy_rgb (stitched ++ new))))),
     log ++ Live.next_show (stitched ++ new)).
Proof.
  intros Hv Hp. unfold Live.extend_and_show, bind. rewrite Hv, Hp, show_next. reflexivity.
Qed.

(** One capture once the window exists. *)
Lemma live_loop_body_shown (st : Live.loop_state) (n : nat) (v : Live.visualizer)
    (p : o3d_cloud) (log : list Live.vis_call) :
  Live.vis st = Some v → Live.pcd st = Some p →
  match Continuous.loop_body camera (Live.stitching st) n with
  | Ok s' =>
      ∃ st' clouds, Live.loop_body camera st n log
                    = (Ok st', log ++ concat (Live.next_show <$> clouds))
                    ∧ Live.stitching st' = s' ∧ Live.vis st' = Some v
                    ∧ is_Some (Live.pcd st') ∧ (length clouds ≤ 1)%nat
  | Raise e => Live.loop_body camera st n log = (Raise e, log)
  end.
Proof.
  intros Hv Hp. unfold Continuous.loop_body, Live.loop_body.
  destruct (negb (n =? 0)%nat).
  - destruct (negb (converged _)).
    + exists st, []. cbn [fmap list_fmap concat length]. rewrite app_nil_r.
      repeat split; [exact Hv | now rewrite Hp | lia].
    + destruct (np_linalg_inv _) as [inverse|]; [|reflexivity].
      rewrite (extend_and_show_next st _ _ _ v p log Hv Hp).
      eexists. eexists [_]. cbn [fmap list_fmap concat length]. rewrite app_nil_r.
      repeat split; [now eexists | lia].
  - rewrite (extend_and_show_next st _ _ _ v p log Hv Hp).
    eexists. eexists [_]. cbn [fmap list_fmap concat length]. rewrite app_nil_r.
    repeat split; [now eexists | lia].
Qed.

Lemma live_loop_shown (ns : list nat) (st : Live.loop_state) (v : Live.visualizer)
    (p : o3d_cloud) (log : list Live.vis_call) :
  Live.vis st = Some v → Live.pcd st = Some p →
  match for_each (Continuous.loop_body camera) ns (Live.stitching st) with
  | Ok s' =>
      ∃ st' clouds, for_each_m (Live.loop_body camera) ns st log
                    = (Ok st', log ++ concat (Live.next_show <$> clouds))
                    ∧ Live.stitching st' = s' ∧ Live.vis st' = Some v
                    ∧ is_Some (Live.pcd st') ∧ (length clouds ≤ length ns)%nat
  | Raise e =>
      ∃ clouds, for_each_m (Live.loop_body camera) ns st log
                = (Raise e, log ++ concat (Live.next_show <$> clouds))
                ∧ (length clouds ≤ length ns)%nat
  end.
Proof.
  revert st p log. induction ns as [|n ns IH]; intros st p log Hv Hp.
  - cbn [for_each for_each_m length]. exists st, [].
    cbn [fmap list_fmap concat length]. rewrite app_nil_r.
    repeat split; [exact Hv | now rewrite Hp | lia].
  - rewrite for_each_cons. cbn [length].
    assert (for_each_m (Live.loop_body camera) (n :: ns) st log
            = match Live.loop_body camera st n log with
              | (Ok st1, log1) => for_each_m (Live.loop_body camera) ns st1 log1
              | (Raise e, log1) => (Raise e, log1)
              end) as Hcons by reflexivity.
    rewrite Hcons. clear Hcons.
    pose proof (live_loop_body_shown st n v p log Hv Hp) as Hbody.
    destruct (Continuous.loop_body camera (Live.stitching st) n) as [s1|e].
    + destruct Hbody as (st1 & clouds1 & Hrun1 & <- & Hv1 & [p1 Hp1] & Hlen1).
      cbn [outcome_bind]. rewrite Hrun1.
      pose proof (IH st1 p1 (log ++ concat (Live.next_show <$> clouds1)) Hv1 Hp1) as Hrest.
      destruct (for_each (Continuous.loop_body camera) ns (Live.stitching st1)) as [s'|e].
      * destruct Hrest as (st' & clouds & Hrun & Hs & Hv' & Hp' & Hlen).
        exists st', (clouds1 ++ clouds).
        rewrite Hrun, fmap_app, concat_app, length_app, app_assoc.
        repeat split; [exact Hs | exact Hv' | exact Hp' | lia].
      * destruct Hrest as (clouds & Hrun & Hlen).
        exists (clouds1 ++ clouds).
        rewrite Hrun, fmap_app, concat_app, length_app, app_assoc. split; [reflexivity | lia].
    + rewrite Hbody. cbn [outcome_bind].
      exists []. cbn [fmap list_fmap concat length].
      rewrite app_nil_r. split; [reflexivity | lia].
Qed.

(** The whole script, from what the stitching alone gives. *)
Lemma live_main_run :
  let first := Live.first_show (continuous_capture camera 0) in
  match Continuous._main camera with
  | Ok final =>
      ∃ clouds, Live._main camera []
                = (Ok final,
                   first ++ concat (Live.next_show <$> clouds) ++ Live.next_show final
                   ++ [Live.Run; Live.DestroyWindow])
                ∧ (length clouds ≤ 19)%nat
  | Raise e =>
      ∃ clouds, Live._main camera [] = (Raise e, first ++ concat (Live.next_show <$> clouds))
                ∧ (length clouds ≤ 19)%nat
  end.
Proof.
  intros first.
  set (s0 := Continuous.LoopState identity4 ([] ++ continuous_capture camera 0)).
  set (st0 := Live.LoopState s0 (Some (Live.Visualizer "Stitching"))
                (Some (O3D (Live.copy_xyz ([] ++ continuous_capture camera 0))
                         (over_255 <$> Live.copy_rgb ([] ++ continuous_capture camera 0))))).
  assert (Live.loop_body camera Live.initial_state 0 [] = (Ok st0, first)) as Hfirst.
  { unfold Live.loop_body, Live.extend_and_show, bind. cbn [Nat.eqb negb].
    cbn [Live.initial_state Live.vis Live.pcd Live.stitching].
    rewrite show_first. reflexivity. }
  assert (for_each_m (Live.loop_body camera) (seq 0 20) Live.initial_state []
          = for_each_m (Live.loop_body camera) (seq 1 19) st0 first) as Hloop.
  { change (seq 0 20) with (0%nat :: seq 1 19). cbn [for_each_m]. unfold bind.
    now rewrite Hfirst. }
  unfold Continuous._main. change (seq 0 20) with (0%nat :: seq 1 19).
  rewrite for_each_cons.
  assert (Continuous.loop_body camera Continuous.initial_state 0 = Ok s0) as -> by reflexivity.
  cbn [outcome_bind].
  pose proof (live_loop_shown (seq 1 19) st0 _ _ first eq_refl eq_refl) as Hrest.
  change (Live.stitching st0) with s0 in Hrest.
  destruct (for_each (Continuous.loop_body camera) (seq 1 19) s0) as [s'|e].
  - destruct Hrest as (st' & clouds & Hrun & Hs & Hv & [p Hp] & Hlen).
    exists clouds. rewrite length_seq in Hlen. split; [|exact Hlen].
    unfold Live._main. unfold bind at 1. rewrite Hloop, Hrun.
    unfold bind at 1. rewrite Hv, Hp, Hs, show_next.
    cbv [bind ret Live.call]. fold (Live.next_show (voxel_downsampled
      (Continuous.unorganized_stitched_point_cloud s') three_quarters 2)).
    now rewrite <- !app_assoc.
  - destruct Hrest as (clouds & Hrun & Hlen).
    exists clouds. rewrite length_seq in Hlen. split; [|exact Hlen].
    unfold Live._main. unfold bind at 1. now rewrite Hloop, Hrun.
Qed.

End LiveRuns.

(** X19. With its live display the continuous script ends as the stitching
    alone does: with the same down-sampled cloud, or with the [LinAlgError]
    of a failed inversion.  The display changes nothing of the stitching and
    the assertion of [show_pointcloud_open3d] never fails in [_main]. *)
Theorem live_display_keeps_the_stitching `{ZividSDK} `{NumPy} (camera : nat → frame) :
  (Live._main camera []).1 = Continuous._main camera
  ∧ ∀ k, (Live._main camera []).1 ≠ Raise (AssertionError k).
Proof.
  assert ((Live._main camera []).1 = Continuous._main camera) as Hsame.
  { pose proof (live_main_run camera) as Hrun. cbv zeta in Hrun.
    destruct (Continuous._main camera) as [final|e];
      destruct Hrun as (clouds & -> & _); reflexivity. }
  split; [exact Hsame|].
  intros k. rewrite Hsame. unfold Continuous._main.
  destruct (continuous_loop_outcome camera (seq 0 20) Continuous.initial_state)
    as [[st ->] | ->]; discriminate.
Qed.

(** X20. In [_main] the window is created once, by the display of the first
    capture; every later display (at most nineteen in the loop, one for each
    capture that was not skipped) is an update of the geometry.  When the
    script ends normally the last update shows the down-sampled cloud and is
    followed by [run] and [destroy_window]; when it ends with an exception
    the window is never closed. *)
Theorem live_display_calls `{ZividSDK} `{NumPy} (camera : nat → frame) :
  ∃ clouds,
    (length clouds ≤ 19)%nat
    ∧ match (Live._main camera []).1 with
      | Ok final =>
          (Live._main camera []).2
          = Live.first_show (continuous_capture camera 0)
            ++ concat (Live.next_show <$> clouds) ++ Live.next_show final
            ++ [Live.Run; Live.DestroyWindow]
      | Raise _ =>
          (Live._main camera []).2
          = Live.first_show (continuous_capture camera 0) ++ concat (Live.next_show <$> clouds)
      end.
Proof.
  pose proof (live_main_run camera) as Hrun. cbv zeta in Hrun.
  destruct (Continuous._main camera) as [final|e];
    destruct Hrun as (clouds & -> & Hlen); exists clouds; now split.
Qed.

(** ** The stitching scripts as a whole *)

Lemma rgba_transformed (m : mat4) (c : cloud) : rgba <$> transformed m c = rgba <$> c.
Proof. unfold transformed. rewrite <- list_fmap_compose. reflexivity. Qed.

Lemma shoes_loop_outcome `{ZividSDK} (clouds : nat → cloud) (indices : list nat) (s : cloud) :
  (∃ s', for_each (Shoes.loop_body clouds) indices s = Ok s')
  ∨ (∃ i, i ∈ indices ∧ for_each (Shoes.loop_body clouds) indices s
                        = Raise (AssertionError (i + 1))).
Proof.
  revert s. induction indices as [|i indices IH]; intros s; [left; now eexists|].
  rewrite for_each_cons.
  assert ((∃ s1, Shoes.loop_body clouds s i = Ok s1)
          ∨ Shoes.loop_body clouds s i = Raise (AssertionError (i + 1))) as [[s1 ->] | ->].
  { unfold Shoes.loop_body. destruct (converged _); [left; now eexists | now right]. }
  - cbn [outcome_bind]. destruct (IH s1) as [[s' Hs'] | (j & Hj & Hraise)].
    + left. now exists s'.
    + right. exists j. split; [now apply list_elem_of_further | exact Hraise].
  - right. exists i. split; [apply list_elem_of_here | reflexivity].
Qed.

(** X21. The shoes script treats the first pair as its loop treats the later
    files: the whole script is the loop body run for the files 02 to 05 in
    turn, from the first cloud.  It ends with the stitched cloud, or with the
    failed assertion about one of the files 02 to 05, and with nothing
    else. *)
Theorem shoes_script_is_one_loop `{ZividSDK} (frames : nat → frame) :
  let clouds i := to_unorganized_point_cloud (frames i) in
  Shoes._main frames
  = outcome_bind (for_each (Shoes.loop_body clouds) (seq 1 4) (clouds 0%nat))
      (λ s, Ok (s, voxel_downsampled s half 1))
  ∧ ((∃ r, Shoes._main frames = Ok r)
     ∨ ∃ k, (2 ≤ k ≤ 5)%nat ∧ Shoes._main frames = Raise (AssertionError k)).
Proof.
  intros clouds.
  assert (Shoes._main frames
          = outcome_bind (for_each (Shoes.loop_body clouds) (seq 1 4) (clouds 0%nat))
              (λ s, Ok (s, voxel_downsampled s half 1))) as Hloop.
  { change (seq 1 4) with (1%nat :: seq 2 3). rewrite for_each_cons.
    unfold Shoes._main. fold clouds.
    change (Shoes.loop_body clouds (clouds 0%nat) 1) with (Shoes.first_pair clouds).
    now destruct (Shoes.first_pair clouds). }
  split; [exact Hloop|]. rewrite Hloop.
  destruct (shoes_loop_outcome clouds (seq 1 4) (clouds 0%nat))
    as [[s' ->] | (i & Hi & ->)].
  - left. now eexists.
  - right. exists (i + 1)%nat. apply elem_of_seq in Hi. split; [lia | reflexivity].
Qed.

(** X22. When the registration converges, the cloud the two-cloud script
    stitches begins with the first cloud as it was captured and goes on with
    one point for each point of the second cloud, in order and with its
    colour: no point is dropped or recoloured before the final
    down-sampling. *)
Theorem two_clouds_keeps_every_point `{ZividSDK} (frame_1 frame_2 : frame) :
  let c1 := to_unorganized_point_cloud frame_1 in
  let c2 := to_unorganized_point_cloud frame_2 in
  converged (local_point_cloud_registration (voxel_downsampled c1 1 3)
               (voxel_downsampled c2 1 3) LocalPointCloudRegistrationParameters None) = true →
  ∃ stitched downsampled,
    TwoClouds._main frame_1 frame_2 = Ok (stitched, downsampled)
    ∧ take (length c1) stitched = c1
    ∧ rgba <$> drop (length c1) stitched = rgba <$> c2
    ∧ length stitched = (length c1 + length c2)%nat.
Proof.
  intros c1 c2 Hconv. unfold TwoClouds._main. fold c1. fold c2. rewrite Hconv.
  eexists. eexists. split; [reflexivity|].
  cbn [app]. rewrite take_app_length, drop_app_length, rgba_transformed, length_app.
  unfold transformed. rewrite length_fmap. now repeat split.
Qed.

Lemma two_clouds_keeps_every_point_witness :
  let frame_1 := sample_frame [ipoint 1 2 3] in
  let frame_2 := sample_frame [ipoint 4 5 6] in
  ∃ stitched downsampled,
    TwoClouds._main (H := sample_sdk) frame_1 frame_2 = Ok (stitched, downsampled)
    ∧ take (length (to_unorganized_point_cloud (ZividSDK := sample_sdk) frame_1)) stitched
      = to_unorganized_point_cloud (ZividSDK := sample_sdk) frame_1
    ∧ rgba <$> drop (length (to_unorganized_point_cloud (ZividSDK := sample_sdk) frame_1)) stitched
      = rgba <$> to_unorganized_point_cloud (ZividSDK := sample_sdk) frame_2
    ∧ length stitched
      = (length (to_unorganized_point_cloud (ZividSDK := sample_sdk) frame_1)
         + length (to_unorganized_point_cloud (ZividSDK := sample_sdk) frame_2))%nat.
Proof.
  intros frame_1 frame_2.
  exact (two_clouds_keeps_every_point (H := sample_sdk) frame_1 frame_2 eq_refl).
Defined.

Section ContinuousTrajectories.
Context `{ZividSDK} `{NumPy}.
Variable camera : nat → frame.

Lemma transformed_concat (m : mat4) (clouds : list cloud) :
  transformed m (concat clouds) = concat (transformed m <$> clouds).
Proof. unfold transformed. apply (concat_map _ clouds). Qed.

Lemma continuous_move_concat (n : nat) (clouds : list cloud) :
  continuous_move camera n (concat clouds) = concat (continuous_move camera n <$> clouds).
Proof.
  assert (concat clouds = concat ((λ c, c) <$> clouds)) as Hid by now rewrite list_fmap_id.
  unfold continuous_move.
  destruct (continuous_after camera n) as [st|e]; [|exact Hid].
  destruct (n =? 0)%nat; [exact Hid|].
  destruct (converged _); [|exact Hid].
  destruct (np_linalg_inv _); [apply transformed_concat | exact Hid].
Qed.

Lemma rgba_continuous_move (n : nat) (c : cloud) :
  rgba <$> continuous_move camera n c = rgba <$> c.
Proof.
  unfold continuous_move.
  destruct (continuous_after camera n) as [st|e]; [|reflexivity].
  destruct (n =? 0)%nat; [reflexivity|].
  destruct (converged _); [|reflexivity].
  destruct (np_linalg_inv _); [apply rgba_transformed | reflexivity].
Qed.

Lemma rgba_continuous_moved (k n : nat) :
  rgba <$> continuous_moved camera k n = rgba <$> continuous_capture camera k.
Proof.
  unfold continuous_moved.
  induction (seq (S k) (n - S k)) as [|j js IH] using rev_ind; [reflexivity|].
  now rewrite foldl_app, <- IH; cbn [foldl]; rewrite rgba_continuous_move.
Qed.

Lemma continuous_moved_self (m : nat) :
  continuous_moved camera m (S m) = continuous_capture camera m.
Proof. unfold continuous_moved. now replace (S m - S m)%nat with 0%nat by lia. Qed.

Lemma continuous_moved_S (k m : nat) :
  (k < m)%nat →
  continuous_moved camera k (S m) = continuous_move camera m (continuous_moved camera k m).
Proof.
  intros Hk. unfold continuous_moved.
  replace (S m - S k)%nat with (S (m - S k)) by lia.
  rewrite seq_S, foldl_app. cbn [foldl].
  now replace (S k + (m - S k))%nat with m by lia.
Qed.

(** One capture, from the state before it to the state after it. *)
Lemma continuous_after_step (n : nat) (st0 st : Continuous.loop_state) :
  continuous_after camera n = Ok st0 → continuous_after camera (S n) = Ok st →
  Continuous.unorganized_stitched_point_cloud st
  = continuous_move camera n (Continuous.unorganized_stitched_point_cloud st0)
    ++ (if continuous_stitched camera n then continuous_capture camera n else []).
Proof.
  intros Hbefore. cbn [continuous_after].
  unfold continuous_move, continuous_stitched. rewrite Hbefore. cbn [outcome_bind].
  destruct (n =? 0)%nat; cbn [orb].
  - now intros [= <-].
  - destruct (converged _).
    + destruct (np_linalg_inv _); [now intros [= <-] | discriminate].
    + intros [= <-]. now rewrite app_nil_r.
Qed.

(** After [n] captures the accumulated cloud holds the stitched captures,
    each moved by the captures after it. *)
Lemma continuous_after_trajectories (n : nat) (st : Continuous.loop_state) :
  continuous_after camera n = Ok st →
  Continuous.unorganized_stitched_point_cloud st
  = concat ((λ k, continuous_moved camera k n)
              <$> filter (λ k, continuous_stitched camera k = true) (seq 0 n)).
Proof.
  revert st. induction n as [|n IH]; intros st Hafter.
  - injection Hafter as <-. reflexivity.
  - destruct (continuous_after camera n) as [st0|e] eqn:Hbefore;
      [|cbn [continuous_after] in Hafter; rewrite Hbefore in Hafter; discriminate].
    rewrite (continuous_after_step n st0 st Hbefore Hafter), (IH st0 eq_refl).
    rewrite continuous_move_concat, <- list_fmap_compose.
    rewrite seq_S, filter_app, fmap_app, concat_app. cbn [plus]. f_equal.
    + f_equal. apply list_fmap_ext. intros i k Hk. cbn [compose].
      apply list_elem_of_lookup_2, list_elem_of_filter in Hk as [_ Hk].
      apply elem_of_seq in Hk. symmetry. apply continuous_moved_S. lia.
    + destruct (continuous_stitched camera n) eqn:Hstitched.
      * rewrite filter_cons_True by exact Hstitched.
        cbn [filter list_filter fmap list_fmap concat].
        now rewrite continuous_moved_self, app_nil_r.
      * rewrite filter_cons_False by (rewrite Hstitched; discriminate). reflexivity.
Qed.

End ContinuousTrajectories.

(** X23. When the loop of the continuous script ends normally, the cloud it
    has accumulated over its twenty captures, before the final
    down-sampling, is made of the stitched captures and of nothing else, in
    the order of capture: the first capture and each later capture whose
    registration converged, whole, each moved by the inverse transforms of
    the captures stitched after it; every point keeps the colour it was
    captured with.  The loop ends otherwise with a [LinAlgError] only. *)
Theorem continuous_keeps_whole_captures `{ZividSDK} `{NumPy} (camera : nat → frame) :
  match for_each (Continuous.loop_body camera) (seq 0 20) Continuous.initial_state with
  | Ok st =>
      let kept := filter (λ k, continuous_stitched camera k = true) (seq 0 20) in
      Continuous.unorganized_stitched_point_cloud st
      = concat ((λ k, continuous_moved camera k 20) <$> kept)
      ∧ rgba <$> Continuous.unorganized_stitched_point_cloud st
        = concat ((λ k, rgba <$> continuous_capture camera k) <$> kept)
      ∧ head kept = Some 0%nat
  | Raise e => e = LinAlgError
  end.
Proof.
  pose proof (continuous_loop_outcome camera (seq 0 20) Continuous.initial_state) as Hend.
  rewrite continuous_loop_is_chain in Hend |- *.
  destruct (continuous_after camera 20) as [st|e] eqn:Hafter.
  - cbv zeta. pose proof (continuous_after_trajectories camera 20 st Hafter) as Hcloud.
    split; [exact Hcloud|]. split; [|reflexivity].
    rewrite Hcloud. clear Hcloud.
    induction (filter (λ k, continuous_stitched camera k = true) (seq 0 20)) as [|k ks IH];
      [reflexivity|].
    cbn [fmap list_fmap concat]. rewrite fmap_app. f_equal.
    + apply rgba_continuous_moved.
    + exact IH.
  - destruct Hend as [[st' Hst'] | Hraise]; [discriminate Hst' | now injection Hraise].
Qed.
